(** * Synthetic-Data-Generator: a shallow embedding of [app.py]

    The Streamlit script [app.py] is embedded as a computation in a small
    state-and-exception monad.  One run of the script is one evaluation of
    [app]: it reads the widget values of the session, talks to the
    generation library (the collaborator), writes uploaded documents below a
    temporary directory, and leaves a trace of the calls it made
    (Streamlit elements, file writes, collaborator calls).

    Library code (Streamlit, deepeval, [json.dumps], [str]) is not part of
    the repository: it enters through the interfaces [Session],
    [Runtime] and [Collaborator]. *)

From Stdlib Require Import ZArith String Ascii List Lia Bool DecimalString.
From stdpp Require Import base decidable option list strings gmap.
Import ListNotations.

Set Warnings "-register-all".

Local Open Scope string_scope.
Local Open Scope list_scope.
Local Open Scope Z_scope.

(** ** Python values *)

Abbreviation bytes := (list Byte.byte).

(** The values that can sit in a field of a [Golden] or in the exported
    JSON document.  [PObject] stands for any other Python object; it carries
    its truth value and an identity. *)
Inductive pyval : Type :=
| PNone
| PBool (b : bool)
| PInt (z : Z)
| PStr (s : string)
| PList (items : list pyval)
| PDict (entries : list (string * pyval))
| PObject (truth : bool) (id : nat).

(** [bool(v)] *)
Definition truthy (v : pyval) : bool :=
  match v with
  | PNone => false
  | PBool b => b
  | PInt z => negb (z =? 0)
  | PStr s => negb (String.eqb s EmptyString)
  | PList items => match items with [] => false | _ :: _ => true end
  | PDict entries => match entries with [] => false | _ :: _ => true end
  | PObject t _ => t
  end.

(** A Python [dict] keeps its keys in insertion order; [d[k] = v] replaces
    the value of an existing key in place and appends a new key. *)
Fixpoint dict_setitem (k : string) (v : pyval) (d : list (string * pyval))
  : list (string * pyval) :=
  match d with
  | [] => [(k, v)]
  | (k', v') :: d' =>
      if String.eqb k' k then (k, v) :: d' else (k', v') :: dict_setitem k v d'
  end.

Definition dict_keys (d : list (string * pyval)) : list string := map fst d.

Fixpoint dict_get (k : string) (d : list (string * pyval)) : option pyval :=
  match d with
  | [] => None
  | (k', v') :: d' => if String.eqb k' k then Some v' else dict_get k d'
  end.

(** ** Exceptions *)

(** The part of the exception hierarchy the script depends on:
    [except Exception] catches every class below [Exception] and lets the
    classes that derive from [BaseException] only pass. *)
Inductive exc_class : Type :=
| AttributeError
| TypeError
| ValueError
| OSError
| OtherException (name : string)
| KeyboardInterrupt
| SystemExit
| GeneratorExit
| OtherBaseException (name : string).

Record exn : Type := mk_exn { exc_type : exc_class; exc_str : string }.

(** [isinstance(e, Exception)] *)
Definition isinstance_Exception (e : exn) : bool :=
  match exc_type e with
  | AttributeError | TypeError | ValueError | OSError | OtherException _ => true
  | KeyboardInterrupt | SystemExit | GeneratorExit | OtherBaseException _ => false
  end.

Inductive outcome (A : Type) : Type :=
| Return (a : A)
| Raise (e : exn).
Arguments Return {A} a.
Arguments Raise {A} e.

(** ** Goldens *)

(** A [Golden] as the script sees it: an object whose attributes may or may
    not exist ([None] here is a missing attribute, which [hasattr] reports
    and a plain attribute access turns into [AttributeError]); an existing
    attribute holds a Python value, possibly [PNone]. *)
Record Golden : Type := mk_Golden {
  g_input : option pyval;
  g_expected_output : option pyval;
  g_context : option pyval;
  g_additional_metadata : option pyval;
  g_source_file : option pyval
}.

Definition hasattr (attr : option pyval) : bool :=
  match attr with Some _ => true | None => false end.

(** [hasattr(golden, a) and golden.a] as a condition *)
Definition present (attr : option pyval) : bool :=
  match attr with Some v => truthy v | None => false end.

Record StylingConfig : Type := mk_StylingConfig {
  input_format : string;
  expected_output_format : string;
  task : string;
  scenario : string
}.

Record UploadedFile : Type := mk_UploadedFile {
  name : string;
  getvalue : bytes
}.

(** ** The file system *)

(** A resolved location: the directory names from the root down. *)
Abbreviation path := (list string).

Record FS : Type := mk_FS {
  cwd : path;
  dirs : gset path;
  files : gmap path bytes
}.

(** [s.split(sep)] *)
Fixpoint split_on (sep : ascii) (s : string) : list string :=
  match s with
  | EmptyString => [EmptyString]
  | String c rest =>
      if Ascii.eqb c sep then EmptyString :: split_on sep rest
      else match split_on sep rest with
           | [] => [String c EmptyString]
           | w :: ws => String c w :: ws
           end
  end.

Definition slash : ascii := "/"%char.

Definition startswith_slash (s : string) : bool :=
  match s with
  | String c _ => Ascii.eqb c slash
  | EmptyString => false
  end.

Fixpoint endswith_slash (s : string) : bool :=
  match s with
  | EmptyString => false
  | String c EmptyString => Ascii.eqb c slash
  | String _ rest => endswith_slash rest
  end.

Fixpoint has_nul (s : string) : bool :=
  match s with
  | EmptyString => false
  | String c rest => Ascii.eqb c zero || has_nul rest
  end.

(** [os.path.join(a, b)] of [posixpath], for two arguments: an absolute
    [b] (or an empty [a]) discards [a]. *)
Definition os_path_join (a b : string) : string :=
  if startswith_slash b || String.eqb a EmptyString then b
  else if endswith_slash a then a +:+ b
  else a +:+ "/" +:+ b.

Definition is_dir (fs : FS) (p : path) : bool :=
  bool_decide (p = [] ∨ p ∈ dirs fs).

Definition parent (p : path) : path := removelast p.

Definition dot_name (c : string) : bool :=
  String.eqb c EmptyString || String.eqb c ".".

(** Path resolution as the kernel does it, one component at a time, without
    symbolic links: empty components and [.] stay, [..] goes up, a name must
    be an existing directory. *)
Fixpoint walk (fs : FS) (cur : path) (comps : list string) : option path :=
  match comps with
  | [] => Some cur
  | c :: cs =>
      if dot_name c then walk fs cur cs
      else if String.eqb c ".." then walk fs (parent cur) cs
      else if is_dir fs (cur ++ [c]) then walk fs (cur ++ [c]) cs
      else None
  end.

Definition start_dir (fs : FS) (s : string) : path :=
  if startswith_slash s then [] else cwd fs.

(** The directory a path string names, if it names one. *)
Definition resolve_dir (fs : FS) (s : string) : option path :=
  walk fs (start_dir fs s) (split_on slash s).

(** The entry a path string names for creation: its resolved parent
    directory and the last component, which must be a proper name. *)
Definition resolve_entry (fs : FS) (s : string) : option path :=
  let comps := split_on slash s in
  let base := List.last comps EmptyString in
  if dot_name base || String.eqb base ".." then None
  else match walk fs (start_dir fs s) (removelast comps) with
       | Some d => Some (d ++ [base])
       | None => None
       end.

Definition quoted (s : string) : string := "'" +:+ s +:+ "'".

Definition no_such_file (s : string) : exn :=
  mk_exn OSError ("[Errno 2] No such file or directory: " +:+ quoted s).
Definition is_a_directory (s : string) : exn :=
  mk_exn OSError ("[Errno 21] Is a directory: " +:+ quoted s).
Definition file_exists (s : string) : exn :=
  mk_exn OSError ("[Errno 17] File exists: " +:+ quoted s).
Definition embedded_null : exn :=
  mk_exn ValueError "embedded null byte".

(** Where [open(s, "wb")] creates or truncates its file. *)
Definition open_wb (fs : FS) (s : string) : outcome path :=
  if has_nul s then Raise embedded_null
  else match resolve_entry fs s with
       | None => Raise (no_such_file s)
       | Some t => if is_dir fs t then Raise (is_a_directory s) else Return t
       end.

Definition write_file (t : path) (data : bytes) (fs : FS) : FS :=
  mk_FS (cwd fs) (dirs fs) (<[t := data]> (files fs)).

(** Where [os.mkdir(s)] creates its directory. *)
Definition mkdir (fs : FS) (s : string) : outcome path :=
  if has_nul s then Raise embedded_null
  else match resolve_entry fs s with
       | None => Raise (no_such_file s)
       | Some t =>
           if is_dir fs t || bool_decide (is_Some (files fs !! t))
           then Raise (file_exists s) else Return t
       end.

Definition add_dir (t : path) (fs : FS) : FS :=
  mk_FS (cwd fs) ({[ t ]} ∪ dirs fs) (files fs).

(** [shutil.rmtree]: everything at or below [t] goes. *)
Definition remove_tree (t : path) (fs : FS) : FS :=
  mk_FS (cwd fs)
        (filter (λ p, ¬ t `prefix_of` p) (dirs fs))
        (filter (λ kv, ¬ t `prefix_of` kv.1) (files fs)).

(** ** The trace of a run *)

(** What the script does to the outside, in the order it does it: the
    Streamlit elements it renders, the directories and files it creates and
    removes, and its calls of the generation library. *)
Inductive event : Type :=
| St_set_page_config (page_title layout : string)
| St_title (body : string)
| St_markdown (body : string)
| St_header (body : string)
| St_subheader (body : string)
| St_columns (spec : nat)
| St_text_area (label value : string) (height : Z)
| St_text_input (label value : string)
| St_slider (label : string) (min_value max_value value : Z)
| St_button (label : string)
| St_file_uploader (label : string) (accept_multiple_files : bool)
| St_spinner (text : string)
| St_expander (label : string)
| St_json (body : pyval)
| St_info (body : string)
| St_warning (body : string)
| St_error (body : string)
| St_download_button (label data file_name mime : string)
| St_sidebar_radio (label : string) (options : list string)
| St_sidebar_markdown (body : string)
| St_sidebar_header (body : string)
| Sys_mkdtemp (dir : path)
| Sys_write (file : path) (data : bytes)
| Sys_rmtree (dir : path)
| Call_GPTModel (openai_api_key : option string)
| Call_Synthesizer (styling_config : option StylingConfig)
| Call_generate_goldens_from_scratch (num_goldens : Z)
| Call_generate_goldens_from_docs (document_paths : list string) (at_call : FS).

(** ** The monad: file-system state, exceptions, and an output trace *)

Record result (A : Type) : Type := mk_result {
  res_out : outcome A;
  res_fs : FS;
  res_trace : list event
}.
Arguments mk_result {A} _ _ _.
Arguments res_out {A} _.
Arguments res_fs {A} _.
Arguments res_trace {A} _.

Definition M (A : Type) : Type := FS -> result A.

Definition ret {A} (a : A) : M A := fun fs => mk_result (Return a) fs [].

Definition raise {A} (e : exn) : M A := fun fs => mk_result (Raise e) fs [].

Definition bind {A B} (m : M A) (k : A -> M B) : M B :=
  fun fs =>
    let r := m fs in
    match res_out r with
    | Return a =>
        let r' := k a (res_fs r) in
        mk_result (res_out r') (res_fs r') (res_trace r ++ res_trace r')
    | Raise e => mk_result (Raise e) (res_fs r) (res_trace r)
    end.

Declare Scope py_scope.
Delimit Scope py_scope with py.
Notation "x <- c ;; k" := (bind c (fun x => k))
  (at level 100, c at next level, k at level 200, right associativity) : py_scope.
Notation "c ;; k" := (bind c (fun _ => k))
  (at level 100, k at level 200, right associativity) : py_scope.
Local Open Scope py_scope.

Definition emit (ev : event) : M unit := fun fs => mk_result (Return tt) fs [ev].

Definition lift {A} (o : outcome A) : M A := fun fs => mk_result o fs [].

Definition get_fs : M FS := fun fs => mk_result (Return fs) fs [].

(** [try: body  except Exception as e: handler(e)] *)
Definition try_except_Exception (body : M unit) (handler : exn -> M unit) : M unit :=
  fun fs =>
    let r := body fs in
    match res_out r with
    | Return _ => r
    | Raise e =>
        if isinstance_Exception e then
          let r' := handler e (res_fs r) in
          mk_result (res_out r') (res_fs r') (res_trace r ++ res_trace r')
        else r
    end.

(** [try: body  finally: cleanup], as a context manager's exit runs *)
Definition finally {A} (body : M A) (cleanup : M unit) : M A :=
  fun fs =>
    let r := body fs in
    let r' := cleanup (res_fs r) in
    mk_result
      (match res_out r' with Return _ => res_out r | Raise e' => Raise e' end)
      (res_fs r') (res_trace r ++ res_trace r').

(** [for x in xs: acc = body(acc, x)] *)
Fixpoint for_fold {A B} (xs : list A) (acc : B) (body : B -> A -> M B) : M B :=
  match xs with
  | [] => ret acc
  | x :: xs' => acc' <- body acc x ;; for_fold xs' acc' body
  end.

(** [for i, x in enumerate(xs): body(i, x)], counting from [i] *)
Fixpoint for_enumerate_from {A} (i : nat) (xs : list A) (body : nat -> A -> M unit) : M unit :=
  match xs with
  | [] => ret tt
  | x :: xs' => body i x ;; for_enumerate_from (S i) xs' body
  end.

Definition for_enumerate {A} (xs : list A) (body : nat -> A -> M unit) : M unit :=
  for_enumerate_from 0%nat xs body.

(** [golden.attr]: a missing attribute raises [AttributeError]. *)
Definition getattr (attr_name : string) (attr : option pyval) : M pyval :=
  match attr with
  | Some v => ret v
  | None =>
      raise (mk_exn AttributeError
               ("'Golden' object has no attribute " +:+ quoted attr_name))
  end.

Definition nl : string := String (ascii_of_nat 10) EmptyString.

(** The f-string that wraps a value in a fenced block *)
Definition fenced (s : string) : string := "```" +:+ nl +:+ s +:+ nl +:+ "```".

Definition decimal (n : nat) : string := NilZero.string_of_uint (Nat.to_uint n).

(** ** The interfaces to library code *)

(** What the Streamlit session hands to the input widgets of one run, and
    the process environment. *)
Class Session : Type := {
  getenv : string -> option string;
  radio : string -> list string -> string;
  text_area : string -> string -> string;
  text_input : string -> string -> string;
  slider : string -> Z -> Z -> Z -> Z;
  button : string -> bool;
  file_uploader : string -> list UploadedFile
}.

(** The Python runtime: [str], [json.dumps(_, indent=2)], the name
    [tempfile] picks, and the failures the operating system may add to a
    file operation. *)
Class Runtime : Type := {
  py_str : pyval -> string;
  json_dumps : pyval -> outcome string;
  mkdtemp_name : string;
  io_fault : FS -> string -> option exn
}.

(** The generation library.  A call of a generation method leaves the
    synthesizer in a new state, whose [synthetic_goldens] the script reads.
    The generation from documents reads the file system it is called on and
    leaves it as it is. *)
Class Collaborator : Type := {
  GPTModel : Type;
  Synthesizer : Type;
  GPTModel_init : option string -> outcome GPTModel;
  Synthesizer_init : option StylingConfig -> option GPTModel -> outcome Synthesizer;
  generate_goldens_from_scratch : Synthesizer -> Z -> outcome Synthesizer;
  generate_goldens_from_docs : Synthesizer -> FS -> list string -> outcome Synthesizer;
  synthetic_goldens : Synthesizer -> list Golden
}.

(** ** The script *)

Section App.
Context `{Session} `{Runtime} `{Collaborator}.

(** *** Streamlit and system calls *)

Definition st_text_area (label value : string) (height : Z) : M string :=
  emit (St_text_area label value height) ;; ret (text_area label value).

Definition st_text_input (label value : string) : M string :=
  emit (St_text_input label value) ;; ret (text_input label value).

Definition st_slider (label : string) (min_value max_value value : Z) : M Z :=
  emit (St_slider label min_value max_value value) ;;
  ret (slider label min_value max_value value).

Definition st_button (label : string) : M bool :=
  emit (St_button label) ;; ret (button label).

Definition st_file_uploader (label : string) : M (list UploadedFile) :=
  emit (St_file_uploader label true) ;; ret (file_uploader label).

Definition st_sidebar_radio (label : string) (options : list string) : M string :=
  emit (St_sidebar_radio label options) ;; ret (radio label options).

(** [with open(file_path, "wb") as f: f.write(data)] *)
Definition write_binary (file_path : string) (data : bytes) : M unit :=
  fun fs =>
    match io_fault fs file_path with
    | Some e => mk_result (Raise e) fs []
    | None =>
        match open_wb fs file_path with
        | Raise e => mk_result (Raise e) fs []
        | Return t => mk_result (Return tt) (write_file t data fs) [Sys_write t data]
        end
    end.

(** Entering [tempfile.TemporaryDirectory()]: a fresh directory is made
    and its name bound. *)
Definition TemporaryDirectory_enter : M string :=
  fun fs =>
    match mkdir fs mkdtemp_name with
    | Raise e => mk_result (Raise e) fs []
    | Return t => mk_result (Return mkdtemp_name) (add_dir t fs) [Sys_mkdtemp t]
    end.

(** Leaving it: the directory and all it holds are removed; a directory
    that is no longer there is not an error. *)
Definition TemporaryDirectory_exit (temp_dir : string) : M unit :=
  fun fs =>
    match resolve_dir fs temp_dir with
    | Some t => mk_result (Return tt) (remove_tree t fs) [Sys_rmtree t]
    | None => mk_result (Return tt) fs []
    end.

Definition with_TemporaryDirectory {A} (body : string -> M A) : M A :=
  temp_dir <- TemporaryDirectory_enter ;;
  finally (body temp_dir) (TemporaryDirectory_exit temp_dir).

(** *** Generation from a styling configuration (lines 35-106) *)

(** The dictionary exported for one golden (lines 90-92) *)
Definition styling_entry (golden : Golden) : M pyval :=
  input <- getattr "input" (g_input golden) ;;
  ret (PDict [("input", input)]).

(** The loop of lines 88-92 *)
Definition styling_json_data (synthetic_goldens : list Golden) : M (list pyval) :=
  for_fold synthetic_goldens []
    (fun json_data golden =>
       entry <- styling_entry golden ;; ret (json_data ++ [entry])).

(** The body of the [try] (lines 61-103) *)
Definition styling_try (gpt_model : GPTModel)
    (input_format expected_output_format task scenario : string)
    (num_goldens : Z) : M unit :=
  let styling_config :=
    mk_StylingConfig input_format expected_output_format task scenario in
  emit (Call_Synthesizer (Some styling_config)) ;;
  synthesizer <- lift (Synthesizer_init (Some styling_config) (Some gpt_model)) ;;
  emit (Call_generate_goldens_from_scratch num_goldens) ;;
  synthesizer <- lift (generate_goldens_from_scratch synthesizer num_goldens) ;;
  let synthetic_goldens := synthetic_goldens synthesizer in
  emit (St_subheader "Generated Examples:") ;;
  for_enumerate synthetic_goldens
    (fun i golden =>
       emit (St_expander ("Example " +:+ decimal (i + 1))) ;;
       input <- getattr "input" (g_input golden) ;;
       emit (St_markdown (fenced (py_str input)))) ;;
  json_data <- styling_json_data synthetic_goldens ;;
  json_str <- lift (json_dumps (PList json_data)) ;;
  emit (St_download_button "Download as JSON" json_str
          "synthetic_data.json" "application/json").

(** The generation action of styling mode (lines 59-106) *)
Definition styling_action (gpt_model : GPTModel)
    (input_format expected_output_format task scenario : string)
    (num_goldens : Z) : M unit :=
  emit (St_spinner "Generating synthetic data...") ;;
  try_except_Exception
    (styling_try gpt_model input_format expected_output_format task scenario
       num_goldens)
    (fun e => emit (St_error ("Error generating synthetic data: " +:+ exc_str e))).

Definition styling_mode (gpt_model : GPTModel) : M unit :=
  emit (St_header "Generate Synthetic Data from Styling Configuration") ;;
  emit (St_columns 2) ;;
  input_format <-
    st_text_area "Input Format"
      "Mimic queries a patient might share with a medical chatbot when seeking a diagnosis."
      100 ;;
  expected_output_format <-
    st_text_area "Expected Output Format"
      "Ensure the output resembles a medical chatbot tasked with diagnosing a patient's illness. It should pose additional questions if details are inadequate or provide a diagnosis when input is sufficiently detailed."
      150 ;;
  task <- st_text_input "Task" "Diagnosing patient symptoms via chatbot" ;;
  scenario <-
    st_text_input "Scenario" "Patients seeking diagnosis through a medical chatbot" ;;
  num_goldens <- st_slider "Number of examples to generate" 1 50 5 ;;
  pressed <- st_button "Generate Data" ;;
  if pressed
  then styling_action gpt_model input_format expected_output_format task scenario
         num_goldens
  else ret tt.

(** *** Generation from documents (lines 108-191) *)

(** One turn of the loop of lines 119-124 *)
Definition save_uploaded_file (temp_dir : string) (file_paths : list string)
    (uploaded_file : UploadedFile) : M (list string) :=
  let file_path := os_path_join temp_dir (name uploaded_file) in
  write_binary file_path (getvalue uploaded_file) ;;
  let file_paths := file_paths ++ [file_path] in
  emit (St_info ("Processing: " +:+ name uploaded_file)) ;;
  ret file_paths.

Definition save_uploaded_files (temp_dir : string)
    (uploaded_files : list UploadedFile) : M (list string) :=
  for_fold uploaded_files [] (save_uploaded_file temp_dir).

(** The panel of one golden (lines 144-157) *)
Definition show_document_golden (i : nat) (golden : Golden) : M unit :=
  emit (St_expander ("Example " +:+ decimal (i + 1))) ;;
  emit (St_markdown "**Input:**") ;;
  input <- getattr "input" (g_input golden) ;;
  emit (St_markdown (fenced (py_str input))) ;;
  emit (St_markdown "**Expected Output:**") ;;
  expected_output <- getattr "expected_output" (g_expected_output golden) ;;
  emit (St_markdown (fenced (py_str expected_output))) ;;
  match g_context golden with
  | Some context =>
      if truthy context
      then emit (St_markdown "**Context:**") ;;
           emit (St_markdown (fenced (py_str context)))
      else ret tt
  | None => ret tt
  end ;;
  match g_additional_metadata golden with
  | Some additional_metadata =>
      if truthy additional_metadata
      then emit (St_markdown "**Additional Metadata:**") ;;
           emit (St_json additional_metadata)
      else ret tt
  | None => ret tt
  end.

(** An optional field is added under its key when the attribute exists and
    is true (lines 169-174). *)
Definition add_if_present (key : string) (attr : option pyval)
    (data : list (string * pyval)) : list (string * pyval) :=
  match attr with
  | Some v => if truthy v then dict_setitem key v data else data
  | None => data
  end.

(** The dictionary exported for one golden (lines 163-174) *)
Definition document_entry (golden : Golden) : M pyval :=
  input <- getattr "input" (g_input golden) ;;
  expected_output <- getattr "expected_output" (g_expected_output golden) ;;
  let data := [("input", input); ("expected_output", expected_output)] in
  let data := add_if_present "context" (g_context golden) data in
  let data := add_if_present "additional_metadata" (g_additional_metadata golden) data in
  let data := add_if_present "source_file" (g_source_file golden) data in
  ret (PDict data).

(** The loop of lines 161-176 *)
Definition document_json_data (synthetic_goldens : list Golden) : M (list pyval) :=
  for_fold synthetic_goldens []
    (fun json_data golden =>
       data <- document_entry golden ;; ret (json_data ++ [data])).

(** Lines 137-187: what is shown for the goldens *)
Definition document_results (synthetic_goldens : list Golden) : M unit :=
  emit (St_subheader "Generated Examples:") ;;
  match synthetic_goldens with
  | [] =>
      emit (St_warning
        "No synthetic data was generated. This might happen if the documents couldn't be processed properly.")
  | _ :: _ =>
      for_enumerate synthetic_goldens show_document_golden ;;
      json_data <- document_json_data synthetic_goldens ;;
      json_str <- lift (json_dumps (PList json_data)) ;;
      emit (St_download_button "Download as JSON" json_str
              "synthetic_data_from_docs.json" "application/json")
  end.

(** The body of the [with] (lines 117-187) *)
Definition document_with (uploaded_files : list UploadedFile) (temp_dir : string)
  : M unit :=
  file_paths <- save_uploaded_files temp_dir uploaded_files ;;
  emit (Call_Synthesizer None) ;;
  synthesizer <- lift (Synthesizer_init None None) ;;
  fs <- get_fs ;;
  emit (Call_generate_goldens_from_docs file_paths fs) ;;
  synthesizer <- lift (generate_goldens_from_docs synthesizer fs file_paths) ;;
  document_results (synthetic_goldens synthesizer).

(** The generation action of document mode (lines 114-191) *)
Definition document_action (uploaded_files : list UploadedFile) : M unit :=
  emit (St_spinner "Generating synthetic data from documents...") ;;
  try_except_Exception
    (with_TemporaryDirectory (document_with uploaded_files))
    (fun e =>
       emit (St_error ("Error generating synthetic data: " +:+ exc_str e)) ;;
       emit (St_error "Make sure you have the required API key set if needed.")).

Definition document_mode : M unit :=
  emit (St_header "Generate Synthetic Data from Documents") ;;
  uploaded_files <- st_file_uploader "Upload documents (PDF, DOCX, TXT)" ;;
  match uploaded_files with
  | [] => ret tt
  | _ :: _ =>
      pressed <- st_button "Generate Data" ;;
      if pressed then document_action uploaded_files else ret tt
  end.

(** *** The whole script *)

Definition about : string :=
  nl +:+
  "This application uses [DeepEval's Synthesizer](https://docs.confident-ai.com) to generate synthetic data for AI evaluation."
  +:+ nl +:+ nl +:+ "Key features:" +:+ nl +:+
  "- Generate data from custom style configurations" +:+ nl +:+
  "- Generate data from uploaded documents" +:+ nl +:+
  "- Customize number of examples to generate" +:+ nl +:+
  "- Download results in JSON format" +:+ nl.

Definition intro : string :=
  nl +:+
  "This app allows you to generate synthetic data using DeepEval's Synthesizer. You can either:"
  +:+ nl +:+
  "1. Generate data from scratch using a styling configuration" +:+ nl +:+
  "2. Generate data from uploaded documents" +:+ nl.

Definition app : M unit :=
  let openai := getenv "OPENAI_API_KEY" in
  emit (Call_GPTModel openai) ;;
  gpt_model <- lift (GPTModel_init openai) ;;
  emit (St_set_page_config "DeepEval Synthetic Data Generator" "wide") ;;
  emit (St_title "🧬 Synthetic Data Generator") ;;
  emit (St_markdown intro) ;;
  generation_method <-
    st_sidebar_radio "Choose generation method:"
      ["Generate from styling configuration"; "Generate from documents"] ;;
  (if String.eqb generation_method "Generate from styling configuration"
   then styling_mode gpt_model
   else document_mode) ;;
  emit (St_sidebar_markdown "---") ;;
  emit (St_sidebar_header "About") ;;
  emit (St_sidebar_markdown about).

End App.

(** ** A concrete world to run the script in *)

Module Demo.

Definition dquote : string := String (ascii_of_nat 34) EmptyString.

(** A compact JSON printer; an object that is not JSON data is a
    [TypeError], as with [json.dumps]. *)
Fixpoint render (v : pyval) : option string :=
  match v with
  | PNone => Some "null"
  | PBool b => Some (if b then "true" else "false")
  | PInt z => Some (NilZero.string_of_int (Z.to_int z))
  | PStr s => Some (dquote +:+ s +:+ dquote)
  | PList items =>
      let fix go (l : list pyval) : option string :=
        match l with
        | [] => Some EmptyString
        | x :: l' =>
            match render x, go l' with
            | Some a, Some b =>
                Some (match l' with [] => a | _ :: _ => a +:+ "," +:+ b end)
            | _, _ => None
            end
        end in
      match go items with Some body => Some ("[" +:+ body +:+ "]") | None => None end
  | PDict entries =>
      let fix go (l : list (string * pyval)) : option string :=
        match l with
        | [] => Some EmptyString
        | (k, x) :: l' =>
            match render x, go l' with
            | Some a, Some b =>
                let item := dquote +:+ k +:+ dquote +:+ ":" +:+ a in
                Some (match l' with [] => item | _ :: _ => item +:+ "," +:+ b end)
            | _, _ => None
            end
        end in
      match go entries with Some body => Some ("{" +:+ body +:+ "}") | None => None end
  | PObject _ _ => None
  end.

Definition dumps (v : pyval) : outcome string :=
  match render v with
  | Some s => Return s
  | None => Raise (mk_exn TypeError "Object of type object is not JSON serializable")
  end.

Definition str (v : pyval) : string :=
  match v with
  | PStr s => s
  | PNone => "None"
  | _ => match render v with Some s => s | None => "<object>" end
  end.

Definition runtime : Runtime := {|
  py_str := str;
  json_dumps := dumps;
  mkdtemp_name := "/tmp/tmpk3x9";
  io_fault := fun _ _ => None
|}.

(** A session in which every widget is left at its initial value, the
    given mode is selected, the given files are uploaded and the button is
    pressed. *)
Definition session (mode : string) (uploads : list UploadedFile) : Session := {|
  getenv := fun _ => Some "sk-test";
  radio := fun _ _ => mode;
  text_area := fun _ value => value;
  text_input := fun _ value => value;
  slider := fun _ _ _ value => value;
  button := fun _ => true;
  file_uploader := fun _ => uploads
|}.

(** A generation library whose two methods answer as given. *)
Definition collaborator
    (from_scratch : Z -> outcome (list Golden))
    (from_docs : FS -> list string -> outcome (list Golden)) : Collaborator := {|
  GPTModel := unit;
  Synthesizer := list Golden;
  GPTModel_init := fun _ => Return tt;
  Synthesizer_init := fun _ _ => Return [];
  generate_goldens_from_scratch := fun s n =>
    match from_scratch n with Return gs => Return (s ++ gs) | Raise e => Raise e end;
  generate_goldens_from_docs := fun s fs paths =>
    match from_docs fs paths with Return gs => Return (s ++ gs) | Raise e => Raise e end;
  synthetic_goldens := fun s => s
|}.

Definition styling : string := "Generate from styling configuration".
Definition documents : string := "Generate from documents".

(** A machine with a root, [/tmp] and [/home], started in [/home]. *)
Definition disk : FS := mk_FS ["home"] {[ ["tmp"]; ["home"] ]} ∅.

Definition question (s : string) : Golden :=
  mk_Golden (Some (PStr s)) None None None None.

Definition grounded (q a : string) (ctx : list string) (src : string) : Golden :=
  mk_Golden (Some (PStr q)) (Some (PStr a)) (Some (PList (map PStr ctx)))
    (Some (PDict [])) (Some (PStr src)).

(** A golden whose expected output was not generated *)
Definition unanswered (q : string) : Golden :=
  mk_Golden (Some (PStr q)) (Some PNone) (Some PNone) (Some PNone) (Some PNone).

Definition hello : bytes := [Byte.x68; Byte.x65; Byte.x6c; Byte.x6c; Byte.x6f].
Definition world : bytes := [Byte.x77; Byte.x6f; Byte.x72; Byte.x6c; Byte.x64].

(** One golden per document that can be read back *)
Definition read_docs (fs : FS) (paths : list string) : outcome (list Golden) :=
  Return
    (flat_map
       (fun p =>
          match resolve_entry fs p with
          | Some t =>
              match files fs !! t with
              | Some _ => [grounded "What does it say?" "It says so." ["chunk"] p]
              | None => []
              end
          | None => []
          end)
       paths).

Definition no_scratch : Z -> outcome (list Golden) := fun _ => Return [].
Definition no_docs : FS -> list string -> outcome (list Golden) := fun _ _ => Return [].

Definition ask (n : Z) : outcome (list Golden) :=
  Return (map (fun _ => question "I have a headache.") (seq 0 (Z.to_nat n))).

(** The library is interrupted, or fails with an error of its own. *)
Definition interrupted {A} : outcome A := Raise (mk_exn KeyboardInterrupt EmptyString).
Definition unauthorized {A} : outcome A :=
  Raise (mk_exn (OtherException "AuthenticationError") "Incorrect API key provided").

Definition a_txt : UploadedFile := mk_UploadedFile "a.txt" hello.
Definition b_txt : UploadedFile := mk_UploadedFile "b.txt" world.
Definition a_txt_again : UploadedFile := mk_UploadedFile "a.txt" world.
Definition leak_txt : UploadedFile := mk_UploadedFile "../leak.txt" world.
Definition notes_txt : UploadedFile := mk_UploadedFile "/home/notes.txt" hello.

Definition tmp_dir : path := ["tmp"; "tmpk3x9"].

(** The disk while [a.txt] is saved, and while both documents are *)
Definition disk_with_a : FS :=
  write_file (tmp_dir ++ ["a.txt"]) hello (add_dir tmp_dir disk).
Definition disk_with_a_b : FS :=
  write_file (tmp_dir ++ ["b.txt"]) world disk_with_a.

Definition export_of (json_data : list pyval) : string :=
  match dumps (PList json_data) with Return s => s | Raise _ => EmptyString end.

(** *** Worlds: a session, the runtime and a library *)

(** Styling mode, five goldens asked for and produced *)
Module Styled.
#[export] Instance the_session : Session := session styling [].
#[export] Instance the_runtime : Runtime := runtime.
#[export] Instance the_collaborator : Collaborator := collaborator ask no_docs.

Definition data : string :=
  export_of (repeat (PDict [("input", PStr "I have a headache.")]) 5).
End Styled.

(** Styling mode, the library interrupted *)
Module InterruptedStyling.
#[export] Instance the_session : Session := session styling [].
#[export] Instance the_runtime : Runtime := runtime.
#[export] Instance the_collaborator : Collaborator :=
  collaborator (fun _ => interrupted) no_docs.
End InterruptedStyling.

(** Styling mode, the library refused by the model's API *)
Module UnauthorizedStyling.
#[export] Instance the_session : Session := session styling [].
#[export] Instance the_runtime : Runtime := runtime.
#[export] Instance the_collaborator : Collaborator :=
  collaborator (fun _ => unauthorized) no_docs.
End UnauthorizedStyling.

(** Document mode, two documents, one golden for each *)
Module TwoDocuments.
#[export] Instance the_session : Session := session documents [a_txt; b_txt].
#[export] Instance the_runtime : Runtime := runtime.
#[export] Instance the_collaborator : Collaborator := collaborator no_scratch read_docs.

Definition paths : list string := ["/tmp/tmpk3x9/a.txt"; "/tmp/tmpk3x9/b.txt"].

Definition data : string :=
  export_of
    (map (fun p =>
            PDict [("input", PStr "What does it say?");
                   ("expected_output", PStr "It says so.");
                   ("context", PList [PStr "chunk"]);
                   ("source_file", PStr p)])
         paths).
End TwoDocuments.

(** Document mode, a document from which nothing is produced *)
Module NothingProduced.
#[export] Instance the_session : Session := session documents [a_txt].
#[export] Instance the_runtime : Runtime := runtime.
#[export] Instance the_collaborator : Collaborator := collaborator no_scratch no_docs.
End NothingProduced.

(** Document mode, a golden without an expected output *)
Module OneUnanswered.
#[export] Instance the_session : Session := session documents [a_txt].
#[export] Instance the_runtime : Runtime := runtime.
#[export] Instance the_collaborator : Collaborator :=
  collaborator no_scratch (fun _ _ => Return [unanswered "Why?"]).

Definition entry : list (string * pyval) :=
  [("input", PStr "Why?"); ("expected_output", PNone)].
End OneUnanswered.

(** Document mode, the same name uploaded twice *)
Module SameNameTwice.
#[export] Instance the_session : Session :=
  session documents [a_txt; b_txt; a_txt_again].
#[export] Instance the_runtime : Runtime := runtime.
#[export] Instance the_collaborator : Collaborator := collaborator no_scratch read_docs.

Definition paths : list string :=
  ["/tmp/tmpk3x9/a.txt"; "/tmp/tmpk3x9/b.txt"; "/tmp/tmpk3x9/a.txt"].

Definition disk_at_call : FS :=
  write_file (tmp_dir ++ ["a.txt"]) world disk_with_a_b.
End SameNameTwice.

(** Document mode, an upload whose name leads out of the directory it is
    joined to *)
Module Escaping.
#[export] Instance the_session : Session := session documents [leak_txt].
#[export] Instance the_runtime : Runtime := runtime.
#[export] Instance the_collaborator : Collaborator := collaborator no_scratch read_docs.
End Escaping.

(** Document mode, an upload whose name is an absolute path *)
Module Absolute.
#[export] Instance the_session : Session := session documents [notes_txt].
#[export] Instance the_runtime : Runtime := runtime.
#[export] Instance the_collaborator : Collaborator := collaborator no_scratch read_docs.

Definition disk_at_call : FS :=
  write_file ["home"; "notes.txt"] hello (add_dir tmp_dir disk).
End Absolute.

End Demo.


(** * Notions used in the statements *)

(** A computation all of whose events satisfy [P], whatever it is run on *)
Definition emits {A} (P : event -> Prop) (m : M A) : Prop :=
  forall fs, Forall P (res_trace (m fs)).

(** A computation that leaves the file system as it found it *)
Definition keeps_fs {A} (m : M A) : Prop :=
  forall fs, res_fs (m fs) = fs.

(** The kinds of events, to say which ones a part of the script can emit *)
Inductive kind : Type :=
| K_page | K_input | K_display | K_info | K_warning | K_error | K_download
| K_mkdtemp | K_write | K_rmtree
| K_init | K_from_scratch | K_from_docs.

Definition kind_of (ev : event) : kind :=
  match ev with
  | St_set_page_config _ _ | St_title _ | St_header _ | St_columns _
  | St_spinner _ | St_sidebar_markdown _ | St_sidebar_header _ => K_page
  | St_text_area _ _ _ | St_text_input _ _ | St_slider _ _ _ _ | St_button _
  | St_file_uploader _ _ | St_sidebar_radio _ _ => K_input
  | St_markdown _ | St_subheader _ | St_expander _ | St_json _ => K_display
  | St_info _ => K_info
  | St_warning _ => K_warning
  | St_error _ => K_error
  | St_download_button _ _ _ _ => K_download
  | Sys_mkdtemp _ => K_mkdtemp
  | Sys_write _ _ => K_write
  | Sys_rmtree _ => K_rmtree
  | Call_GPTModel _ | Call_Synthesizer _ => K_init
  | Call_generate_goldens_from_scratch _ => K_from_scratch
  | Call_generate_goldens_from_docs _ _ => K_from_docs
  end.

Definition only (ks : list kind) (ev : event) : Prop := In (kind_of ev) ks.

(** The attribute of a golden that an exported key stands for *)
Definition field (key : string) (g : Golden) : option pyval :=
  if String.eqb key "input" then g_input g
  else if String.eqb key "expected_output" then g_expected_output g
  else if String.eqb key "context" then g_context g
  else if String.eqb key "additional_metadata" then g_additional_metadata g
  else if String.eqb key "source_file" then g_source_file g
  else None.

(** [entry] turns the golden [g] into the exported value [e]. *)
Definition exports (entry : Golden -> M pyval) (g : Golden) (e : pyval) : Prop :=
  forall fs, res_out (entry g fs) = Return e.

(** An exported object has a key only for an attribute that exists and is
    not empty. *)
Definition keys_only_when_present (g : Golden) (d : list (string * pyval)) : Prop :=
  forall k, In k (dict_keys d) -> present (field k g) = true.

Definition optional_keys : list string :=
  ["context"; "additional_metadata"; "source_file"].

(** The keys of an object of the document export: [input] and
    [expected_output] in any case, an optional key exactly when its
    attribute exists and is not empty, no other key; each key holds its
    attribute's value. *)
Definition document_keys (g : Golden) (d : list (string * pyval)) : Prop :=
  (forall k, In k (dict_keys d) -> In k ("input" :: "expected_output" :: optional_keys)) /\
  In "input" (dict_keys d) /\
  In "expected_output" (dict_keys d) /\
  (forall k, In k optional_keys -> (In k (dict_keys d) <-> present (field k g) = true)) /\
  (forall k, In k (dict_keys d) -> dict_get k d = field k g).

(** An object of the styling export: the single key [input], holding the
    golden's [input]. *)
Definition styling_keys (g : Golden) (d : list (string * pyval)) : Prop :=
  dict_keys d = ["input"] /\ dict_get "input" d = g_input g.

(** What the handlers of the two actions show for an exception [e], and
    the first event of the document action *)
Definition styling_handler (e : exn) : list event :=
  [St_error ("Error generating synthetic data: " +:+ exc_str e)].

Definition document_handler (e : exn) : list event :=
  [St_error ("Error generating synthetic data: " +:+ exc_str e);
   St_error "Make sure you have the required API key set if needed."].

Definition document_spinner : event :=
  St_spinner "Generating synthetic data from documents...".

(** What the session holds for the widgets of the script *)
Section Widgets.
Context `{Session}.

Definition chosen_method : string :=
  radio "Choose generation method:"
    ["Generate from styling configuration"; "Generate from documents"].

Definition styling_chosen : bool :=
  String.eqb chosen_method "Generate from styling configuration".

Definition entered_input_format : string :=
  text_area "Input Format"
    "Mimic queries a patient might share with a medical chatbot when seeking a diagnosis.".

Definition entered_expected_output_format : string :=
  text_area "Expected Output Format"
    "Ensure the output resembles a medical chatbot tasked with diagnosing a patient's illness. It should pose additional questions if details are inadequate or provide a diagnosis when input is sufficiently detailed.".

Definition entered_task : string :=
  text_input "Task" "Diagnosing patient symptoms via chatbot".

Definition entered_scenario : string :=
  text_input "Scenario" "Patients seeking diagnosis through a medical chatbot".

Definition selected_num_goldens : Z :=
  slider "Number of examples to generate" 1 50 5.

Definition generate_pressed : bool := button "Generate Data".

Definition uploads : list UploadedFile :=
  file_uploader "Upload documents (PDF, DOCX, TXT)".

(** The slider keeps its value between its bounds. *)
Definition slider_bounded : Prop :=
  forall label min_value max_value value,
    min_value <= value <= max_value ->
    min_value <= slider label min_value max_value value <= max_value.

End Widgets.

(** [ys] answers [xs] element by element, in the same order. *)
Definition in_order {A B} (R : A -> B -> Prop) (xs : list A) (ys : list B) : Prop :=
  length ys = length xs /\
  forall i x, nth_error xs i = Some x -> exists y, nth_error ys i = Some y /\ R x y.

(** The exported value is a JSON object whose keys are as [keys] says. *)
Definition exported_as (keys : Golden -> list (string * pyval) -> Prop)
    (g : Golden) (e : pyval) : Prop :=
  exists d, e = PDict d /\ keys g d.

(** The path the script forms for an upload *)
Definition upload_path `{Runtime} (u : UploadedFile) : string :=
  os_path_join mkdtemp_name (name u).

Section Produced.
Context `{Session} `{Runtime} `{Collaborator}.

Definition entered_styling_config : StylingConfig :=
  mk_StylingConfig entered_input_format entered_expected_output_format
    entered_task entered_scenario.

(** The goldens the library produces for the styling configuration and the
    number of the session *)
Definition styling_goldens (gs : list Golden) : Prop :=
  exists gpt_model s0 syn,
    GPTModel_init (getenv "OPENAI_API_KEY") = Return gpt_model /\
    Synthesizer_init (Some entered_styling_config) (Some gpt_model) = Return s0 /\
    generate_goldens_from_scratch s0 selected_num_goldens = Return syn /\
    gs = synthetic_goldens syn.

(** The goldens the library produces in the run of the script from [fs],
    for the document paths it is called with *)
Definition document_goldens (fs : FS) (gs : list Golden) : Prop :=
  exists s0 file_paths fs1 syn,
    In (Call_generate_goldens_from_docs file_paths fs1) (res_trace (app fs)) /\
    Synthesizer_init None None = Return s0 /\
    generate_goldens_from_docs s0 fs1 file_paths = Return syn /\
    gs = synthetic_goldens syn.

End Produced.

Definition empty_warning : string :=
  "No synthetic data was generated. This might happen if the documents couldn't be processed properly.".

(** Where the file of an upload goes, if it can be created *)
Definition upload_target `{Runtime} (fs : FS) (u : UploadedFile) : option path :=
  match open_wb fs (upload_path u) with
  | Return t => Some t
  | Raise _ => None
  end.

(** [p] lies in the directory [t] or below it. *)
Definition inside (t p : path) : Prop := t `prefix_of` p.

(** The two generation actions: what is guarded by the [try], the action
    as a whole, and what frames it *)
Section Actions.
Context `{Session} `{Runtime} `{Collaborator}.

Inductive action_run : Type :=
| Styling_run (gpt_model : GPTModel)
    (input_format expected_output_format task scenario : string) (num_goldens : Z)
| Document_run (uploaded_files : list UploadedFile).

Definition action (x : action_run) : M unit :=
  match x with
  | Styling_run gpt_model a b c d n => styling_action gpt_model a b c d n
  | Document_run uploaded_files => document_action uploaded_files
  end.

Definition action_body (x : action_run) : M unit :=
  match x with
  | Styling_run gpt_model a b c d n => styling_try gpt_model a b c d n
  | Document_run uploaded_files =>
      with_TemporaryDirectory (document_with uploaded_files)
  end.

Definition action_spinner (x : action_run) : event :=
  match x with
  | Styling_run _ _ _ _ _ _ => St_spinner "Generating synthetic data..."
  | Document_run _ => document_spinner
  end.

Definition action_handler (x : action_run) (e : exn) : list event :=
  match x with
  | Styling_run _ _ _ _ _ _ => styling_handler e
  | Document_run _ => document_handler e
  end.

End Actions.

(** A plain file name: not empty, not [.] or [..], without a separator
    and without a NUL *)
Fixpoint has_slash (s : string) : bool :=
  match s with
  | EmptyString => false
  | String c rest => Ascii.eqb c slash || has_slash rest
  end.


(** * Notions used in further statements *)

(** The events of the page around the two modes, and of their forms *)
Section Page.
Context `{Session}.

Definition page_head : list event :=
  [St_set_page_config "DeepEval Synthetic Data Generator" "wide";
   St_title "🧬 Synthetic Data Generator";
   St_markdown intro;
   St_sidebar_radio "Choose generation method:"
     ["Generate from styling configuration"; "Generate from documents"]].

Definition page_foot : list event :=
  [St_sidebar_markdown "---"; St_sidebar_header "About"; St_sidebar_markdown about].

Definition styling_form : list event :=
  [St_header "Generate Synthetic Data from Styling Configuration";
   St_columns 2;
   St_text_area "Input Format"
     "Mimic queries a patient might share with a medical chatbot when seeking a diagnosis."
     100;
   St_text_area "Expected Output Format"
     "Ensure the output resembles a medical chatbot tasked with diagnosing a patient's illness. It should pose additional questions if details are inadequate or provide a diagnosis when input is sufficiently detailed."
     150;
   St_text_input "Task" "Diagnosing patient symptoms via chatbot";
   St_text_input "Scenario" "Patients seeking diagnosis through a medical chatbot";
   St_slider "Number of examples to generate" 1 50 5;
   St_button "Generate Data"].

Definition document_upload : list event :=
  [St_header "Generate Synthetic Data from Documents";
   St_file_uploader "Upload documents (PDF, DOCX, TXT)" true].

(** The document action is triggered: document mode is chosen, files are
    uploaded and the button is pressed. *)
Definition document_triggered : Prop :=
  styling_chosen = false /\ uploads <> [] /\ generate_pressed = true.

(** The styling action is triggered. *)
Definition styling_triggered : Prop :=
  styling_chosen = true /\ generate_pressed = true.

End Page.

(** The mode the session has chosen *)
Definition chosen_mode `{Session} `{Runtime} `{Collaborator}
    (gpt_model : GPTModel) : M unit :=
  if styling_chosen then styling_mode gpt_model else document_mode.

(** An event of the file system, and a call of a generation method *)
Definition is_sys (ev : event) : bool :=
  match ev with
  | Sys_mkdtemp _ | Sys_write _ _ | Sys_rmtree _ => true
  | _ => false
  end.

Definition is_generation_call (ev : event) : bool :=
  match ev with
  | Call_generate_goldens_from_scratch _ | Call_generate_goldens_from_docs _ _ => true
  | _ => false
  end.

(** The number of events of a trace that satisfy [p] *)
Definition count (p : event -> bool) (tr : list event) : nat :=
  length (List.filter p tr).

(** A computation that has at most [n] events that satisfy [p] *)
Definition at_most (p : event -> bool) (n : nat) {A} (m : M A) : Prop :=
  forall fs, (count p (res_trace (m fs)) <= n)%nat.

(** A name under which no file can be made in any directory: one with a
    NUL, or the empty name, [.] or [..] *)
Definition unwritable_name (n : string) : bool :=
  has_nul n || (negb (has_slash n) && (dot_name n || String.eqb n "..")).

(** What a missing attribute raises *)
Definition attribute_error (attr_name : string) : exn :=
  mk_exn AttributeError ("'Golden' object has no attribute " +:+ quoted attr_name).

(** The keys of the document export in the order they are set, and the
    ones an object for the golden [g] has *)
Definition all_keys : list string :=
  ["input"; "expected_output"; "context"; "additional_metadata"; "source_file"].

Definition exported_key (g : Golden) (k : string) : bool :=
  String.eqb k "input" || String.eqb k "expected_output" || present (field k g).

Definition ordered_keys (g : Golden) (d : list (string * pyval)) : Prop :=
  dict_keys d = List.filter (exported_key g) all_keys.

(** The message the handlers show for an exception *)
Definition error_message (e : exn) : string :=
  "Error generating synthetic data: " +:+ exc_str e.

(** The labels of the expanders of a trace, in the order they are opened,
    and the labels of [n] examples *)
Fixpoint expander_labels (tr : list event) : list string :=
  match tr with
  | [] => []
  | St_expander label :: tr' => label :: expander_labels tr'
  | _ :: tr' => expander_labels tr'
  end.

Definition example_labels_from (i n : nat) : list string :=
  map (fun k => "Example " +:+ decimal (k + 1)) (seq i n).

Definition example_labels (n : nat) : list string := example_labels_from 0 n.

(** * Further worlds *)

Module Scene.

(** A session like [Demo.session] in which the button is not pressed *)
Definition idle_session (mode : string) (uploads : list UploadedFile) : Session := {|
  getenv := fun _ => Some "sk-test";
  radio := fun _ _ => mode;
  text_area := fun _ value => value;
  text_input := fun _ value => value;
  slider := fun _ _ _ value => value;
  button := fun _ => false;
  file_uploader := fun _ => uploads
|}.

(** A session like [Demo.session] with no API key in the environment *)
Definition keyless_session (mode : string) (uploads : list UploadedFile) : Session := {|
  getenv := fun _ => None;
  radio := fun _ _ => mode;
  text_area := fun _ value => value;
  text_input := fun _ value => value;
  slider := fun _ _ _ value => value;
  button := fun _ => true;
  file_uploader := fun _ => uploads
|}.

Definition missing_key : exn :=
  mk_exn (OtherException "OpenAIError") "The api_key client option must be set".

(** A library whose model client cannot be made without an API key *)
Definition keyed_collaborator : Collaborator := {|
  GPTModel := unit;
  Synthesizer := list Golden;
  GPTModel_init := fun key =>
    match key with Some _ => Return tt | None => Raise missing_key end;
  Synthesizer_init := fun _ _ => Return [];
  generate_goldens_from_scratch := fun s n => Return s;
  generate_goldens_from_docs := fun s fs paths => Return s;
  synthetic_goldens := fun s => s
|}.

(** A runtime whose temporary directories go below [/var/tmp] *)
Definition var_tmp_runtime : Runtime := {|
  py_str := Demo.str;
  json_dumps := Demo.dumps;
  mkdtemp_name := "/var/tmp/tmpk3x9";
  io_fault := fun _ _ => None
|}.

(** A golden with no attribute at all *)
Definition blank : Golden := mk_Golden None None None None None.

Definition dotdot : UploadedFile := mk_UploadedFile ".." Demo.hello.

(** Styling mode, the button not pressed *)
Module Idle.
#[export] Instance the_session : Session := idle_session Demo.styling [].
#[export] Instance the_runtime : Runtime := Demo.runtime.
#[export] Instance the_collaborator : Collaborator :=
  Demo.collaborator Demo.ask Demo.no_docs.
End Idle.

(** Document mode, nothing uploaded *)
Module NoUpload.
#[export] Instance the_session : Session := Demo.session Demo.documents [].
#[export] Instance the_runtime : Runtime := Demo.runtime.
#[export] Instance the_collaborator : Collaborator :=
  Demo.collaborator Demo.no_scratch Demo.read_docs.
End NoUpload.

(** Styling mode, no API key for the model client *)
Module NoKey.
#[export] Instance the_session : Session := keyless_session Demo.styling [].
#[export] Instance the_runtime : Runtime := Demo.runtime.
#[export] Instance the_collaborator : Collaborator := keyed_collaborator.
End NoKey.

(** Document mode, an upload named [..] *)
Module DotDot.
#[export] Instance the_session : Session := Demo.session Demo.documents [dotdot].
#[export] Instance the_runtime : Runtime := Demo.runtime.
#[export] Instance the_collaborator : Collaborator :=
  Demo.collaborator Demo.no_scratch Demo.read_docs.
End DotDot.

(** Styling mode, the second golden without an [input] *)
Module StylingNoInput.
#[export] Instance the_session : Session := Demo.session Demo.styling [].
#[export] Instance the_runtime : Runtime := Demo.runtime.
#[export] Instance the_collaborator : Collaborator :=
  Demo.collaborator (fun _ => Return [Demo.question "I have a headache."; blank])
    Demo.no_docs.
End StylingNoInput.

(** Document mode, a golden without an [expected_output] *)
Module DocumentNoAnswer.
#[export] Instance the_session : Session := Demo.session Demo.documents [Demo.a_txt].
#[export] Instance the_runtime : Runtime := Demo.runtime.
#[export] Instance the_collaborator : Collaborator :=
  Demo.collaborator Demo.no_scratch (fun _ _ => Return [Demo.question "Why?"]).
End DocumentNoAnswer.

(** Document mode on a machine without [/var/tmp] *)
Module NoTmp.
#[export] Instance the_session : Session := Demo.session Demo.documents [Demo.a_txt].
#[export] Instance the_runtime : Runtime := var_tmp_runtime.
#[export] Instance the_collaborator : Collaborator :=
  Demo.collaborator Demo.no_scratch Demo.read_docs.
End NoTmp.

End Scene.
(** * Properties *)

(** ** The monad *)

Section MonadFacts.
Context {A B : Type}.
Implicit Types (m : M A) (k : A -> M B) (fs : FS) (ev : event).

Lemma bind_Return m k fs a :
  res_out (m fs) = Return a ->
  bind m k fs =
    mk_result (res_out (k a (res_fs (m fs)))) (res_fs (k a (res_fs (m fs))))
      (res_trace (m fs) ++ res_trace (k a (res_fs (m fs)))).
Proof. intros E. unfold bind. now rewrite E. Qed.

Lemma bind_Raise m k fs e :
  res_out (m fs) = Raise e ->
  bind m k fs = mk_result (Raise e) (res_fs (m fs)) (res_trace (m fs)).
Proof. intros E. unfold bind. now rewrite E. Qed.

Lemma bind_out_Return m k fs b :
  res_out (bind m k fs) = Return b ->
  exists a, res_out (m fs) = Return a /\ res_out (k a (res_fs (m fs))) = Return b.
Proof.
  unfold bind. destruct (res_out (m fs)) as [a|e] eqn:E; simpl; [|discriminate].
  intros Hb. now exists a.
Qed.

Lemma bind_out_Raise m k fs e :
  res_out (bind m k fs) = Raise e ->
  res_out (m fs) = Raise e \/
  exists a, res_out (m fs) = Return a /\ res_out (k a (res_fs (m fs))) = Raise e.
Proof.
  unfold bind. destruct (res_out (m fs)) as [a|e'] eqn:E; simpl.
  - intros Hb. right. now exists a.
  - intros [= ->]. now left.
Qed.

Lemma bind_trace_In m k fs ev :
  In ev (res_trace (bind m k fs)) ->
  In ev (res_trace (m fs)) \/
  exists a, res_out (m fs) = Return a /\ In ev (res_trace (k a (res_fs (m fs)))).
Proof.
  unfold bind. destruct (res_out (m fs)) as [a|e] eqn:E; simpl.
  - rewrite in_app_iff. intros [Hm|Hk]; [now left|right; now exists a].
  - now left.
Qed.

Lemma bind_trace_In_l m k fs ev :
  In ev (res_trace (m fs)) -> In ev (res_trace (bind m k fs)).
Proof.
  unfold bind. destruct (res_out (m fs)); simpl; [|trivial].
  rewrite in_app_iff. now left.
Qed.

Lemma bind_trace_In_r m k fs a ev :
  res_out (m fs) = Return a ->
  In ev (res_trace (k a (res_fs (m fs)))) -> In ev (res_trace (bind m k fs)).
Proof.
  intros E. unfold bind. rewrite E. simpl. rewrite in_app_iff. now right.
Qed.

End MonadFacts.

Lemma bind_emit {B} ev (k : unit -> M B) fs :
  bind (emit ev) k fs =
    mk_result (res_out (k tt fs)) (res_fs (k tt fs)) (ev :: res_trace (k tt fs)).
Proof. reflexivity. Qed.

Lemma bind_lift_Return {A B} (a : A) (k : A -> M B) fs :
  bind (lift (Return a)) k fs =
    mk_result (res_out (k a fs)) (res_fs (k a fs)) (res_trace (k a fs)).
Proof. reflexivity. Qed.

Lemma bind_lift_Raise {A B} e (k : A -> M B) fs :
  bind (lift (Raise e)) k fs = mk_result (Raise e) fs [].
Proof. reflexivity. Qed.

Lemma bind_get_fs {B} (k : FS -> M B) fs :
  bind get_fs k fs =
    mk_result (res_out (k fs fs)) (res_fs (k fs fs)) (res_trace (k fs fs)).
Proof. reflexivity. Qed.

Lemma bind_widget {A B} ev (a : A) (k : A -> M B) fs :
  bind (bind (emit ev) (fun _ => ret a)) k fs =
    mk_result (res_out (k a fs)) (res_fs (k a fs)) (ev :: res_trace (k a fs)).
Proof. reflexivity. Qed.

Lemma bind_out {A B} (m : M A) (k : A -> M B) fs :
  res_out (bind m k fs) =
    match res_out (m fs) with
    | Return a => res_out (k a (res_fs (m fs)))
    | Raise e => Raise e
    end.
Proof. unfold bind. now destruct (res_out (m fs)). Qed.


Section Emits.
Context (P : event -> Prop).

Lemma emits_ret {A} (a : A) : emits P (ret a).
Proof. intros fs. constructor. Qed.

Lemma emits_raise {A} e : emits P (@raise A e).
Proof. intros fs. constructor. Qed.

Lemma emits_lift {A} (o : outcome A) : emits P (lift o).
Proof. intros fs. constructor. Qed.

Lemma emits_get_fs : emits P get_fs.
Proof. intros fs. constructor. Qed.

Lemma emits_emit ev : P ev -> emits P (emit ev).
Proof. intros HP fs. simpl. now repeat constructor. Qed.

Lemma emits_bind {A B} (m : M A) (k : A -> M B) :
  emits P m -> (forall a, emits P (k a)) -> emits P (bind m k).
Proof.
  intros Hm Hk fs. unfold bind.
  destruct (res_out (m fs)) as [a|e]; simpl; [|apply Hm].
  apply Forall_app. split; [apply Hm|apply (Hk a)].
Qed.

Lemma emits_for_fold {A B} (xs : list A) (acc : B) (body : B -> A -> M B) :
  (forall b a, emits P (body b a)) -> emits P (for_fold xs acc body).
Proof.
  intros Hb. revert acc.
  induction xs as [|x xs IH]; intros acc; simpl.
  - apply emits_ret.
  - apply emits_bind; [apply Hb|]. intros a. apply IH.
Qed.

End Emits.

Lemma emits_getattr P attr_name attr : emits P (getattr attr_name attr).
Proof. destruct attr; [apply emits_ret|apply emits_raise]. Qed.

Lemma emits_for_enumerate_from {A} P (i : nat) (xs : list A) body :
  (forall j x, emits P (body j x)) -> emits P (for_enumerate_from i xs body).
Proof.
  intros Hb. revert i.
  induction xs as [|x xs IH]; intros i; simpl.
  - apply emits_ret.
  - apply emits_bind; [apply Hb|]. intros _. apply IH.
Qed.

Lemma emits_try_except_Exception P body handler :
  emits P body -> (forall e, emits P (handler e)) ->
  emits P (try_except_Exception body handler).
Proof.
  intros Hb Hh fs. unfold try_except_Exception.
  destruct (res_out (body fs)) as [a|e]; [apply Hb|].
  destruct (isinstance_Exception e); [|apply Hb].
  simpl. apply Forall_app. split; [apply Hb|apply Hh].
Qed.

Lemma emits_finally {A} P (body : M A) cleanup :
  emits P body -> emits P cleanup -> emits P (finally body cleanup).
Proof.
  intros Hb Hc fs. unfold finally. simpl.
  apply Forall_app. split; [apply Hb|apply Hc].
Qed.

Lemma emits_not_In {A} P (m : M A) fs ev :
  emits P m -> ~ P ev -> ~ In ev (res_trace (m fs)).
Proof.
  intros Hm HP Hin. apply HP.
  specialize (Hm fs). rewrite Forall_forall in Hm. apply Hm.
  now apply list_elem_of_In.
Qed.

(** ** Which events a part of the script can emit *)

Lemma emits_only_absent {A} ks (m : M A) fs ev :
  emits (only ks) m -> ~ In (kind_of ev) ks -> ~ In ev (res_trace (m fs)).
Proof. intros Hm Hk. now apply (emits_not_In (only ks)). Qed.

Lemma emits_weaken {A} (P Q : event -> Prop) (m : M A) :
  (forall ev, P ev -> Q ev) -> emits P m -> emits Q m.
Proof.
  intros HPQ Hm fs. specialize (Hm fs).
  rewrite Forall_forall in *. intros ev Hin. apply HPQ, Hm, Hin.
Qed.

Ltac emits_step :=
  first
    [ apply emits_ret
    | apply emits_raise
    | apply emits_lift
    | apply emits_get_fs
    | apply emits_getattr
    | apply emits_emit; unfold only; simpl; tauto
    | apply emits_bind; [|intros ?]
    | apply emits_for_fold; intros ? ?
    | apply emits_for_enumerate_from; intros ? ?
    | apply emits_try_except_Exception; [|intros ?]
    | apply emits_finally
    | match goal with
      | |- emits _ (match ?x with _ => _ end) => destruct x
      | |- emits _ (if ?x then _ else _) => destruct x
      end ].

Ltac solve_emits := repeat emits_step.

Section Kinds.
Context `{Session} `{Runtime} `{Collaborator}.

Lemma emits_write_binary file_path data :
  emits (only [K_write]) (write_binary file_path data).
Proof.
  intros fs. unfold write_binary.
  destruct (io_fault fs file_path); [constructor|].
  destruct (open_wb fs file_path); [|constructor].
  simpl. repeat constructor.
Qed.

Lemma emits_save_uploaded_files temp_dir uploaded_files :
  emits (only [K_write; K_info]) (save_uploaded_files temp_dir uploaded_files).
Proof.
  unfold save_uploaded_files, save_uploaded_file. solve_emits.
  eapply emits_weaken; [|apply emits_write_binary].
  unfold only. simpl. tauto.
Qed.

Lemma emits_styling_json_data gs : emits (only []) (styling_json_data gs).
Proof. unfold styling_json_data, styling_entry. solve_emits. Qed.

Lemma emits_document_json_data gs : emits (only []) (document_json_data gs).
Proof. unfold document_json_data, document_entry. solve_emits. Qed.

Lemma emits_show_document_golden i g :
  emits (only [K_display]) (show_document_golden i g).
Proof. unfold show_document_golden. solve_emits. Qed.

Lemma emits_document_results gs :
  emits (only [K_display; K_warning; K_download]) (document_results gs).
Proof.
  unfold document_results, for_enumerate. solve_emits.
Qed.

Lemma emits_TemporaryDirectory_enter :
  emits (only [K_mkdtemp]) TemporaryDirectory_enter.
Proof.
  intros fs. unfold TemporaryDirectory_enter.
  destruct (mkdir fs mkdtemp_name); simpl; repeat constructor.
Qed.

Lemma emits_TemporaryDirectory_exit temp_dir :
  emits (only [K_rmtree]) (TemporaryDirectory_exit temp_dir).
Proof.
  intros fs. unfold TemporaryDirectory_exit.
  destruct (resolve_dir fs temp_dir); simpl; repeat constructor.
Qed.

End Kinds.

(** ** Which parts of the script leave the file system alone *)

Lemma keeps_ret {A} (a : A) : keeps_fs (ret a).
Proof. intros fs. reflexivity. Qed.

Lemma keeps_raise {A} e : keeps_fs (@raise A e).
Proof. intros fs. reflexivity. Qed.

Lemma keeps_lift {A} (o : outcome A) : keeps_fs (lift o).
Proof. intros fs. reflexivity. Qed.

Lemma keeps_emit ev : keeps_fs (emit ev).
Proof. intros fs. reflexivity. Qed.

Lemma keeps_getattr attr_name attr : keeps_fs (getattr attr_name attr).
Proof. destruct attr; [apply keeps_ret|apply keeps_raise]. Qed.

Lemma keeps_bind {A B} (m : M A) (k : A -> M B) :
  keeps_fs m -> (forall a, keeps_fs (k a)) -> keeps_fs (bind m k).
Proof.
  intros Hm Hk fs. unfold bind.
  destruct (res_out (m fs)) as [a|e]; cbn [res_fs]; [|apply Hm].
  rewrite Hm. apply Hk.
Qed.

Lemma keeps_for_fold {A B} (xs : list A) (acc : B) (body : B -> A -> M B) :
  (forall b a, keeps_fs (body b a)) -> keeps_fs (for_fold xs acc body).
Proof.
  intros Hb. revert acc.
  induction xs as [|x xs IH]; intros acc; simpl.
  - apply keeps_ret.
  - apply keeps_bind; [apply Hb|]. intros a. apply IH.
Qed.

Lemma keeps_for_enumerate_from {A} (i : nat) (xs : list A) body :
  (forall j x, keeps_fs (body j x)) -> keeps_fs (for_enumerate_from i xs body).
Proof.
  intros Hb. revert i.
  induction xs as [|x xs IH]; intros i; simpl.
  - apply keeps_ret.
  - apply keeps_bind; [apply Hb|]. intros _. apply IH.
Qed.

Lemma keeps_try_except_Exception body handler :
  keeps_fs body -> (forall e, keeps_fs (handler e)) ->
  keeps_fs (try_except_Exception body handler).
Proof.
  intros Hb Hh fs. unfold try_except_Exception.
  destruct (res_out (body fs)) as [a|e]; [apply Hb|].
  destruct (isinstance_Exception e); [|apply Hb].
  cbn [res_fs]. rewrite Hb. apply Hh.
Qed.

Ltac keeps_step :=
  first
    [ apply keeps_ret
    | apply keeps_raise
    | apply keeps_lift
    | apply keeps_getattr
    | apply keeps_emit
    | apply keeps_bind; [|intros ?]
    | apply keeps_for_fold; intros ? ?
    | apply keeps_for_enumerate_from; intros ? ?
    | apply keeps_try_except_Exception; [|intros ?]
    | match goal with
      | |- keeps_fs (match ?x with _ => _ end) => destruct x
      | |- keeps_fs (if ?x then _ else _) => destruct x
      end ].

Ltac solve_keeps := repeat keeps_step.

(** ** The exported JSON data *)

Lemma styling_entry_run g fs :
  styling_entry g fs =
    mk_result
      (match g_input g with
       | Some input => Return (PDict [("input", input)])
       | None => res_out (styling_entry g fs)
       end) fs [].
Proof. unfold styling_entry, getattr. now destruct (g_input g). Qed.

Lemma styling_entry_keys g e :
  exports styling_entry g e -> exists d, e = PDict d /\ styling_keys g d.
Proof.
  intros He. specialize (He (mk_FS [] ∅ ∅)).
  rewrite styling_entry_run in He. simpl in He.
  destruct (g_input g) as [input|] eqn:Hin.
  - injection He as <-. eexists. split; [reflexivity|]. now split.
  - unfold styling_entry, getattr in He. rewrite Hin in He. discriminate.
Qed.

Lemma document_entry_run g fs :
  document_entry g fs =
    mk_result
      (match g_input g, g_expected_output g with
       | Some input, Some expected_output =>
           Return
             (PDict
                (add_if_present "source_file" (g_source_file g)
                   (add_if_present "additional_metadata" (g_additional_metadata g)
                      (add_if_present "context" (g_context g)
                         [("input", input); ("expected_output", expected_output)]))))
       | _, _ => res_out (document_entry g fs)
       end) fs [].
Proof.
  unfold document_entry, getattr.
  now destruct (g_input g), (g_expected_output g).
Qed.

Lemma document_entry_keys g e :
  exports document_entry g e -> exists d, e = PDict d /\ document_keys g d.
Proof.
  intros He. specialize (He (mk_FS [] ∅ ∅)).
  rewrite document_entry_run in He. simpl in He.
  destruct g as [gi ge gc gm gs]. simpl in He.
  destruct gi as [input|]; [|unfold document_entry, getattr in He; discriminate].
  destruct ge as [expected_output|];
    [|unfold document_entry, getattr in He; discriminate].
  injection He as <-. eexists. split; [reflexivity|].
  unfold document_keys, optional_keys, add_if_present, field, present.
  destruct gc as [c|]; [destruct (truthy c) eqn:Hc|];
    (destruct gm as [m|]; [destruct (truthy m) eqn:Hm|]);
    (destruct gs as [s|]; [destruct (truthy s) eqn:Hs|]);
    cbn;
    (split; [intros k Hk; tauto|]);
    (split; [tauto|]);
    (split; [tauto|]);
    (split;
     [ intros k [<-|[<-|[<-|[]]]]; cbn; rewrite ?Hc, ?Hm, ?Hs;
       (split; [intros; try reflexivity; intuition discriminate
               |intros; try discriminate; tauto])
     | intros k Hk;
       repeat (destruct Hk as [<-|Hk]; [reflexivity|]); contradiction ]).
Qed.

Section Collect.
Variable entry : Golden -> M pyval.
Hypothesis entry_pure :
  forall g fs,
    res_fs (entry g fs) = fs /\ res_trace (entry g fs) = [] /\
    forall fs', res_out (entry g fs') = res_out (entry g fs).

Let body := fun (json_data : list pyval) (golden : Golden) =>
  bind (entry golden) (fun e => ret (json_data ++ [e])).

Lemma collect_run gs : forall acc fs,
  res_fs (for_fold gs acc body fs) = fs /\
  res_trace (for_fold gs acc body fs) = [] /\
  (forall json_data,
      res_out (for_fold gs acc body fs) = Return json_data ->
      exists es, json_data = acc ++ es /\ Forall2 (exports entry) gs es) /\
  ((forall g, In g gs -> exists e, exports entry g e) ->
   exists json_data, res_out (for_fold gs acc body fs) = Return json_data).
Proof.
  induction gs as [|g gs IH]; intros acc fs.
  - simpl. repeat split; trivial.
    + intros jd [= <-]. exists []. rewrite app_nil_r. split; [reflexivity|constructor].
    + intros _. now exists acc.
  - destruct (entry_pure g fs) as (Hfs & Htr & Hout).
    assert (Hb : body acc g fs =
      mk_result
        (match res_out (entry g fs) with
         | Return e => Return (acc ++ [e])
         | Raise x => Raise x
         end) fs []).
    { unfold body, bind.
      destruct (res_out (entry g fs)); simpl; now rewrite ?Hfs, ?Htr. }
    change (for_fold (g :: gs) acc body fs)
      with (bind (body acc g) (fun acc' => for_fold gs acc' body) fs).
    destruct (res_out (entry g fs)) as [e|x] eqn:He.
    + rewrite (bind_Return _ _ fs (acc ++ [e])) by now rewrite Hb.
      rewrite Hb. simpl.
      destruct (IH (acc ++ [e]) fs) as (IHfs & IHtr & IHret & IHtot).
      repeat split; trivial.
      * intros jd Hjd. destruct (IHret jd Hjd) as (es & -> & HF).
        exists (e :: es). split; [now rewrite <- app_assoc|].
        constructor; [|exact HF]. intros fs'. now rewrite Hout.
      * intros Hall. apply IHtot. intros g' Hg'. apply Hall. now right.
    + rewrite (bind_Raise _ _ fs x) by now rewrite Hb.
      rewrite Hb. simpl. repeat split; trivial.
      * intros jd [=].
      * intros Hall. destruct (Hall g (or_introl eq_refl)) as (e & Hex).
        specialize (Hex fs). congruence.
Qed.

End Collect.

Lemma styling_json_data_run gs fs :
  res_fs (styling_json_data gs fs) = fs /\
  res_trace (styling_json_data gs fs) = [] /\
  (forall json_data,
      res_out (styling_json_data gs fs) = Return json_data ->
      Forall2 (exports styling_entry) gs json_data) /\
  ((forall g, In g gs -> hasattr (g_input g) = true) ->
   exists json_data, res_out (styling_json_data gs fs) = Return json_data).
Proof.
  assert (Hpure : forall g fs,
    res_fs (styling_entry g fs) = fs /\ res_trace (styling_entry g fs) = [] /\
    forall fs', res_out (styling_entry g fs') = res_out (styling_entry g fs)).
  { intros g fs0. unfold styling_entry, getattr. now destruct (g_input g). }
  destruct (collect_run styling_entry Hpure gs [] fs) as (Hfs & Htr & Hret & Htot).
  unfold styling_json_data. repeat split; trivial.
  - intros jd Hjd. destruct (Hret jd Hjd) as (es & -> & HF). exact HF.
  - intros Hall. apply Htot. intros g Hg. specialize (Hall g Hg).
    destruct (g_input g) as [input|] eqn:Hin; [|discriminate].
    exists (PDict [("input", input)]). intros fs0.
    rewrite styling_entry_run, Hin. reflexivity.
Qed.

Lemma document_json_data_run gs fs :
  res_fs (document_json_data gs fs) = fs /\
  res_trace (document_json_data gs fs) = [] /\
  (forall json_data,
      res_out (document_json_data gs fs) = Return json_data ->
      Forall2 (exports document_entry) gs json_data) /\
  ((forall g, In g gs ->
      hasattr (g_input g) = true /\ hasattr (g_expected_output g) = true) ->
   exists json_data, res_out (document_json_data gs fs) = Return json_data).
Proof.
  assert (Hpure : forall g fs,
    res_fs (document_entry g fs) = fs /\ res_trace (document_entry g fs) = [] /\
    forall fs', res_out (document_entry g fs') = res_out (document_entry g fs)).
  { intros g fs0. unfold document_entry, getattr.
    now destruct (g_input g), (g_expected_output g). }
  destruct (collect_run document_entry Hpure gs [] fs) as (Hfs & Htr & Hret & Htot).
  unfold document_json_data. repeat split; trivial.
  - intros jd Hjd. destruct (Hret jd Hjd) as (es & -> & HF). exact HF.
  - intros Hall. apply Htot. intros g Hg. destruct (Hall g Hg) as [Hi He].
    destruct (g_input g) as [input|] eqn:Hin; [|discriminate].
    destruct (g_expected_output g) as [eo|] eqn:Heo; [|discriminate].
    eexists. intros fs0. rewrite document_entry_run, Hin, Heo. reflexivity.
Qed.

(** ** Where an event of a run comes from *)

Lemma try_trace_In body handler fs ev :
  In ev (res_trace (try_except_Exception body handler fs)) ->
  In ev (res_trace (body fs)) \/
  exists e, res_out (body fs) = Raise e /\ isinstance_Exception e = true /\
            In ev (res_trace (handler e (res_fs (body fs)))).
Proof.
  unfold try_except_Exception.
  destruct (res_out (body fs)) as [a|e] eqn:E; [now left|].
  destruct (isinstance_Exception e) eqn:Hi; [|now left].
  simpl. rewrite in_app_iff. intros [Hb|Hh]; [now left|right; now exists e].
Qed.

(** One step through a [bind]: either the event comes from the first part,
    which the tactic tries to rule out, or the first part returned. *)
Ltac through H a Ha :=
  apply bind_trace_In in H;
  destruct H as [H | (a & Ha & H)];
  [ try (simpl in H; contradiction);
    try (simpl in H; destruct H as [H|[]]; discriminate H)
  | simpl in Ha ].

Section Runs.
Context `{Session} `{Runtime} `{Collaborator}.

(** A download offered in styling mode holds the data collected from the
    goldens the library produced. *)
Lemma styling_action_download gpt_model a b c d n fs label data file_name mime :
  In (St_download_button label data file_name mime)
     (res_trace (styling_action gpt_model a b c d n fs)) ->
  exists s0 syn json_data,
    Synthesizer_init (Some (mk_StylingConfig a b c d)) (Some gpt_model) = Return s0 /\
    generate_goldens_from_scratch s0 n = Return syn /\
    Forall2 (exports styling_entry) (synthetic_goldens syn) json_data /\
    json_dumps (PList json_data) = Return data /\
    file_name = "synthetic_data.json".
Proof.
  intros Hin. unfold styling_action in Hin.
  through Hin u Hu.
  apply try_trace_In in Hin. destruct Hin as [Hin|(e & _ & _ & Hin)];
    [|simpl in Hin; destruct Hin as [Hin|[]]; discriminate Hin].
  unfold styling_try in Hin.
  through Hin u1 Hu1. through Hin s0 Hs0. through Hin u2 Hu2.
  through Hin syn Hsyn. through Hin u3 Hu3.
  simpl in Hin.
  through Hin u4 Hu4.
  { exfalso. revert Hin. apply emits_only_absent with (ks := [K_display]).
    - unfold for_enumerate. solve_emits.
    - simpl. intuition discriminate. }
  through Hin jd Hjd.
  { exfalso. revert Hin. apply emits_only_absent with (ks := []).
    - apply emits_styling_json_data.
    - simpl. tauto. }
  through Hin js Hjs.
  simpl in Hin. destruct Hin as [Hin|[]]. injection Hin as <- <- <- <-.
  exists s0, syn, jd. repeat split; trivial.
  eapply styling_json_data_run. exact Hjd.
Qed.

(** *** The run of the styling action *)

Lemma guarded_run ev (body : M unit) handler fs :
  bind (emit ev) (fun _ => try_except_Exception body handler) fs =
    match res_out (body fs) with
    | Return _ => mk_result (Return tt) (res_fs (body fs)) (ev :: res_trace (body fs))
    | Raise e =>
        if isinstance_Exception e
        then
          let h := handler e (res_fs (body fs)) in
          mk_result (res_out h) (res_fs h) (ev :: res_trace (body fs) ++ res_trace h)
        else mk_result (Raise e) (res_fs (body fs)) (ev :: res_trace (body fs))
    end.
Proof.
  unfold bind, emit, try_except_Exception. cbn [res_out res_fs res_trace].
  destruct (res_out (body fs)) as [[]|e] eqn:E.
  - rewrite E. reflexivity.
  - destruct (isinstance_Exception e) eqn:Hi.
    + cbn [res_out res_fs res_trace]. reflexivity.
    + rewrite E. reflexivity.
Qed.

Lemma styling_action_run gpt_model a b c d n fs :
  let r := styling_try gpt_model a b c d n fs in
  let pre := St_spinner "Generating synthetic data..." :: res_trace r in
  styling_action gpt_model a b c d n fs =
    match res_out r with
    | Return _ => mk_result (Return tt) (res_fs r) pre
    | Raise e =>
        if isinstance_Exception e
        then mk_result (Return tt) (res_fs r) (pre ++ styling_handler e)
        else mk_result (Raise e) (res_fs r) pre
    end.
Proof.
  intros r pre. subst pre r.
  unfold styling_action. rewrite guarded_run.
  destruct (res_out (styling_try gpt_model a b c d n fs)) as [[]|e]; [reflexivity|].
  destruct (isinstance_Exception e); reflexivity.
Qed.

(** *** The run of the document action *)

Lemma TemporaryDirectory_exit_out temp_dir fs :
  res_out (TemporaryDirectory_exit temp_dir fs) = Return tt.
Proof. unfold TemporaryDirectory_exit. now destruct (resolve_dir fs temp_dir). Qed.

(** No temporary directory could be made: the body of the [with] never
    runs. *)
Lemma with_TemporaryDirectory_run {A} (body : string -> M A) fs :
  with_TemporaryDirectory body fs =
    match mkdir fs mkdtemp_name with
    | Raise e => mk_result (Raise e) fs []
    | Return t =>
        let r := body mkdtemp_name (add_dir t fs) in
        let rx := TemporaryDirectory_exit mkdtemp_name (res_fs r) in
        mk_result (res_out r) (res_fs rx) (Sys_mkdtemp t :: res_trace r ++ res_trace rx)
    end.
Proof.
  unfold with_TemporaryDirectory, bind, TemporaryDirectory_enter.
  destruct (mkdir fs mkdtemp_name) as [t|e]; cbn [res_out res_fs res_trace];
    [|reflexivity].
  unfold finally. cbn [res_out res_fs res_trace].
  rewrite TemporaryDirectory_exit_out. reflexivity.
Qed.

(** No temporary directory could be made: the body of the [with] never
    runs. *)
Lemma document_action_run_no_dir uploaded_files fs e :
  mkdir fs mkdtemp_name = Raise e ->
  document_action uploaded_files fs =
    if isinstance_Exception e
    then mk_result (Return tt) fs (document_spinner :: document_handler e)
    else mk_result (Raise e) fs [document_spinner].
Proof.
  intros Hmk. unfold document_action. rewrite guarded_run.
  rewrite with_TemporaryDirectory_run, Hmk. cbn [res_out res_fs res_trace].
  destruct (isinstance_Exception e); reflexivity.
Qed.

(** The temporary directory [t] was made: the body runs in it, then the
    directory is removed, then the handler runs if the body raised an
    [Exception]. *)
Lemma document_action_run uploaded_files fs t :
  mkdir fs mkdtemp_name = Return t ->
  let r := document_with uploaded_files mkdtemp_name (add_dir t fs) in
  let rx := TemporaryDirectory_exit mkdtemp_name (res_fs r) in
  let pre := document_spinner :: Sys_mkdtemp t :: res_trace r ++ res_trace rx in
  document_action uploaded_files fs =
    match res_out r with
    | Return _ => mk_result (Return tt) (res_fs rx) pre
    | Raise e =>
        if isinstance_Exception e
        then mk_result (Return tt) (res_fs rx) (pre ++ document_handler e)
        else mk_result (Raise e) (res_fs rx) pre
    end.
Proof.
  intros Hmk r rx pre. subst pre rx r.
  unfold document_action. rewrite guarded_run.
  rewrite with_TemporaryDirectory_run, Hmk. cbn [res_out res_fs res_trace].
  destruct (res_out (document_with uploaded_files mkdtemp_name (add_dir t fs)))
    as [[]|e]; [reflexivity|].
  destruct (isinstance_Exception e); reflexivity.
Qed.

Lemma keeps_document_results gs : keeps_fs (document_results gs).
Proof.
  unfold document_results, for_enumerate, document_json_data, document_entry,
    show_document_golden.
  solve_keeps.
Qed.


(** The body of the [with], once the uploads are saved and a synthesizer
    is made. *)
Lemma document_with_run uploaded_files temp_dir fs file_paths s0 :
  res_out (save_uploaded_files temp_dir uploaded_files fs) = Return file_paths ->
  Synthesizer_init None None = Return s0 ->
  let r1 := save_uploaded_files temp_dir uploaded_files fs in
  let fs1 := res_fs r1 in
  let pre := res_trace r1 ++
             [Call_Synthesizer None; Call_generate_goldens_from_docs file_paths fs1] in
  document_with uploaded_files temp_dir fs =
    match generate_goldens_from_docs s0 fs1 file_paths with
    | Return syn =>
        let r := document_results (synthetic_goldens syn) fs1 in
        mk_result (res_out r) fs1 (pre ++ res_trace r)
    | Raise e => mk_result (Raise e) fs1 pre
    end.
Proof.
  intros Hsave Hinit r1 fs1 pre. subst pre fs1 r1.
  unfold document_with.
  rewrite (bind_Return _ _ fs file_paths Hsave).
  set (fs1 := res_fs (save_uploaded_files temp_dir uploaded_files fs)).
  set (tr1 := res_trace (save_uploaded_files temp_dir uploaded_files fs)).
  rewrite bind_emit. cbn [res_out res_fs res_trace].
  rewrite Hinit, bind_lift_Return. cbn [res_out res_fs res_trace].
  rewrite bind_get_fs. cbn [res_out res_fs res_trace].
  rewrite bind_emit. cbn [res_out res_fs res_trace].
  destruct (generate_goldens_from_docs s0 fs1 file_paths) as [syn|e].
  - rewrite bind_lift_Return. cbn [res_out res_fs res_trace].
    rewrite keeps_document_results. rewrite <- app_assoc. reflexivity.
  - rewrite bind_lift_Raise. cbn [res_out res_fs res_trace]. reflexivity.
Qed.

(** *** The script around the two actions *)

Ltac page_event H :=
  simpl in H; destruct H as [<-|[]]; left; simpl; tauto.

Lemma styling_mode_trace_In gpt_model fs ev :
  In ev (res_trace (styling_mode gpt_model fs)) ->
  In (kind_of ev) [K_page; K_input] \/
  (generate_pressed = true /\
   In ev (res_trace
            (styling_action gpt_model entered_input_format
               entered_expected_output_format entered_task entered_scenario
               selected_num_goldens fs))).
Proof.
  intros Hin. unfold styling_mode in Hin.
  apply bind_trace_In in Hin. destruct Hin as [Hin|(u1 & _ & Hin)]; [page_event Hin|].
  apply bind_trace_In in Hin. destruct Hin as [Hin|(u2 & _ & Hin)]; [page_event Hin|].
  apply bind_trace_In in Hin. destruct Hin as [Hin|(x1 & Hx1 & Hin)]; [page_event Hin|].
  apply bind_trace_In in Hin. destruct Hin as [Hin|(x2 & Hx2 & Hin)]; [page_event Hin|].
  apply bind_trace_In in Hin. destruct Hin as [Hin|(x3 & Hx3 & Hin)]; [page_event Hin|].
  apply bind_trace_In in Hin. destruct Hin as [Hin|(x4 & Hx4 & Hin)]; [page_event Hin|].
  apply bind_trace_In in Hin. destruct Hin as [Hin|(x5 & Hx5 & Hin)]; [page_event Hin|].
  apply bind_trace_In in Hin. destruct Hin as [Hin|(x6 & Hx6 & Hin)]; [page_event Hin|].
  simpl in Hx1, Hx2, Hx3, Hx4, Hx5, Hx6.
  injection Hx1 as <-. injection Hx2 as <-. injection Hx3 as <-.
  injection Hx4 as <-. injection Hx5 as <-. injection Hx6 as <-.
  simpl res_fs in Hin.
  destruct (button "Generate Data") eqn:Hb; [|simpl in Hin; contradiction].
  right. split; [exact Hb|exact Hin].
Qed.

Lemma document_mode_trace_In fs ev :
  In ev (res_trace (document_mode fs)) ->
  In (kind_of ev) [K_page; K_input] \/
  (uploads <> [] /\ generate_pressed = true /\
   In ev (res_trace (document_action uploads fs))).
Proof.
  intros Hin. unfold document_mode in Hin.
  apply bind_trace_In in Hin. destruct Hin as [Hin|(u1 & _ & Hin)]; [page_event Hin|].
  apply bind_trace_In in Hin. destruct Hin as [Hin|(ups & Hups & Hin)]; [page_event Hin|].
  simpl in Hups. injection Hups as <-. simpl res_fs in Hin.
  fold uploads in Hin.
  destruct uploads as [|u us] eqn:Hu; [simpl in Hin; contradiction|].
  apply bind_trace_In in Hin. destruct Hin as [Hin|(b & Hb & Hin)]; [page_event Hin|].
  simpl in Hb. injection Hb as <-. simpl res_fs in Hin.
  destruct (button "Generate Data") eqn:Hb; [|simpl in Hin; contradiction].
  right. repeat split; [discriminate|exact Hb|exact Hin].
Qed.

(** An event of a run of the script is part of the page, or it is an event
    of the action of the mode that was chosen, which was triggered. *)
Lemma app_trace_In fs ev :
  In ev (res_trace (app fs)) ->
  In (kind_of ev) [K_page; K_input; K_display; K_init] \/
  exists gpt_model,
    GPTModel_init (getenv "OPENAI_API_KEY") = Return gpt_model /\
    generate_pressed = true /\
    ((styling_chosen = true /\
      In ev (res_trace
               (styling_action gpt_model entered_input_format
                  entered_expected_output_format entered_task entered_scenario
                  selected_num_goldens fs))) \/
     (styling_chosen = false /\ uploads <> [] /\
      In ev (res_trace (document_action uploads fs)))).
Proof.
  intros Hin. unfold app in Hin.
  apply bind_trace_In in Hin. destruct Hin as [Hin|(u1 & _ & Hin)]; [page_event Hin|].
  apply bind_trace_In in Hin. destruct Hin as [Hin|(gpt & Hgpt & Hin)];
    [simpl in Hin; contradiction|].
  simpl in Hgpt. simpl res_fs in Hin.
  apply bind_trace_In in Hin. destruct Hin as [Hin|(u2 & _ & Hin)]; [page_event Hin|].
  apply bind_trace_In in Hin. destruct Hin as [Hin|(u3 & _ & Hin)]; [page_event Hin|].
  apply bind_trace_In in Hin. destruct Hin as [Hin|(u4 & _ & Hin)]; [page_event Hin|].
  apply bind_trace_In in Hin. destruct Hin as [Hin|(gm & Hgm & Hin)]; [page_event Hin|].
  simpl in Hgm. injection Hgm as <-. simpl res_fs in Hin.
  fold chosen_method in Hin. fold styling_chosen in Hin.
  apply bind_trace_In in Hin. destruct Hin as [Hin|(u5 & _ & Hin)].
  - destruct styling_chosen eqn:Hs.
    + apply styling_mode_trace_In in Hin. destruct Hin as [Hk|(Hb & Hin)].
      * left. simpl in *. tauto.
      * right. exists gpt. tauto.
    + apply document_mode_trace_In in Hin. destruct Hin as [Hk|(Hu & Hb & Hin)].
      * left. simpl in *. tauto.
      * right. exists gpt. tauto.
  - apply bind_trace_In in Hin. destruct Hin as [Hin|(u6 & _ & Hin)]; [page_event Hin|].
    apply bind_trace_In in Hin. destruct Hin as [Hin|(u7 & _ & Hin)]; [page_event Hin|].
    page_event Hin.
Qed.

(** Conversely, the events of a triggered action are events of the run. *)
Lemma app_trace_styling fs gpt_model ev :
  GPTModel_init (getenv "OPENAI_API_KEY") = Return gpt_model ->
  styling_chosen = true -> generate_pressed = true ->
  In ev (res_trace
           (styling_action gpt_model entered_input_format
              entered_expected_output_format entered_task entered_scenario
              selected_num_goldens fs)) ->
  In ev (res_trace (app fs)).
Proof.
  intros Hgpt Hs Hb Hin. unfold app.
  apply bind_trace_In_r with (a := tt); [reflexivity|].
  apply bind_trace_In_r with (a := gpt_model); [exact Hgpt|].
  do 3 (apply bind_trace_In_r with (a := tt); [reflexivity|]).
  apply bind_trace_In_r with (a := chosen_method); [reflexivity|].
  apply bind_trace_In_l.
  fold styling_chosen. rewrite Hs. unfold styling_mode.
  do 2 (apply bind_trace_In_r with (a := tt); [reflexivity|]).
  apply bind_trace_In_r with (a := entered_input_format); [reflexivity|].
  apply bind_trace_In_r with (a := entered_expected_output_format); [reflexivity|].
  apply bind_trace_In_r with (a := entered_task); [reflexivity|].
  apply bind_trace_In_r with (a := entered_scenario); [reflexivity|].
  apply bind_trace_In_r with (a := selected_num_goldens); [reflexivity|].
  apply bind_trace_In_r with (a := true); [exact (f_equal Return Hb)|].
  exact Hin.
Qed.

Lemma app_trace_document fs gpt_model ev :
  GPTModel_init (getenv "OPENAI_API_KEY") = Return gpt_model ->
  styling_chosen = false -> uploads <> [] -> generate_pressed = true ->
  In ev (res_trace (document_action uploads fs)) ->
  In ev (res_trace (app fs)).
Proof.
  intros Hgpt Hs Hu Hb Hin. unfold app.
  apply bind_trace_In_r with (a := tt); [reflexivity|].
  apply bind_trace_In_r with (a := gpt_model); [exact Hgpt|].
  do 3 (apply bind_trace_In_r with (a := tt); [reflexivity|]).
  apply bind_trace_In_r with (a := chosen_method); [reflexivity|].
  apply bind_trace_In_l.
  fold styling_chosen. rewrite Hs. unfold document_mode.
  apply bind_trace_In_r with (a := tt); [reflexivity|].
  apply bind_trace_In_r with (a := uploads); [reflexivity|].
  destruct uploads as [|u us] eqn:Hups; [contradiction|].
  apply bind_trace_In_r with (a := true); [exact (f_equal Return Hb)|].
  exact Hin.
Qed.

(** The script ends as the document action does. *)
Lemma app_out_document fs gpt_model :
  GPTModel_init (getenv "OPENAI_API_KEY") = Return gpt_model ->
  styling_chosen = false -> uploads <> [] -> generate_pressed = true ->
  res_out (app fs) = res_out (document_action uploads fs).
Proof.
  intros Hgpt Hs Hu Hb. unfold app.
  rewrite bind_emit. cbn [res_out]. rewrite Hgpt, bind_lift_Return. cbn [res_out].
  rewrite !bind_emit. cbn [res_out].
  unfold st_sidebar_radio. rewrite bind_widget. cbn [res_out].
  fold chosen_method. fold styling_chosen. rewrite Hs, bind_out.
  assert (Hmode : document_mode fs =
            mk_result (res_out (document_action uploads fs))
              (res_fs (document_action uploads fs))
              (St_header "Generate Synthetic Data from Documents" ::
               St_file_uploader "Upload documents (PDF, DOCX, TXT)" true ::
               St_button "Generate Data" ::
               res_trace (document_action uploads fs))).
  { unfold document_mode. rewrite bind_emit. cbn [res_out res_fs res_trace].
    unfold st_file_uploader. rewrite bind_widget. cbn [res_out res_fs res_trace].
    fold uploads. destruct uploads as [|u us] eqn:Hups; [contradiction|].
    unfold st_button. rewrite bind_widget. cbn [res_out res_fs res_trace].
    fold generate_pressed. rewrite Hb. reflexivity. }
  rewrite Hmode. cbn [res_out res_fs].
  destruct (res_out (document_action uploads fs)) as [[]|e]; reflexivity.
Qed.

(** *** Inside the document action *)

Lemma document_action_trace_In uploaded_files fs ev :
  In ev (res_trace (document_action uploaded_files fs)) ->
  In (kind_of ev) [K_page; K_mkdtemp; K_rmtree; K_error] \/
  exists t,
    mkdir fs mkdtemp_name = Return t /\
    In ev (res_trace (document_with uploaded_files mkdtemp_name (add_dir t fs))).
Proof.
  intros Hin.
  destruct (mkdir fs mkdtemp_name) as [t|e] eqn:Hmk.
  - rewrite (document_action_run _ _ _ Hmk) in Hin.
    set (r := document_with uploaded_files mkdtemp_name (add_dir t fs)) in *.
    assert (Hpre : In ev (document_spinner :: Sys_mkdtemp t :: res_trace r ++
                            res_trace (TemporaryDirectory_exit mkdtemp_name (res_fs r))) ->
                   In (kind_of ev) [K_page; K_mkdtemp; K_rmtree; K_error] \/
                   In ev (res_trace r)).
    { intros [<-|[<-|Hr]]; [left; simpl; tauto|left; simpl; tauto|].
      apply in_app_iff in Hr. destruct Hr as [Hr|Hx]; [now right|].
      left. pose proof (emits_TemporaryDirectory_exit mkdtemp_name (res_fs r)) as Hex.
      rewrite Forall_forall in Hex. apply list_elem_of_In, Hex in Hx.
      unfold only in Hx. simpl in *. tauto. }
    assert (Hgoal : In (kind_of ev) [K_page; K_mkdtemp; K_rmtree; K_error] \/
                    In ev (res_trace r) ->
                    In (kind_of ev) [K_page; K_mkdtemp; K_rmtree; K_error] \/
                    exists t0, Return t = Return t0 /\
                      In ev (res_trace (document_with uploaded_files mkdtemp_name
                                          (add_dir t0 fs)))).
    { intros [Hk|Hr]; [now left|right; now exists t]. }
    apply Hgoal.
    destruct (res_out r) as [[]|e]; [now apply Hpre|].
    destruct (isinstance_Exception e); [|now apply Hpre].
    cbn [res_trace] in Hin. apply in_app_iff in Hin.
    destruct Hin as [Hin|Hh]; [now apply Hpre|].
    left. simpl in Hh. destruct Hh as [<-|[<-|[]]]; simpl; tauto.
  - rewrite (document_action_run_no_dir _ _ _ Hmk) in Hin. left.
    destruct (isinstance_Exception e); simpl in Hin.
    + destruct Hin as [<-|[<-|[<-|[]]]]; simpl; tauto.
    + destruct Hin as [<-|[]]. simpl. tauto.
Qed.

Lemma document_with_trace_In uploaded_files temp_dir fs ev :
  In ev (res_trace (document_with uploaded_files temp_dir fs)) ->
  In (kind_of ev) [K_write; K_info; K_init] \/
  exists file_paths s0,
    res_out (save_uploaded_files temp_dir uploaded_files fs) = Return file_paths /\
    Synthesizer_init None None = Return s0 /\
    let fs1 := res_fs (save_uploaded_files temp_dir uploaded_files fs) in
    (ev = Call_generate_goldens_from_docs file_paths fs1 \/
     exists syn,
       generate_goldens_from_docs s0 fs1 file_paths = Return syn /\
       In ev (res_trace (document_results (synthetic_goldens syn) fs1))).
Proof.
  intros Hin.
  destruct (res_out (save_uploaded_files temp_dir uploaded_files fs))
    as [file_paths|e] eqn:Hsave.
  - destruct (Synthesizer_init None None) as [s0|e] eqn:Hinit.
    + rewrite (document_with_run _ _ _ _ _ Hsave Hinit) in Hin.
      cbv zeta in Hin.
      set (fs1 := res_fs (save_uploaded_files temp_dir uploaded_files fs)) in *.
      assert (Hpre : In ev (res_trace (save_uploaded_files temp_dir uploaded_files fs) ++
                              [Call_Synthesizer None;
                               Call_generate_goldens_from_docs file_paths fs1]) ->
                     In (kind_of ev) [K_write; K_info; K_init] \/
                     ev = Call_generate_goldens_from_docs file_paths fs1).
      { rewrite in_app_iff. intros [Hs|[<-|[<-|[]]]].
        - left. pose proof (emits_save_uploaded_files temp_dir uploaded_files fs) as Hem.
          rewrite Forall_forall in Hem. apply list_elem_of_In, Hem in Hs.
          unfold only in Hs. simpl in *. tauto.
        - left. simpl. tauto.
        - now right. }
      destruct (generate_goldens_from_docs s0 fs1 file_paths) as [syn|e] eqn:Hgen;
        simpl in Hin.
      * rewrite in_app_iff in Hin. destruct Hin as [Hin|Hres].
        -- destruct (Hpre Hin) as [Hk| ->]; [now left|].
           right. exists file_paths, s0. repeat split; trivial. now left.
        -- right. exists file_paths, s0. repeat split; trivial.
           right. now exists syn.
      * destruct (Hpre Hin) as [Hk| ->]; [now left|].
        right. exists file_paths, s0. repeat split; trivial. now left.
    + left. unfold document_with in Hin.
      rewrite (bind_Return _ _ fs file_paths Hsave) in Hin. simpl in Hin.
      rewrite in_app_iff in Hin. destruct Hin as [Hs|Hin].
      * pose proof (emits_save_uploaded_files temp_dir uploaded_files fs) as Hem.
        rewrite Forall_forall in Hem. apply list_elem_of_In, Hem in Hs.
        unfold only in Hs. simpl in *. tauto.
      * unfold bind, lift in Hin. simpl in Hin. rewrite Hinit in Hin. simpl in Hin.
        destruct Hin as [<-|[]]. simpl. tauto.
  - left. unfold document_with in Hin.
    rewrite (bind_Raise _ _ fs e Hsave) in Hin. simpl in Hin.
    pose proof (emits_save_uploaded_files temp_dir uploaded_files fs) as Hem.
    rewrite Forall_forall in Hem. apply list_elem_of_In, Hem in Hin.
    unfold only in Hin. simpl in *. tauto.
Qed.

Lemma document_results_download gs fs label data file_name mime :
  In (St_download_button label data file_name mime)
     (res_trace (document_results gs fs)) ->
  gs <> [] /\
  exists json_data,
    Forall2 (exports document_entry) gs json_data /\
    json_dumps (PList json_data) = Return data /\
    file_name = "synthetic_data_from_docs.json".
Proof.
  intros Hin. unfold document_results in Hin.
  through Hin u Hu.
  destruct gs as [|g gs]; [simpl in Hin; destruct Hin as [Hin|[]]; discriminate|].
  split; [discriminate|].
  simpl res_fs in Hin.
  through Hin u1 Hu1.
  { exfalso. revert Hin. apply emits_only_absent with (ks := [K_display]).
    - unfold for_enumerate. apply emits_for_enumerate_from. intros j x.
      apply emits_show_document_golden.
    - simpl. intuition discriminate. }
  through Hin jd Hjd.
  { exfalso. revert Hin. apply emits_only_absent with (ks := []).
    - apply emits_document_json_data.
    - simpl. tauto. }
  through Hin js Hjs.
  simpl in Hin. destruct Hin as [Hin|[]]. injection Hin as <- <- <- <-.
  exists jd. repeat split; trivial.
  eapply document_json_data_run. exact Hjd.
Qed.

(** *** Saving the uploads *)

Lemma save_uploaded_file_run temp_dir file_paths u fs :
  let p := os_path_join temp_dir (name u) in
  save_uploaded_file temp_dir file_paths u fs =
    match io_fault fs p with
    | Some e => mk_result (Raise e) fs []
    | None =>
        match open_wb fs p with
        | Raise e => mk_result (Raise e) fs []
        | Return t =>
            mk_result (Return (file_paths ++ [p])) (write_file t (getvalue u) fs)
              [Sys_write t (getvalue u); St_info ("Processing: " +:+ name u)]
        end
    end.
Proof.
  intros p. subst p. unfold save_uploaded_file, bind, write_binary.
  destruct (io_fault fs (os_path_join temp_dir (name u))); [reflexivity|].
  destruct (open_wb fs (os_path_join temp_dir (name u))); reflexivity.
Qed.

Lemma for_fold_cons {A B} (x : A) xs (acc : B) body fs :
  for_fold (x :: xs) acc body fs =
    bind (body acc x) (fun acc' => for_fold xs acc' body) fs.
Proof. reflexivity. Qed.

Lemma save_uploaded_files_paths_from temp_dir ups : forall acc fs file_paths,
  res_out (for_fold ups acc (save_uploaded_file temp_dir) fs) = Return file_paths ->
  file_paths = acc ++ map (fun u => os_path_join temp_dir (name u)) ups.
Proof.
  induction ups as [|u ups IH]; intros acc fs file_paths Hout.
  - simpl in Hout. injection Hout as <-. now rewrite app_nil_r.
  - rewrite for_fold_cons in Hout.
    apply bind_out_Return in Hout. destruct Hout as (acc' & Hstep & Hrest).
    rewrite save_uploaded_file_run in Hstep.
    destruct (io_fault fs _); [discriminate|].
    destruct (open_wb fs _); [|discriminate].
    simpl in Hstep. injection Hstep as <-.
    apply IH in Hrest. rewrite Hrest, <- app_assoc. reflexivity.
Qed.

Lemma save_uploaded_files_paths temp_dir ups fs file_paths :
  res_out (save_uploaded_files temp_dir ups fs) = Return file_paths ->
  file_paths = map (fun u => os_path_join temp_dir (name u)) ups.
Proof. apply save_uploaded_files_paths_from. Qed.

(** *** The call of the library in the document action *)

Lemma document_with_in_action uploaded_files fs t ev :
  mkdir fs mkdtemp_name = Return t ->
  In ev (res_trace (document_with uploaded_files mkdtemp_name (add_dir t fs))) ->
  In ev (res_trace (document_action uploaded_files fs)).
Proof.
  intros Hmk Hin. rewrite (document_action_run _ _ _ Hmk).
  set (r := document_with uploaded_files mkdtemp_name (add_dir t fs)) in *.
  assert (Hpre : In ev (document_spinner :: Sys_mkdtemp t :: res_trace r ++
                   res_trace (TemporaryDirectory_exit mkdtemp_name (res_fs r)))).
  { right. right. apply in_app_iff. now left. }
  destruct (res_out r) as [[]|e]; [exact Hpre|].
  destruct (isinstance_Exception e); [|exact Hpre].
  cbn [res_trace]. apply in_app_iff. now left.
Qed.

(** The library is called with the paths of the saved uploads, on the
    file system the saving left. *)
Lemma document_action_call uploaded_files fs file_paths fs1 :
  In (Call_generate_goldens_from_docs file_paths fs1)
     (res_trace (document_action uploaded_files fs)) ->
  exists t s0,
    mkdir fs mkdtemp_name = Return t /\
    res_out (save_uploaded_files mkdtemp_name uploaded_files (add_dir t fs))
      = Return file_paths /\
    res_fs (save_uploaded_files mkdtemp_name uploaded_files (add_dir t fs)) = fs1 /\
    Synthesizer_init None None = Return s0.
Proof.
  intros Hin.
  apply document_action_trace_In in Hin.
  destruct Hin as [Hk|(t & Hmk & Hin)]; [simpl in Hk; intuition discriminate|].
  apply document_with_trace_In in Hin.
  destruct Hin as [Hk|(fp & s0 & Hsave & Hinit & Hev)];
    [simpl in Hk; intuition discriminate|].
  cbv zeta in Hev. destruct Hev as [Hev|(syn & Hgen & Hres)].
  - injection Hev as -> ->. exists t, s0. auto.
  - exfalso. revert Hres.
    apply emits_only_absent with (ks := [K_display; K_warning; K_download]).
    + apply emits_document_results.
    + simpl. intuition discriminate.
Qed.

Lemma document_action_call_In uploaded_files fs t file_paths s0 :
  mkdir fs mkdtemp_name = Return t ->
  res_out (save_uploaded_files mkdtemp_name uploaded_files (add_dir t fs))
    = Return file_paths ->
  Synthesizer_init None None = Return s0 ->
  In (Call_generate_goldens_from_docs file_paths
        (res_fs (save_uploaded_files mkdtemp_name uploaded_files (add_dir t fs))))
     (res_trace (document_action uploaded_files fs)).
Proof.
  intros Hmk Hsave Hinit. apply (document_with_in_action _ _ _ _ Hmk).
  rewrite (document_with_run _ _ _ _ _ Hsave Hinit). cbv zeta.
  destruct (generate_goldens_from_docs s0 _ file_paths); cbn [res_trace].
  - rewrite in_app_iff. left. rewrite in_app_iff. right. simpl. tauto.
  - rewrite in_app_iff. right. simpl. tauto.
Qed.

(** A download offered in document mode holds the data collected from the
    goldens the library produced, of which there is at least one. *)
Lemma document_action_download uploaded_files fs label data file_name mime :
  In (St_download_button label data file_name mime)
     (res_trace (document_action uploaded_files fs)) ->
  exists s0 file_paths fs1 syn json_data,
    In (Call_generate_goldens_from_docs file_paths fs1)
       (res_trace (document_action uploaded_files fs)) /\
    Synthesizer_init None None = Return s0 /\
    generate_goldens_from_docs s0 fs1 file_paths = Return syn /\
    synthetic_goldens syn <> [] /\
    Forall2 (exports document_entry) (synthetic_goldens syn) json_data /\
    json_dumps (PList json_data) = Return data /\
    file_name = "synthetic_data_from_docs.json".
Proof.
  intros Hin.
  apply document_action_trace_In in Hin.
  destruct Hin as [Hk|(t & Hmk & Hin)]; [simpl in Hk; intuition discriminate|].
  apply document_with_trace_In in Hin.
  destruct Hin as [Hk|(fp & s0 & Hsave & Hinit & Hev)];
    [simpl in Hk; intuition discriminate|].
  cbv zeta in Hev. destruct Hev as [Hev|(syn & Hgen & Hres)]; [discriminate|].
  apply document_results_download in Hres.
  destruct Hres as (Hne & jd & HF & Hd & Hf).
  exists s0, fp,
    (res_fs (save_uploaded_files mkdtemp_name uploaded_files (add_dir t fs))),
    syn, jd.
  repeat split; trivial.
  now apply document_action_call_In with (s0 := s0).
Qed.

(** *** The kinds of events of the two actions *)

Lemma emits_styling_action gpt_model a b c d n :
  emits (only [K_page; K_init; K_from_scratch; K_display; K_download; K_error])
    (styling_action gpt_model a b c d n).
Proof.
  unfold styling_action, styling_try, for_enumerate, styling_json_data,
    styling_entry.
  solve_emits.
Qed.

Lemma emits_document_with uploaded_files temp_dir :
  emits (only [K_write; K_info; K_init; K_from_docs; K_display; K_warning; K_download])
    (document_with uploaded_files temp_dir).
Proof.
  intros fs. apply Forall_forall. intros ev Hin. apply list_elem_of_In in Hin.
  apply document_with_trace_In in Hin.
  destruct Hin as [Hk|(fp & s0 & _ & _ & Hev)]; [unfold only; simpl in *; tauto|].
  cbv zeta in Hev. destruct Hev as [->|(syn & _ & Hres)]; [unfold only; simpl; tauto|].
  pose proof (emits_document_results (synthetic_goldens syn)
                (res_fs (save_uploaded_files temp_dir uploaded_files fs))) as Hem.
  rewrite Forall_forall in Hem. apply list_elem_of_In, Hem in Hres.
  unfold only in *. simpl in *. tauto.
Qed.

Lemma emits_document_action uploaded_files :
  emits (only [K_page; K_mkdtemp; K_rmtree; K_error; K_write; K_info; K_init;
               K_from_docs; K_display; K_warning; K_download])
    (document_action uploaded_files).
Proof.
  intros fs. apply Forall_forall. intros ev Hin. apply list_elem_of_In in Hin.
  apply document_action_trace_In in Hin.
  destruct Hin as [Hk|(t & _ & Hin)]; [unfold only; simpl in *; tauto|].
  pose proof (emits_document_with uploaded_files mkdtemp_name (add_dir t fs)) as Hem.
  rewrite Forall_forall in Hem. apply list_elem_of_In, Hem in Hin.
  unfold only in *. simpl in *. tauto.
Qed.

Lemma styling_action_scratch_call gpt_model a b c d n fs n' :
  In (Call_generate_goldens_from_scratch n')
     (res_trace (styling_action gpt_model a b c d n fs)) ->
  n' = n.
Proof.
  intros Hin. unfold styling_action in Hin.
  through Hin u Hu.
  apply try_trace_In in Hin. destruct Hin as [Hin|(e & _ & _ & Hin)];
    [|simpl in Hin; destruct Hin as [Hin|[]]; discriminate Hin].
  unfold styling_try in Hin.
  through Hin u1 Hu1. through Hin s0 Hs0.
  apply bind_trace_In in Hin. destruct Hin as [Hin|(u2 & _ & Hin)].
  { simpl in Hin. destruct Hin as [Hin|[]]. now injection Hin. }
  exfalso. revert Hin.
  apply emits_only_absent with (ks := [K_display; K_download]).
  - unfold for_enumerate, styling_json_data, styling_entry. solve_emits.
  - simpl. intuition discriminate.
Qed.

(** *** A download that the script offers *)

Lemma Forall2_in_order {A B} (R : A -> B -> Prop) xs ys :
  Forall2 R xs ys -> in_order R xs ys.
Proof.
  intros HF. split.
  - symmetry. eapply Forall2_length. exact HF.
  - induction HF as [|x y xs ys Hxy HF IH]; intros i a Hi.
    + destruct i; discriminate.
    + destruct i as [|i]; simpl in *.
      * injection Hi as <-. now exists y.
      * now apply IH.
Qed.

Lemma in_order_impl {A B} (R Q : A -> B -> Prop) xs ys :
  (forall x y, R x y -> Q x y) -> in_order R xs ys -> in_order Q xs ys.
Proof.
  intros HRQ [Hlen Hnth]. split; [exact Hlen|].
  intros i x Hi. destruct (Hnth i x Hi) as (y & Hy & HR). exists y. auto.
Qed.

Lemma app_download fs label data file_name mime :
  In (St_download_button label data file_name mime) (res_trace (app fs)) ->
  exists gs json_data,
    json_dumps (PList json_data) = Return data /\
    ((styling_chosen = true /\ file_name = "synthetic_data.json" /\
      styling_goldens gs /\
      in_order (exports styling_entry) gs json_data) \/
     (styling_chosen = false /\ file_name = "synthetic_data_from_docs.json" /\
      gs <> [] /\ document_goldens fs gs /\
      in_order (exports document_entry) gs json_data)).
Proof.
  intros Hin. destruct (app_trace_In _ _ Hin) as [Hk|(gpt & Hgpt & Hb & Hmode)];
    [simpl in Hk; intuition discriminate|].
  destruct Hmode as [(Hs & Hact)|(Hs & Hu & Hact)].
  - apply styling_action_download in Hact.
    destruct Hact as (s0 & syn & jd & Hinit & Hgen & HF & Hd & Hf).
    exists (synthetic_goldens syn), jd. split; [exact Hd|]. left.
    repeat split; trivial.
    + exists gpt, s0, syn. auto.
    + eapply Forall2_length. eapply Forall2_flip. exact HF.
    + apply Forall2_in_order. exact HF.
  - apply document_action_download in Hact.
    destruct Hact as (s0 & fp & fs1 & syn & jd & Hcall & Hinit & Hgen & Hne & HF & Hd & Hf).
    exists (synthetic_goldens syn), jd. split; [exact Hd|]. right.
    repeat split; trivial.
    + exists s0, fp, fs1, syn. repeat split; trivial.
      now apply (app_trace_document fs gpt).
    + eapply Forall2_length. eapply Forall2_flip. exact HF.
    + apply Forall2_in_order. exact HF.
Qed.

End Runs.

(** ** The file system under the script *)

Lemma walk_same_dirs fs fs' comps : forall cur,
  dirs fs' = dirs fs -> walk fs' cur comps = walk fs cur comps.
Proof.
  induction comps as [|c cs IH]; intros cur Hd; [reflexivity|].
  simpl. unfold is_dir. rewrite Hd.
  destruct (dot_name c); [now apply IH|].
  destruct (String.eqb c ".."); [now apply IH|].
  destruct (bool_decide _); [now apply IH|reflexivity].
Qed.

Lemma resolve_entry_same_dirs fs fs' s :
  cwd fs' = cwd fs -> dirs fs' = dirs fs -> resolve_entry fs' s = resolve_entry fs s.
Proof.
  intros Hc Hd. unfold resolve_entry, start_dir.
  rewrite Hc, (walk_same_dirs fs fs') by exact Hd. reflexivity.
Qed.


Lemma open_wb_same_dirs fs fs' s :
  cwd fs' = cwd fs -> dirs fs' = dirs fs -> open_wb fs' s = open_wb fs s.
Proof.
  intros Hc Hd. unfold open_wb, is_dir.
  rewrite (resolve_entry_same_dirs fs fs') by assumption.
  now rewrite Hd.
Qed.

Lemma bind_fs {A B} (m : M A) (k : A -> M B) fs :
  res_fs (bind m k fs) =
    match res_out (m fs) with
    | Return a => res_fs (k a (res_fs (m fs)))
    | Raise _ => res_fs (m fs)
    end.
Proof. unfold bind. now destruct (res_out (m fs)). Qed.

Lemma bind_trace {A B} (m : M A) (k : A -> M B) fs :
  res_trace (bind m k fs) =
    match res_out (m fs) with
    | Return a => res_trace (m fs) ++ res_trace (k a (res_fs (m fs)))
    | Raise _ => res_trace (m fs)
    end.
Proof. unfold bind. now destruct (res_out (m fs)). Qed.

Section Saving.
Context `{Runtime}.
Variable temp_dir : string.

Let p (u : UploadedFile) : string := os_path_join temp_dir (name u).

(** Saving leaves the directories as they are. *)
Lemma save_keeps_dirs ups : forall acc fs,
  cwd (res_fs (for_fold ups acc (save_uploaded_file temp_dir) fs)) = cwd fs /\
  dirs (res_fs (for_fold ups acc (save_uploaded_file temp_dir) fs)) = dirs fs.
Proof.
  induction ups as [|u ups IH]; intros acc fs; [now split|].
  rewrite for_fold_cons, bind_fs, save_uploaded_file_run. cbv zeta.
  destruct (io_fault fs _); [now split|].
  destruct (open_wb fs _) as [t|e]; [|now split].
  cbn [res_out res_fs]. destruct (IH (acc ++ [os_path_join temp_dir (name u)])
                                    (write_file t (getvalue u) fs)) as [Hc Hd].
  now rewrite Hc, Hd.
Qed.

(** A file that no upload is written to keeps its content. *)
Lemma save_elsewhere ups t : forall acc fs,
  (forall u, In u ups -> open_wb fs (p u) <> Return t) ->
  files (res_fs (for_fold ups acc (save_uploaded_file temp_dir) fs)) !! t
    = files fs !! t.
Proof.
  induction ups as [|u ups IH]; intros acc fs Hno; [reflexivity|].
  rewrite for_fold_cons, bind_fs, save_uploaded_file_run. cbv zeta.
  destruct (io_fault fs _); [reflexivity|].
  destruct (open_wb fs (os_path_join temp_dir (name u))) as [t'|e] eqn:Ho;
    [|reflexivity].
  cbn [res_out res_fs]. rewrite IH.
  - simpl. apply lookup_insert_ne. intros ->.
    apply (Hno u (or_introl eq_refl)). exact Ho.
  - intros w Hw. rewrite (open_wb_same_dirs fs) by reflexivity.
    apply Hno. now right.
Qed.

(** When all uploads are saved, each was written where its path leads,
    with its own bytes. *)
Lemma save_writes ups : forall acc fs file_paths,
  res_out (for_fold ups acc (save_uploaded_file temp_dir) fs) = Return file_paths ->
  forall u, In u ups ->
    exists t, open_wb fs (p u) = Return t /\
              In (Sys_write t (getvalue u))
                 (res_trace (for_fold ups acc (save_uploaded_file temp_dir) fs)).
Proof.
  induction ups as [|u ups IH]; intros acc fs file_paths Hout w Hw; [destruct Hw|].
  rewrite for_fold_cons in Hout. apply bind_out_Return in Hout.
  destruct Hout as (acc' & Hstep & Hrest).
  rewrite for_fold_cons, bind_trace.
  rewrite save_uploaded_file_run in *. cbv zeta in *.
  destruct (io_fault fs _); [discriminate|].
  destruct (open_wb fs (os_path_join temp_dir (name u))) as [t|e] eqn:Ho;
    [|discriminate].
  cbn [res_out res_fs res_trace] in *. injection Hstep as <-.
  destruct Hw as [<-|Hw].
  - exists t. split; [exact Ho|]. simpl. tauto.
  - destruct (IH _ _ _ Hrest w Hw) as (t' & Ho' & Hin).
    exists t'. split.
    + now rewrite (open_wb_same_dirs fs) in Ho' by reflexivity.
    + right. right. exact Hin.
Qed.

(** The last upload written to a file decides its content. *)
Lemma save_last_writer ups1 v ups2 t : forall acc fs file_paths,
  res_out (for_fold (ups1 ++ v :: ups2) acc (save_uploaded_file temp_dir) fs)
    = Return file_paths ->
  open_wb fs (p v) = Return t ->
  (forall w, In w ups2 -> open_wb fs (p w) <> Return t) ->
  files (res_fs (for_fold (ups1 ++ v :: ups2) acc (save_uploaded_file temp_dir) fs)) !! t
    = Some (getvalue v).
Proof.
  induction ups1 as [|u ups1 IH]; intros acc fs file_paths Hout Hv Hno.
  - change ([] ++ v :: ups2) with (v :: ups2) in *. rewrite for_fold_cons in Hout.
    apply bind_out_Return in Hout. destruct Hout as (acc' & Hstep & Hrest).
    rewrite for_fold_cons, bind_fs.
    rewrite save_uploaded_file_run in *. cbv zeta in *.
    fold (p v) in *. rewrite Hv in *.
    destruct (io_fault fs (p v)); [discriminate|].
    cbn [res_out res_fs] in *. rewrite save_elsewhere.
    + simpl. apply lookup_insert_eq.
    + intros w Hw. rewrite (open_wb_same_dirs fs) by reflexivity. now apply Hno.
  - change ((u :: ups1) ++ v :: ups2) with (u :: (ups1 ++ v :: ups2)) in *.
    rewrite for_fold_cons in Hout.
    apply bind_out_Return in Hout. destruct Hout as (acc' & Hstep & Hrest).
    rewrite for_fold_cons, bind_fs.
    rewrite save_uploaded_file_run in *. cbv zeta in *.
    destruct (io_fault fs _); [discriminate|].
    destruct (open_wb fs (os_path_join temp_dir (name u))) as [t'|e] eqn:Ho;
      [|discriminate].
    cbn [res_out res_fs] in *. injection Hstep as <-.
    eapply IH.
    + exact Hrest.
    + now rewrite (open_wb_same_dirs fs) by reflexivity.
    + intros w Hw. rewrite (open_wb_same_dirs fs) by reflexivity. now apply Hno.
Qed.


End Saving.

(** ** The call of the library from documents, seen from the whole run *)

Section DocumentsCall.
Context `{Session} `{Runtime} `{Collaborator}.

Lemma app_documents_call fs file_paths fs1 :
  In (Call_generate_goldens_from_docs file_paths fs1) (res_trace (app fs)) ->
  exists gpt_model t s0,
    GPTModel_init (getenv "OPENAI_API_KEY") = Return gpt_model /\
    styling_chosen = false /\ uploads <> [] /\ generate_pressed = true /\
    mkdir fs mkdtemp_name = Return t /\
    res_out (save_uploaded_files mkdtemp_name uploads (add_dir t fs)) = Return file_paths /\
    res_fs (save_uploaded_files mkdtemp_name uploads (add_dir t fs)) = fs1 /\
    Synthesizer_init None None = Return s0.
Proof.
  intros Hin.
  destruct (app_trace_In _ _ Hin) as [Hk|(gpt & Hgpt & Hb & Hmode)];
    [simpl in Hk; intuition discriminate|].
  destruct Hmode as [(Hs & Hact)|(Hs & Hu & Hact)].
  - exfalso. revert Hact. eapply emits_only_absent.
    + apply emits_styling_action.
    + simpl. intuition discriminate.
  - apply document_action_call in Hact.
    destruct Hact as (t & s0 & Hmk & Hsave & Hfs1 & Hinit).
    exists gpt, t, s0. repeat split; trivial.
Qed.

Lemma save_in_app fs gpt_model t ev :
  GPTModel_init (getenv "OPENAI_API_KEY") = Return gpt_model ->
  styling_chosen = false -> uploads <> [] -> generate_pressed = true ->
  mkdir fs mkdtemp_name = Return t ->
  In ev (res_trace (save_uploaded_files mkdtemp_name uploads (add_dir t fs))) ->
  In ev (res_trace (app fs)).
Proof.
  intros Hgpt Hs Hu Hb Hmk Hin.
  apply (app_trace_document fs gpt_model); trivial.
  apply (document_with_in_action _ _ _ _ Hmk).
  unfold document_with. apply bind_trace_In_l. exact Hin.
Qed.

End DocumentsCall.

(** ** Paths *)

Lemma split_on_nonempty c s : split_on c s <> [].
Proof.
  destruct s as [|x s]; simpl; [discriminate|].
  destruct (Ascii.eqb x c); [discriminate|].
  destruct (split_on c s); discriminate.
Qed.

Lemma split_on_app c a b :
  split_on c (a +:+ String c b) = split_on c a ++ split_on c b.
Proof.
  induction a as [|x a IH]; simpl.
  - now rewrite Ascii.eqb_refl.
  - destruct (Ascii.eqb x c); [now rewrite IH|].
    rewrite IH. pose proof (split_on_nonempty c a) as Hne.
    destruct (split_on c a); [contradiction|reflexivity].
Qed.

Lemma split_on_plain n : has_slash n = false -> split_on slash n = [n].
Proof.
  induction n as [|x n IH]; simpl; [reflexivity|].
  intros Hx. apply orb_false_iff in Hx. destruct Hx as [Hx Hn].
  rewrite Hx, (IH Hn). reflexivity.
Qed.

Lemma has_nul_app a b : has_nul (a +:+ b) = has_nul a || has_nul b.
Proof.
  induction a as [|x a IH]; simpl; [reflexivity|].
  now rewrite IH, orb_assoc.
Qed.

Lemma endswith_slash_inv s :
  endswith_slash s = true -> exists s', s = s' +:+ String slash EmptyString.
Proof.
  induction s as [|x s IH]; [discriminate|].
  destruct s as [|y s1].
  - simpl. intros Hx. apply Ascii.eqb_eq in Hx. subst x. now exists EmptyString.
  - intros Hs. destruct (IH Hs) as (s' & Hs'). exists (String x s').
    change (String x (String y s1) = String x (s' +:+ String slash EmptyString)).
    now rewrite <- Hs'.
Qed.




(** ** Resolution *)









(** ** Removing the temporary directory *)




(** ** The file system after the document action *)

Section Cleanup.
Context `{Session} `{Runtime} `{Collaborator}.












(** The library is called once all uploads are written, each with the
    bytes it came with, and nothing is written after the call. *)
Lemma uploads_are_saved_before_the_call uploaded_files fs file_paths fs1 :
  In (Call_generate_goldens_from_docs file_paths fs1)
     (res_trace (document_action uploaded_files fs)) ->
  exists before after,
    res_trace (document_action uploaded_files fs)
      = before ++ Call_generate_goldens_from_docs file_paths fs1 :: after /\
    file_paths = map upload_path uploaded_files /\
    (forall u, In u uploaded_files ->
       exists tgt, upload_target fs1 u = Some tgt /\
                   In (Sys_write tgt (getvalue u)) before) /\
    (forall tgt data, ~ In (Sys_write tgt data) after).
Proof.
  intros Hin.
  destruct (document_action_call _ _ _ _ Hin) as (t & s0 & Hmk & Hsave & Hfs1 & Hinit).
  set (r1 := save_uploaded_files mkdtemp_name uploaded_files (add_dir t fs)) in *.
  set (r := document_with uploaded_files mkdtemp_name (add_dir t fs)).
  assert (Hr : exists X,
    res_trace r = res_trace r1 ++
                  [Call_Synthesizer None; Call_generate_goldens_from_docs file_paths fs1]
                  ++ X /\
    forall tgt data, ~ In (Sys_write tgt data) X).
  { subst r. rewrite (document_with_run _ _ _ _ _ Hsave Hinit). cbv zeta.
    fold r1. rewrite Hfs1.
    destruct (generate_goldens_from_docs s0 fs1 file_paths) as [syn|e];
      cbn [res_trace].
    - exists (res_trace (document_results (synthetic_goldens syn) fs1)).
      split; [now rewrite <- app_assoc|].
      intros tgt data. eapply emits_only_absent.
      + apply emits_document_results.
      + simpl. intuition discriminate.
    - exists []. split; [now rewrite app_nil_r|]. intros tgt data []. }
  destruct Hr as (X & Hr & HX).
  set (rx := TemporaryDirectory_exit mkdtemp_name (res_fs r)).
  assert (Hrx : forall tgt data, ~ In (Sys_write tgt data) (res_trace rx)).
  { intros tgt data. eapply emits_only_absent.
    - apply emits_TemporaryDirectory_exit.
    - simpl. intuition discriminate. }
  assert (Htrace : exists Hd,
    res_trace (document_action uploaded_files fs)
      = document_spinner :: Sys_mkdtemp t :: res_trace r ++ res_trace rx ++ Hd /\
    forall tgt data, ~ In (Sys_write tgt data) Hd).
  { rewrite (document_action_run _ _ _ Hmk). cbv zeta. fold r. fold rx.
    destruct (res_out r) as [[]|e].
    - exists []. split; [now rewrite app_nil_r|]. intros tgt data [].
    - destruct (isinstance_Exception e); cbn [res_trace].
      + exists (document_handler e). split.
        * simpl. now rewrite <- app_assoc.
        * intros tgt data Hh. simpl in Hh. intuition discriminate.
      + exists []. split; [now rewrite app_nil_r|]. intros tgt data []. }
  destruct Htrace as (Hd & Htrace & HHd).
  exists (document_spinner :: Sys_mkdtemp t :: res_trace r1 ++ [Call_Synthesizer None]),
         (X ++ res_trace rx ++ Hd).
  split; [|split; [|split]].
  - rewrite Htrace, Hr. simpl. rewrite <- !app_assoc. reflexivity.
  - apply (save_uploaded_files_paths _ _ _ _ Hsave).
  - intros u Hu.
    destruct (save_writes mkdtemp_name uploaded_files [] _ _ Hsave u Hu)
      as (tgt & Ho & Hw).
    exists tgt. split.
    + unfold upload_target. subst fs1.
      destruct (save_keeps_dirs mkdtemp_name uploaded_files [] (add_dir t fs))
        as [Hc Hdirs].
      rewrite (open_wb_same_dirs (add_dir t fs)) by assumption.
      fold (upload_path u) in Ho. now rewrite Ho.
    + right. right. apply in_app_iff. left. exact Hw.
  - intros tgt data Hafter. rewrite !in_app_iff in Hafter.
    destruct Hafter as [Ha|[Ha|Ha]].
    + exact (HX _ _ Ha).
    + exact (Hrx _ _ Ha).
    + exact (HHd _ _ Ha).
Qed.

End Cleanup.

(** ** The run of the whole script *)

Section WholeRun.
Context `{Session} `{Runtime} `{Collaborator}.

Lemma styling_mode_run gpt_model fs :
  styling_mode gpt_model fs =
    if generate_pressed
    then
      let a := styling_action gpt_model entered_input_format
                 entered_expected_output_format entered_task entered_scenario
                 selected_num_goldens fs in
      mk_result (res_out a) (res_fs a) (styling_form ++ res_trace a)
    else mk_result (Return tt) fs styling_form.
Proof.
  unfold styling_mode. rewrite !bind_emit. cbn [res_out res_fs res_trace].
  unfold st_text_area, st_text_input, st_slider, st_button.
  rewrite !bind_widget. cbn [res_out res_fs res_trace].
  fold generate_pressed. destruct generate_pressed; reflexivity.
Qed.

Lemma document_mode_run fs :
  document_mode fs =
    match uploads with
    | [] => mk_result (Return tt) fs document_upload
    | _ :: _ =>
        if generate_pressed
        then
          let a := document_action uploads fs in
          mk_result (res_out a) (res_fs a)
            (document_upload ++ St_button "Generate Data" :: res_trace a)
        else mk_result (Return tt) fs (document_upload ++ [St_button "Generate Data"])
    end.
Proof.
  unfold document_mode. rewrite bind_emit. cbn [res_out res_fs res_trace].
  unfold st_file_uploader. rewrite bind_widget. cbn [res_out res_fs res_trace].
  fold uploads. destruct uploads as [|u us]; [reflexivity|].
  unfold st_button. rewrite bind_widget. cbn [res_out res_fs res_trace].
  fold generate_pressed. destruct generate_pressed; reflexivity.
Qed.

Lemma app_run fs gpt_model :
  GPTModel_init (getenv "OPENAI_API_KEY") = Return gpt_model ->
  let m := chosen_mode gpt_model fs in
  app fs =
    mk_result
      (match res_out m with Return _ => Return tt | Raise e => Raise e end)
      (res_fs m)
      (Call_GPTModel (getenv "OPENAI_API_KEY") :: page_head ++ res_trace m ++
       match res_out m with Return _ => page_foot | Raise _ => [] end).
Proof.
  intros Hgpt m. subst m. unfold app.
  rewrite bind_emit. cbn [res_out res_fs res_trace].
  rewrite Hgpt, bind_lift_Return. cbn [res_out res_fs res_trace].
  rewrite !bind_emit. cbn [res_out res_fs res_trace].
  unfold st_sidebar_radio. rewrite bind_widget. cbn [res_out res_fs res_trace].
  fold chosen_method. fold styling_chosen. fold (chosen_mode gpt_model).
  rewrite bind_out, bind_fs, bind_trace.
  destruct (res_out (chosen_mode gpt_model fs)) as [[]|e]; [reflexivity|].
  now rewrite app_nil_r.
Qed.

Lemma app_run_no_model fs e :
  GPTModel_init (getenv "OPENAI_API_KEY") = Raise e ->
  app fs = mk_result (Raise e) fs [Call_GPTModel (getenv "OPENAI_API_KEY")].
Proof.
  intros Hgpt. unfold app. rewrite bind_emit. cbn [res_out res_fs res_trace].
  rewrite Hgpt, bind_lift_Raise. reflexivity.
Qed.

End WholeRun.

(** ** The file system after the whole run *)

Section WholeRunFiles.
Context `{Session} `{Runtime} `{Collaborator}.


Lemma chosen_mode_document gpt_model fs :
  document_triggered ->
  chosen_mode gpt_model fs =
    mk_result (res_out (document_action uploads fs))
      (res_fs (document_action uploads fs))
      (document_upload ++ St_button "Generate Data" ::
       res_trace (document_action uploads fs)).
Proof.
  intros (Hs & Hu & Hb). unfold chosen_mode. rewrite Hs, document_mode_run, Hb.
  destruct uploads; [contradiction|reflexivity].
Qed.







End WholeRunFiles.

(** ** Counting events *)

Lemma count_app p tr1 tr2 : count p (tr1 ++ tr2) = (count p tr1 + count p tr2)%nat.
Proof. unfold count. now rewrite List.filter_app, length_app. Qed.

Lemma at_most_weaken p (n n' : nat) {A} (m : M A) :
  (n <= n')%nat -> at_most p n m -> at_most p n' m.
Proof. intros Hn Hm fs. specialize (Hm fs). lia. Qed.

Lemma at_most_emits p ks {A} (m : M A) :
  emits (only ks) m ->
  (forall ev, In (kind_of ev) ks -> p ev = false) ->
  at_most p 0 m.
Proof.
  intros Hm Hp fs. specialize (Hm fs).
  induction Hm as [|ev tr Hev _ IH]; [reflexivity|].
  unfold count in *. simpl. now rewrite (Hp ev Hev).
Qed.

Lemma at_most_emit p ev : at_most p 1 (emit ev).
Proof. intros fs. unfold count. simpl. destruct (p ev); simpl; lia. Qed.

Lemma at_most_lift p {A} (o : outcome A) : at_most p 0 (lift o).
Proof. intros fs. reflexivity. Qed.

Lemma at_most_ret p {A} (a : A) : at_most p 0 (ret a).
Proof. intros fs. reflexivity. Qed.

Lemma at_most_bind p (a b : nat) {A B} (m : M A) (k : A -> M B) :
  at_most p a m -> (forall x, at_most p b (k x)) -> at_most p (a + b) (bind m k).
Proof.
  intros Hm Hk fs. rewrite bind_trace. specialize (Hm fs).
  destruct (res_out (m fs)) as [x|e]; [|lia].
  rewrite count_app. specialize (Hk x (res_fs (m fs))). lia.
Qed.

Lemma at_most_try_except_Exception p (a b : nat) body handler :
  at_most p a body -> (forall e, at_most p b (handler e)) ->
  at_most p (a + b) (try_except_Exception body handler).
Proof.
  intros Hb Hh fs. unfold try_except_Exception. specialize (Hb fs).
  destruct (res_out (body fs)) as [x|e]; [lia|].
  destruct (isinstance_Exception e); [|lia].
  cbn [res_trace]. rewrite count_app. specialize (Hh e (res_fs (body fs))). lia.
Qed.

Lemma at_most_finally p (a b : nat) {A} (body : M A) cleanup :
  at_most p a body -> at_most p b cleanup -> at_most p (a + b) (finally body cleanup).
Proof.
  intros Hb Hc fs. unfold finally. cbn [res_trace]. rewrite count_app.
  specialize (Hb fs). specialize (Hc (res_fs (body fs))). lia.
Qed.

Section OneCall.
Context `{Session} `{Runtime} `{Collaborator}.

Lemma generation_kinds ks :
  ~ In K_from_scratch ks -> ~ In K_from_docs ks ->
  forall ev, In (kind_of ev) ks -> is_generation_call ev = false.
Proof. intros Hs Hd ev Hk. destruct ev; simpl in *; trivial; contradiction. Qed.

Lemma one_call_styling_action gpt_model a b c d n :
  at_most is_generation_call 1 (styling_action gpt_model a b c d n).
Proof.
  unfold styling_action.
  apply (at_most_bind _ 0 1).
  { apply (at_most_emits _ [K_page]); [apply emits_emit; unfold only; simpl; tauto|].
    apply generation_kinds; simpl; intuition discriminate. }
  intros _. apply (at_most_try_except_Exception _ 1 0).
  - unfold styling_try.
    apply (at_most_bind _ 0 1).
    { apply (at_most_emits _ [K_init]); [apply emits_emit; unfold only; simpl; tauto|].
      apply generation_kinds; simpl; intuition discriminate. }
    intros _. apply (at_most_bind _ 0 1); [apply at_most_lift|].
    intros s0. apply (at_most_bind _ 1 0); [apply at_most_emit|].
    intros _. apply (at_most_emits _ [K_display; K_download]).
    + unfold for_enumerate, styling_json_data, styling_entry. solve_emits.
    + apply generation_kinds; simpl; intuition discriminate.
  - intros e. apply (at_most_emits _ [K_error]);
      [apply emits_emit; unfold only; simpl; tauto|].
    apply generation_kinds; simpl; intuition discriminate.
Qed.

Lemma one_call_document_with uploaded_files temp_dir :
  at_most is_generation_call 1 (document_with uploaded_files temp_dir).
Proof.
  unfold document_with.
  apply (at_most_bind _ 0 1).
  { apply (at_most_emits _ [K_write; K_info]); [apply emits_save_uploaded_files|].
    apply generation_kinds; simpl; intuition discriminate. }
  intros file_paths. apply (at_most_bind _ 0 1).
  { apply (at_most_emits _ [K_init]); [apply emits_emit; unfold only; simpl; tauto|].
    apply generation_kinds; simpl; intuition discriminate. }
  intros _. apply (at_most_bind _ 0 1); [apply at_most_lift|].
  intros s0. apply (at_most_bind _ 0 1); [intros fs; reflexivity|].
  intros fs0. apply (at_most_bind _ 1 0); [apply at_most_emit|].
  intros _. apply (at_most_bind _ 0 0); [apply at_most_lift|].
  intros syn. apply (at_most_emits _ [K_display; K_warning; K_download]);
    [apply emits_document_results|].
  apply generation_kinds; simpl; intuition discriminate.
Qed.

Lemma one_call_document_action uploaded_files :
  at_most is_generation_call 1 (document_action uploaded_files).
Proof.
  unfold document_action.
  apply (at_most_bind _ 0 1).
  { apply (at_most_emits _ [K_page]); [apply emits_emit; unfold only; simpl; tauto|].
    apply generation_kinds; simpl; intuition discriminate. }
  intros _. apply (at_most_try_except_Exception _ 1 0).
  - unfold with_TemporaryDirectory. apply (at_most_bind _ 0 1).
    { apply (at_most_emits _ [K_mkdtemp]); [apply emits_TemporaryDirectory_enter|].
      apply generation_kinds; simpl; intuition discriminate. }
    intros temp_dir. apply (at_most_finally _ 1 0).
    + apply one_call_document_with.
    + apply (at_most_emits _ [K_rmtree]); [apply emits_TemporaryDirectory_exit|].
      apply generation_kinds; simpl; intuition discriminate.
  - intros e. apply (at_most_emits _ [K_error]).
    + apply emits_bind; [|intros _]; apply emits_emit; unfold only; simpl; tauto.
    + apply generation_kinds; simpl; intuition discriminate.
Qed.

End OneCall.

(** ** Names that cannot be written *)

Lemma append_slash s n :
  (s +:+ String slash EmptyString) +:+ n = s +:+ String slash n.
Proof.
  induction s as [|x s IH]; [reflexivity|].
  change (String x ((s +:+ String slash EmptyString) +:+ n)
          = String x (s +:+ String slash n)).
  now rewrite IH.
Qed.

Lemma no_slash_no_start n : has_slash n = false -> startswith_slash n = false.
Proof.
  destruct n as [|x n]; [reflexivity|]. simpl.
  intros Hx. apply orb_false_iff in Hx. apply Hx.
Qed.

Lemma os_path_join_cases s n :
  os_path_join s n = n \/
  os_path_join s n = s +:+ n \/
  os_path_join s n = s +:+ String slash n.
Proof.
  unfold os_path_join.
  destruct (startswith_slash n || String.eqb s EmptyString); [now left|].
  destruct (endswith_slash s); [right; now left|right; now right].
Qed.

Lemma has_nul_join s n : has_nul n = true -> has_nul (os_path_join s n) = true.
Proof.
  intros Hn. destruct (os_path_join_cases s n) as [->|[->| ->]]; trivial.
  - rewrite has_nul_app, Hn. apply orb_true_r.
  - rewrite has_nul_app. simpl. rewrite Hn. now rewrite !orb_true_r.
Qed.

(** The last component of the joined path is the name, when the name has
    no separator. *)
Lemma last_split_join s n :
  has_slash n = false ->
  List.last (split_on slash (os_path_join s n)) EmptyString = n.
Proof.
  intros Hn. unfold os_path_join. rewrite (no_slash_no_start n Hn). simpl.
  destruct (String.eqb s EmptyString).
  - now rewrite (split_on_plain n Hn).
  - destruct (endswith_slash s) eqn:Hs.
    + destruct (endswith_slash_inv s Hs) as (s' & ->).
      rewrite append_slash, split_on_app, (split_on_plain n Hn).
      apply last_last.
    + change (s +:+ "/" +:+ n) with (s +:+ String slash n).
      rewrite split_on_app, (split_on_plain n Hn). apply last_last.
Qed.

Lemma unwritable_open fs s n :
  unwritable_name n = true -> exists e, open_wb fs (os_path_join s n) = Raise e.
Proof.
  intros Hn. unfold open_wb.
  destruct (has_nul (os_path_join s n)) eqn:Hz; [eauto|].
  unfold unwritable_name in Hn. apply orb_true_iff in Hn.
  destruct Hn as [Hn|Hn]; [rewrite (has_nul_join s n Hn) in Hz; discriminate|].
  apply andb_true_iff in Hn. destruct Hn as [Hslash Hdot].
  apply negb_true_iff in Hslash.
  unfold resolve_entry. rewrite (last_split_join s n Hslash), Hdot. eauto.
Qed.

(** ** What comes after a part that does not emit the event *)

Lemma bind_later {A B} (m : M A) (k : A -> M B) fs ev :
  ~ In ev (res_trace (m fs)) ->
  In ev (res_trace (bind m k fs)) ->
  exists a,
    res_out (m fs) = Return a /\
    In ev (res_trace (k a (res_fs (m fs)))) /\
    res_out (bind m k fs) = res_out (k a (res_fs (m fs))).
Proof.
  intros Hno Hin. apply bind_trace_In in Hin.
  destruct Hin as [Hin|(a & Ha & Hin)]; [contradiction|].
  exists a. repeat split; trivial. now rewrite bind_out, Ha.
Qed.

Ltac later Hin :=
  lazymatch type of Hin with
  | In ?ev (res_trace (bind ?m ?k ?fs)) =>
      let x := fresh "x" in
      let Hx := fresh "Hx" in
      let Ho := fresh "Ho" in
      let Hn := fresh "Hn" in
      let Hl := fresh "Hl" in
      assert (Hn : ~ In ev (res_trace (m fs)));
      [ try (simpl; intuition discriminate)
      | destruct (bind_later m k fs ev Hn Hin) as (x & Hx & Hl & Ho);
        rewrite Ho; clear Ho Hin Hn; rename Hl into Hin;
        cbn [emit lift get_fs res_fs res_out] in Hx, Hin |- * ]
  end.

Section Success.
Context `{Session} `{Runtime} `{Collaborator}.

(** The download is the last thing the [try] of styling mode does. *)
Lemma styling_try_download_returns gpt_model a b c d n fs label data file_name mime :
  In (St_download_button label data file_name mime)
     (res_trace (styling_try gpt_model a b c d n fs)) ->
  res_out (styling_try gpt_model a b c d n fs) = Return tt.
Proof.
  intros Hin. unfold styling_try in *.
  later Hin. later Hin. later Hin. later Hin. later Hin.
  later Hin.
  { eapply emits_only_absent with (ks := [K_display]).
    - unfold for_enumerate. solve_emits.
    - simpl. intuition discriminate. }
  later Hin.
  { eapply emits_only_absent; [apply emits_styling_json_data|simpl; tauto]. }
  later Hin.
  reflexivity.
Qed.

Lemma document_results_download_returns gs fs label data file_name mime :
  In (St_download_button label data file_name mime)
     (res_trace (document_results gs fs)) ->
  res_out (document_results gs fs) = Return tt.
Proof.
  intros Hin. unfold document_results in *.
  later Hin.
  destruct gs as [|g gs]; [simpl in Hin; intuition discriminate|].
  later Hin.
  { eapply emits_only_absent with (ks := [K_display]).
    - unfold for_enumerate. apply emits_for_enumerate_from. intros j x0.
      apply emits_show_document_golden.
    - simpl. intuition discriminate. }
  later Hin.
  { eapply emits_only_absent; [apply emits_document_json_data|simpl; tauto]. }
  later Hin.
  reflexivity.
Qed.

Lemma emits_document_results_nonempty g gs :
  emits (only [K_display; K_download]) (document_results (g :: gs)).
Proof. unfold document_results, for_enumerate. solve_emits. Qed.

Lemma document_with_download_returns uploaded_files temp_dir fs
    label data file_name mime :
  In (St_download_button label data file_name mime)
     (res_trace (document_with uploaded_files temp_dir fs)) ->
  res_out (document_with uploaded_files temp_dir fs) = Return tt /\
  forall body,
    ~ In (St_warning body) (res_trace (document_with uploaded_files temp_dir fs)).
Proof.
  intros Hin.
  assert (Hout : res_out (document_with uploaded_files temp_dir fs) = Return tt).
  { unfold document_with in *.
    later Hin.
    { eapply emits_only_absent; [apply emits_save_uploaded_files|].
      simpl. intuition discriminate. }
    later Hin. later Hin. later Hin. later Hin. later Hin.
    eapply document_results_download_returns. exact Hin. }
  split; [exact Hout|].
  intros body Hw.
  apply document_with_trace_In in Hin.
  destruct Hin as [Hk|(fp & s0 & Hsave & Hinit & Hev)];
    [simpl in Hk; intuition discriminate|].
  cbv zeta in Hev. destruct Hev as [Hev|(syn & Hgen & Hres)]; [discriminate|].
  apply document_results_download in Hres. destruct Hres as [Hne _].
  rewrite (document_with_run _ _ _ _ _ Hsave Hinit) in Hw. cbv zeta in Hw.
  rewrite Hgen in Hw. cbn [res_trace] in Hw.
  rewrite !in_app_iff in Hw. destruct Hw as [[Hw|Hw]|Hw].
  - revert Hw. eapply emits_only_absent; [apply emits_save_uploaded_files|].
    simpl. intuition discriminate.
  - simpl in Hw. intuition discriminate.
  - destruct (synthetic_goldens syn) as [|g gs]; [contradiction|].
    revert Hw. eapply emits_only_absent; [apply emits_document_results_nonempty|].
    simpl. intuition discriminate.
Qed.

End Success.

(** ** Goldens without an attribute the script reads *)

Section MissingAttribute.
Context `{Session} `{Runtime} `{Collaborator}.

Lemma styling_display_raises gs : forall i fs,
  (exists g, In g gs /\ g_input g = None) ->
  res_out
    (for_enumerate_from i gs
       (fun i golden =>
          emit (St_expander ("Example " +:+ decimal (i + 1))) ;;
          input <- getattr "input" (g_input golden) ;;
          emit (St_markdown (fenced (py_str input)))) fs)
  = Raise (attribute_error "input").
Proof.
  induction gs as [|x gs IH]; intros i fs (g & Hin & Hnone); [destruct Hin|].
  cbn [for_enumerate_from]. rewrite bind_out.
  destruct (g_input x) as [v|] eqn:Hx.
  - rewrite !bind_out. cbn [emit res_out res_fs getattr ret].
    apply IH. destruct Hin as [->|Hin]; [congruence|]. now exists g.
  - rewrite !bind_out. reflexivity.
Qed.

Lemma styling_try_raises gpt_model a b c d n fs s0 syn :
  Synthesizer_init (Some (mk_StylingConfig a b c d)) (Some gpt_model) = Return s0 ->
  generate_goldens_from_scratch s0 n = Return syn ->
  (exists g, In g (synthetic_goldens syn) /\ g_input g = None) ->
  res_out (styling_try gpt_model a b c d n fs) = Raise (attribute_error "input").
Proof.
  intros Hinit Hgen Hmiss. unfold styling_try.
  rewrite bind_out. cbn [emit res_out res_fs].
  rewrite bind_out. cbn [lift res_out res_fs]. rewrite Hinit.
  rewrite bind_out. cbn [emit res_out res_fs].
  rewrite bind_out. cbn [lift res_out res_fs]. rewrite Hgen.
  rewrite bind_out. cbn [emit res_out res_fs].
  rewrite bind_out. unfold for_enumerate.
  now rewrite styling_display_raises.
Qed.

Lemma styling_action_download_in_try gpt_model a b c d n fs label data file_name mime :
  In (St_download_button label data file_name mime)
     (res_trace (styling_action gpt_model a b c d n fs)) ->
  In (St_download_button label data file_name mime)
     (res_trace (styling_try gpt_model a b c d n fs)).
Proof.
  intros Hact. unfold styling_action in Hact.
  apply bind_trace_In in Hact. destruct Hact as [Hact|(u & _ & Hact)];
    [simpl in Hact; intuition discriminate|].
  apply try_trace_In in Hact. destruct Hact as [Hact|(e & _ & _ & Hact)];
    [exact Hact|simpl in Hact; intuition discriminate].
Qed.

Lemma show_document_golden_out i g fs :
  res_out (show_document_golden i g fs) =
    match g_input g, g_expected_output g with
    | Some _, Some _ => Return tt
    | None, _ => Raise (attribute_error "input")
    | Some _, None => Raise (attribute_error "expected_output")
    end.
Proof.
  unfold show_document_golden.
  rewrite bind_out. cbn [emit res_out res_fs].
  rewrite bind_out. cbn [emit res_out res_fs].
  rewrite bind_out.
  destruct (g_input g) as [vi|]; [|reflexivity].
  cbn [getattr ret res_out res_fs].
  rewrite bind_out. cbn [emit res_out res_fs].
  rewrite bind_out. cbn [emit res_out res_fs].
  rewrite bind_out.
  destruct (g_expected_output g) as [ve|]; [|reflexivity].
  cbn [getattr ret res_out res_fs].
  rewrite bind_out. cbn [emit res_out res_fs].
  rewrite bind_out.
  destruct (g_context g) as [cx|]; [destruct (truthy cx)|];
    (destruct (g_additional_metadata g) as [mx|]; [destruct (truthy mx)|]);
    reflexivity.
Qed.



Lemma mkdir_raises_Exception fs s e :
  mkdir fs s = Raise e -> isinstance_Exception e = true.
Proof.
  unfold mkdir. destruct (has_nul s); [now intros [= <-]|].
  destruct (resolve_entry fs s); [|now intros [= <-]].
  destruct (_ || _); [now intros [= <-]|discriminate].
Qed.

Lemma document_entry_key_order g e :
  exports document_entry g e -> exported_as ordered_keys g e.
Proof.
  intros He. specialize (He (mk_FS [] ∅ ∅)).
  rewrite document_entry_run in He. simpl in He.
  destruct g as [gi ge gc gm gs]. simpl in He.
  destruct gi as [input|]; [|unfold document_entry, getattr in He; discriminate].
  destruct ge as [expected_output|];
    [|unfold document_entry, getattr in He; discriminate].
  injection He as <-. eexists. split; [reflexivity|].
  unfold ordered_keys, all_keys, exported_key, add_if_present, field, present.
  destruct gc as [c|]; [destruct (truthy c) eqn:Hc|];
    (destruct gm as [m|]; [destruct (truthy m) eqn:Hm|]);
    (destruct gs as [s|]; [destruct (truthy s) eqn:Hs|]);
    cbn; rewrite ?Hc, ?Hm, ?Hs; reflexivity.
Qed.

End MissingAttribute.

(** ** The configuration the library is made with *)

Section Configuration.
Context `{Session} `{Runtime} `{Collaborator}.

Lemma styling_action_synthesizer gpt_model a b c d n fs cfg :
  In (Call_Synthesizer cfg) (res_trace (styling_action gpt_model a b c d n fs)) ->
  cfg = Some (mk_StylingConfig a b c d).
Proof.
  intros Hin. unfold styling_action in Hin.
  through Hin u Hu.
  apply try_trace_In in Hin. destruct Hin as [Hin|(e & _ & _ & Hin)];
    [|simpl in Hin; destruct Hin as [Hin|[]]; discriminate Hin].
  unfold styling_try in Hin.
  apply bind_trace_In in Hin. destruct Hin as [Hin|(u2 & _ & Hin)].
  { simpl in Hin. destruct Hin as [Hin|[]]. now injection Hin. }
  exfalso. revert Hin.
  apply emits_only_absent with (ks := [K_from_scratch; K_display; K_download]).
  - unfold for_enumerate, styling_json_data, styling_entry. solve_emits.
  - simpl. intuition discriminate.
Qed.

Lemma document_action_synthesizer uploaded_files fs cfg :
  In (Call_Synthesizer cfg) (res_trace (document_action uploaded_files fs)) ->
  cfg = None.
Proof.
  intros Hin. apply document_action_trace_In in Hin.
  destruct Hin as [Hk|(t & _ & Hin)]; [simpl in Hk; intuition discriminate|].
  unfold document_with in Hin.
  apply bind_trace_In in Hin. destruct Hin as [Hin|(fp & _ & Hin)].
  { exfalso. revert Hin. eapply emits_only_absent.
    - apply emits_save_uploaded_files.
    - simpl. intuition discriminate. }
  apply bind_trace_In in Hin. destruct Hin as [Hin|(u2 & _ & Hin)].
  { simpl in Hin. destruct Hin as [Hin|[]]. now injection Hin. }
  exfalso. revert Hin.
  apply emits_only_absent
    with (ks := [K_from_docs; K_display; K_warning; K_download]).
  - solve_emits.
  - simpl. intuition discriminate.
Qed.

End Configuration.

(** ** What is displayed *)

Lemma expander_labels_app tr1 tr2 :
  expander_labels (tr1 ++ tr2) = expander_labels tr1 ++ expander_labels tr2.
Proof.
  induction tr1 as [|ev tr1 IH]; [reflexivity|].
  destruct ev; simpl; now rewrite IH.
Qed.

Lemma expander_labels_only ks tr :
  Forall (only ks) tr -> ~ In K_display ks -> expander_labels tr = [].
Proof.
  intros Hall Hno. induction Hall as [|ev tr Hev Hall IH]; [reflexivity|].
  destruct ev; simpl; try exact IH. now contradict Hno.
Qed.

Lemma for_enumerate_from_trace_In {A} (body : nat -> A -> M unit) ev xs :
  forall i fs,
    In ev (res_trace (for_enumerate_from i xs body fs)) ->
    exists j x fs', In x xs /\ In ev (res_trace (body j x fs')).
Proof.
  induction xs as [|x xs IH]; intros i fs Hin; [destruct Hin|].
  cbn [for_enumerate_from] in Hin. apply bind_trace_In in Hin.
  destruct Hin as [Hin|(u & _ & Hin)].
  - exists i, x, fs. split; [now left|exact Hin].
  - apply IH in Hin. destruct Hin as (j & y & fs' & Hy & Hin).
    exists j, y, fs'. split; [now right|exact Hin].
Qed.

Section Display.
Context `{Session} `{Runtime} `{Collaborator}.

Lemma styling_display_labels gs : forall i fs,
  res_out
    (for_enumerate_from i gs
       (fun i golden =>
          emit (St_expander ("Example " +:+ decimal (i + 1))) ;;
          input <- getattr "input" (g_input golden) ;;
          emit (St_markdown (fenced (py_str input)))) fs) = Return tt ->
  expander_labels
    (res_trace
       (for_enumerate_from i gs
          (fun i golden =>
             emit (St_expander ("Example " +:+ decimal (i + 1))) ;;
             input <- getattr "input" (g_input golden) ;;
             emit (St_markdown (fenced (py_str input)))) fs))
  = example_labels_from i (length gs).
Proof.
  induction gs as [|x gs IH]; intros i fs Hout; [reflexivity|].
  cbn [for_enumerate_from] in *.
  apply bind_out_Return in Hout. destruct Hout as ([] & Hbody & Hrest).
  rewrite bind_trace, Hbody, expander_labels_app, (IH _ _ Hrest).
  destruct (g_input x) as [v|]; [reflexivity|discriminate Hbody].
Qed.

Lemma show_document_golden_labels i g fs :
  res_out (show_document_golden i g fs) = Return tt ->
  expander_labels (res_trace (show_document_golden i g fs))
  = ["Example " +:+ decimal (i + 1)].
Proof.
  rewrite show_document_golden_out. unfold show_document_golden.
  destruct (g_input g) as [vi|]; [|discriminate].
  destruct (g_expected_output g) as [ve|]; [|discriminate].
  intros _.
  destruct (g_context g) as [cx|]; [destruct (truthy cx)|];
    (destruct (g_additional_metadata g) as [mx|]; [destruct (truthy mx)|]);
    reflexivity.
Qed.

Lemma document_display_labels gs : forall i fs,
  res_out (for_enumerate_from i gs show_document_golden fs) = Return tt ->
  expander_labels (res_trace (for_enumerate_from i gs show_document_golden fs))
  = example_labels_from i (length gs).
Proof.
  induction gs as [|x gs IH]; intros i fs Hout; [reflexivity|].
  cbn [for_enumerate_from] in *.
  apply bind_out_Return in Hout. destruct Hout as ([] & Hbody & Hrest).
  rewrite bind_trace, Hbody, expander_labels_app, (IH _ _ Hrest).
  now rewrite (show_document_golden_labels _ _ _ Hbody).
Qed.

Lemma styling_try_labels gpt_model a b c d n fs s0 syn :
  Synthesizer_init (Some (mk_StylingConfig a b c d)) (Some gpt_model) = Return s0 ->
  generate_goldens_from_scratch s0 n = Return syn ->
  res_out (styling_try gpt_model a b c d n fs) = Return tt ->
  expander_labels (res_trace (styling_try gpt_model a b c d n fs))
  = example_labels (length (synthetic_goldens syn)).
Proof.
  intros Hinit Hgen Hret. unfold styling_try in *. cbv zeta in *.
  rewrite bind_emit in *. rewrite Hinit, bind_lift_Return in *.
  rewrite bind_emit in *. rewrite Hgen, bind_lift_Return in *.
  rewrite bind_emit in *. cbn [res_out res_trace] in *.
  rewrite bind_out in Hret. unfold for_enumerate in *.
  destruct (res_out (for_enumerate_from 0 (synthetic_goldens syn) _ fs))
    as [[]|e] eqn:Hloop; [|discriminate].
  rewrite bind_trace, Hloop.
  cbn [expander_labels]. rewrite expander_labels_app.
  rewrite (styling_display_labels _ _ _ Hloop).
  rewrite (expander_labels_only [K_download]).
  - apply app_nil_r.
  - match goal with
    | |- Forall _ (res_trace (?m ?fs')) =>
        assert (Hem : emits (only [K_download]) m);
          [unfold styling_json_data, styling_entry; solve_emits|apply Hem]
    end.
  - simpl. intuition discriminate.
Qed.

Lemma document_results_labels gs fs :
  res_out (document_results gs fs) = Return tt ->
  expander_labels (res_trace (document_results gs fs))
  = example_labels (length gs).
Proof.
  intros Hret. unfold document_results in *.
  rewrite bind_emit in *. cbn [res_out res_trace] in *.
  destruct gs as [|g gs]; [reflexivity|].
  rewrite bind_out in Hret. unfold for_enumerate in *.
  destruct (res_out (for_enumerate_from 0 (g :: gs) show_document_golden fs))
    as [[]|e] eqn:Hloop; [|discriminate].
  rewrite bind_trace, Hloop.
  cbn [expander_labels]. rewrite expander_labels_app.
  rewrite (document_display_labels _ _ _ Hloop).
  rewrite (expander_labels_only [K_download]).
  - apply app_nil_r.
  - match goal with
    | |- Forall _ (res_trace (?m ?fs')) =>
        assert (Hem : emits (only [K_download]) m);
          [|apply Hem]
    end.
    apply emits_bind; [|intros jd; solve_emits].
    eapply emits_weaken; [|apply emits_document_json_data].
    unfold only. simpl. tauto.
  - simpl. intuition discriminate.
Qed.

(** The optional parts of a displayed golden *)
Lemma show_document_golden_optional i g fs ev :
  In ev (res_trace (show_document_golden i g fs)) ->
  (ev = St_markdown "**Context:**" -> present (g_context g) = true) /\
  (forall v, ev = St_json v ->
     g_additional_metadata g = Some v /\ truthy v = true).
Proof.
  unfold show_document_golden, present.
  destruct (g_input g) as [vi|];
    [|simpl; intros Hin; split; [intros ->|intros v ->];
      simpl in Hin; intuition discriminate].
  destruct (g_expected_output g) as [ve|];
    [|simpl; intros Hin; split; [intros ->|intros v ->];
      unfold fenced in Hin; simpl in Hin; intuition discriminate].
  destruct (g_context g) as [cx|]; [destruct (truthy cx) eqn:Hcx|];
    (destruct (g_additional_metadata g) as [mx|]; [destruct (truthy mx) eqn:Hmx|]);
    simpl; intros Hin; (split; [intros ->|intros v ->]);
    unfold fenced in Hin; simpl in Hin;
    repeat (destruct Hin as [Hin|Hin];
            [try discriminate Hin; try (injection Hin as <-); auto|]);
    try contradiction; auto.
Qed.

Lemma document_results_optional gs fs ev :
  In ev (res_trace (document_results gs fs)) ->
  (ev = St_markdown "**Context:**" ->
     exists g, In g gs /\ present (g_context g) = true) /\
  (forall v, ev = St_json v ->
     exists g, In g gs /\ g_additional_metadata g = Some v /\ truthy v = true).
Proof.
  intros Hin. unfold document_results in Hin.
  apply bind_trace_In in Hin. destruct Hin as [Hin|(u & _ & Hin)].
  { simpl in Hin. split; [intros ->|intros v ->]; intuition discriminate. }
  destruct gs as [|g0 gs].
  { simpl in Hin. split; [intros ->|intros v ->]; intuition discriminate. }
  apply bind_trace_In in Hin. destruct Hin as [Hin|(u' & _ & Hin)].
  - unfold for_enumerate in Hin. apply for_enumerate_from_trace_In in Hin.
    destruct Hin as (j & g & fs' & Hg & Hin).
    destruct (show_document_golden_optional _ _ _ _ Hin) as [Hc Hm].
    split.
    + intros Hev. exists g. split; [exact Hg|now apply Hc].
    + intros v Hev. exists g. split; [exact Hg|now apply Hm].
  - assert (Hno : ~ In (kind_of ev) [K_download] -> ~ In ev
              (res_trace
                 ((json_data <- document_json_data (g0 :: gs) ;;
                   json_str <- lift (json_dumps (PList json_data)) ;;
                   emit (St_download_button "Download as JSON" json_str
                           "synthetic_data_from_docs.json" "application/json"))
                    (res_fs (for_enumerate (g0 :: gs) show_document_golden fs))))).
    { apply emits_only_absent.
      apply emits_bind; [|intros jd; solve_emits].
      eapply emits_weaken; [|apply emits_document_json_data].
      unfold only. simpl. tauto. }
    split; [intros ->|intros v ->];
      (exfalso; revert Hin; apply Hno; simpl; intuition discriminate).
Qed.

End Display.

(** ** Where an event of a run comes from *)

Section Parts.
Context `{Session} `{Runtime} `{Collaborator}.

Lemma app_trace_parts fs ev :
  In ev (res_trace (app fs)) ->
  In ev (Call_GPTModel (getenv "OPENAI_API_KEY") ::
         page_head ++ styling_form ++ document_upload ++
         St_button "Generate Data" :: page_foot) \/
  exists gpt_model,
    GPTModel_init (getenv "OPENAI_API_KEY") = Return gpt_model /\
    generate_pressed = true /\
    ((styling_chosen = true /\
      In ev (res_trace
               (styling_action gpt_model entered_input_format
                  entered_expected_output_format entered_task entered_scenario
                  selected_num_goldens fs))) \/
     (styling_chosen = false /\ uploads <> [] /\
      In ev (res_trace (document_action uploads fs)))).
Proof.
  intros Hin.
  destruct (GPTModel_init (getenv "OPENAI_API_KEY")) as [gpt|e] eqn:Hgpt.
  2:{ rewrite (app_run_no_model fs e Hgpt) in Hin. left.
      destruct Hin as [<-|[]]. now left. }
  rewrite (app_run fs gpt Hgpt) in Hin. cbv zeta in Hin. cbn [res_trace] in Hin.
  destruct Hin as [Hin|Hin]; [left; now left|].
  apply in_app_iff in Hin. destruct Hin as [Hin|Hin].
  { left. right. apply in_app_iff. now left. }
  apply in_app_iff in Hin. destruct Hin as [Hin|Hin].
  2:{ left. right. rewrite !in_app_iff. right. right. right. right.
      destruct (res_out (chosen_mode gpt fs)); [exact Hin|destruct Hin]. }
  unfold chosen_mode in Hin. destruct styling_chosen.
  - rewrite styling_mode_run in Hin. destruct generate_pressed.
    2:{ left. right. rewrite !in_app_iff. right. left. exact Hin. }
    cbv zeta in Hin. cbn [res_trace] in Hin.
    apply in_app_iff in Hin. destruct Hin as [Hin|Hin].
    { left. right. rewrite !in_app_iff. right. left. exact Hin. }
    right. exists gpt. split; [reflexivity|]. split; [reflexivity|]. left. now split.
  - rewrite document_mode_run in Hin. destruct uploads as [|u us] eqn:Hu.
    { left. right. rewrite !in_app_iff. right. right. left. exact Hin. }
    destruct generate_pressed.
    2:{ left. right. rewrite !in_app_iff. right. right.
        cbn [res_trace] in Hin. apply in_app_iff in Hin.
        destruct Hin as [Hin|[Hin|[]]]; [now left|right; now left]. }
    cbv zeta in Hin. cbn [res_trace] in Hin.
    apply in_app_iff in Hin. destruct Hin as [Hin|Hin].
    { left. right. rewrite !in_app_iff. right. right. left. exact Hin. }
    destruct Hin as [Hin|Hin].
    { left. right. rewrite !in_app_iff. right. right. right. now left. }
    right. exists gpt. split; [reflexivity|]. split; [reflexivity|]. right.
    repeat split; [discriminate|exact Hin].
Qed.

Lemma save_info temp_dir ups body : forall acc fs,
  In (St_info body) (res_trace (for_fold ups acc (save_uploaded_file temp_dir) fs)) ->
  exists u t,
    In u ups /\ body = "Processing: " +:+ name u /\
    In (Sys_write t (getvalue u))
       (res_trace (for_fold ups acc (save_uploaded_file temp_dir) fs)).
Proof.
  induction ups as [|u ups IH]; intros acc fs Hin; [destruct Hin|].
  rewrite for_fold_cons, bind_trace, save_uploaded_file_run in *. cbv zeta in *.
  destruct (io_fault fs _); [destruct Hin|].
  destruct (open_wb fs (os_path_join temp_dir (name u))) as [t'|e]; [|destruct Hin].
  cbn [res_out res_fs res_trace] in *.
  destruct Hin as [Hin|[Hin|Hin]]; [discriminate Hin| |].
  - injection Hin as <-. exists u, t'. split; [now left|]. split; [reflexivity|].
    now left.
  - apply IH in Hin. destruct Hin as (w & t & Hw & Hb & Hwr).
    exists w, t. split; [now right|]. split; [exact Hb|]. right. right. exact Hwr.
Qed.

Lemma styling_action_no_context gpt_model a b c d n fs :
  ~ In (St_markdown "**Context:**")
       (res_trace (styling_action gpt_model a b c d n fs)).
Proof.
  intros Hin. unfold styling_action in Hin.
  through Hin u Hu.
  apply try_trace_In in Hin. destruct Hin as [Hin|(e & _ & _ & Hin)];
    [|simpl in Hin; destruct Hin as [Hin|[]]; discriminate Hin].
  unfold styling_try in Hin.
  through Hin u1 Hu1. through Hin s0 Hs0. through Hin u2 Hu2.
  through Hin syn Hsyn. through Hin u3 Hu3.
  apply bind_trace_In in Hin. destruct Hin as [Hin|(u4 & _ & Hin)].
  - unfold for_enumerate in Hin. apply for_enumerate_from_trace_In in Hin.
    destruct Hin as (j & g & fs' & _ & Hin).
    destruct (g_input g); unfold fenced in Hin; simpl in Hin;
      intuition discriminate.
  - revert Hin. apply emits_only_absent with (ks := [K_download]).
    + unfold styling_json_data, styling_entry. solve_emits.
    + simpl. intuition discriminate.
Qed.

Lemma styling_action_no_json gpt_model a b c d n fs v :
  ~ In (St_json v) (res_trace (styling_action gpt_model a b c d n fs)).
Proof.
  intros Hin. unfold styling_action in Hin.
  through Hin u Hu.
  apply try_trace_In in Hin. destruct Hin as [Hin|(e & _ & _ & Hin)];
    [|simpl in Hin; destruct Hin as [Hin|[]]; discriminate Hin].
  unfold styling_try in Hin.
  through Hin u1 Hu1. through Hin s0 Hs0. through Hin u2 Hu2.
  through Hin syn Hsyn. through Hin u3 Hu3.
  apply bind_trace_In in Hin. destruct Hin as [Hin|(u4 & _ & Hin)].
  - unfold for_enumerate in Hin. apply for_enumerate_from_trace_In in Hin.
    destruct Hin as (j & g & fs' & _ & Hin).
    destruct (g_input g); simpl in Hin; intuition discriminate.
  - revert Hin. apply emits_only_absent with (ks := [K_download]).
    + unfold styling_json_data, styling_entry. solve_emits.
    + simpl. intuition discriminate.
Qed.

(** An event of the display of the results, in a run of the script *)
Lemma app_optional_from_results fs ev :
  ev = St_markdown "**Context:**" \/ (exists v, ev = St_json v) ->
  In ev (res_trace (app fs)) ->
  exists gs fs1,
    document_goldens fs gs /\ In ev (res_trace (document_results gs fs1)).
Proof.
  intros Hev Hin. apply app_trace_parts in Hin.
  destruct Hin as [Hin|(gpt & Hgpt & Hb & [(Hs & Hact)|(Hs & Hu & Hact)])].
  - exfalso. unfold page_head, styling_form, document_upload, page_foot, intro, about in Hin.
    destruct Hev as [->|(v & ->)]; simpl in Hin; intuition discriminate.
  - exfalso. destruct Hev as [->|(v & ->)].
    + exact (styling_action_no_context _ _ _ _ _ _ _ Hact).
    + exact (styling_action_no_json _ _ _ _ _ _ _ _ Hact).
  - pose proof Hact as Hact0.
    apply document_action_trace_In in Hact.
    destruct Hact as [Hk|(t & Hmk & Hin)].
    { exfalso. destruct Hev as [->|(v & ->)]; simpl in Hk; intuition discriminate. }
    apply document_with_trace_In in Hin.
    destruct Hin as [Hk|(fp & s0 & Hsave & Hinit & Hin)].
    { exfalso. destruct Hev as [->|(v & ->)]; simpl in Hk; intuition discriminate. }
    cbv zeta in Hin. destruct Hin as [->|(syn & Hgen & Hres)].
    { exfalso. destruct Hev as [Hev|(v & Hev)]; discriminate Hev. }
    exists (synthetic_goldens syn),
           (res_fs (save_uploaded_files mkdtemp_name uploads (add_dir t fs))).
    split; [|exact Hres].
    exists s0, fp,
           (res_fs (save_uploaded_files mkdtemp_name uploads (add_dir t fs))), syn.
    repeat split; trivial.
    apply (app_trace_document fs gpt); trivial.
    now apply document_action_call_In with (s0 := s0).
Qed.

End Parts.

(** * The claims of the specification *)

Section Claims.
Context `{Session} `{Runtime} `{Collaborator}.

(** C2: in styling mode every element of the exported JSON array is an
    object with exactly the one key [input], holding the [input] of the
    golden at the same position; no other field of a golden is exported. *)
Theorem styling_export_single_key fs label data file_name mime :
  styling_chosen = true ->
  In (St_download_button label data file_name mime) (res_trace (app fs)) ->
  exists gs json_data,
    styling_goldens gs /\
    json_dumps (PList json_data) = Return data /\
    in_order (exported_as styling_keys) gs json_data.
Proof.
  intros Hs Hin.
  destruct (app_download _ _ _ _ _ Hin) as (gs & jd & Hd & [Hsty|Hdoc]).
  - destruct Hsty as (_ & _ & Hgs & Hord).
    exists gs, jd. repeat split; trivial; try apply Hord.
    eapply in_order_impl; [|exact Hord].
    intros g e. apply styling_entry_keys.
  - destruct Hdoc as (Hs' & _). congruence.
Qed.

(** C1, as the script has it: in document mode every element of the
    exported JSON array is an object that has the keys [input] and
    [expected_output] whatever their values are, has each of the keys
    [context], [additional_metadata] and [source_file] exactly when that
    attribute of the golden exists and is not empty, and has no other
    key; each key holds the value of its attribute. *)
Theorem document_export_keys fs label data file_name mime :
  styling_chosen = false ->
  In (St_download_button label data file_name mime) (res_trace (app fs)) ->
  exists gs json_data,
    document_goldens fs gs /\
    json_dumps (PList json_data) = Return data /\
    in_order (exported_as document_keys) gs json_data.
Proof.
  intros Hs Hin.
  destruct (app_download _ _ _ _ _ Hin) as (gs & jd & Hd & [Hsty|Hdoc]).
  - destruct Hsty as (Hs' & _). congruence.
  - destruct Hdoc as (_ & _ & _ & Hgs & Hord).
    exists gs, jd. repeat split; trivial; try apply Hord.
    eapply in_order_impl; [|exact Hord].
    intros g e. apply document_entry_keys.
Qed.

(** C6: in both modes the exported JSON array has one element for each
    golden the library produced, and the element at a position is the one
    made from the golden at that position: nothing is dropped, doubled or
    moved. *)
Theorem export_in_generation_order fs label data file_name mime :
  In (St_download_button label data file_name mime) (res_trace (app fs)) ->
  exists gs json_data,
    json_dumps (PList json_data) = Return data /\
    length json_data = length gs /\
    ((styling_chosen = true /\ styling_goldens gs /\
      in_order (exports styling_entry) gs json_data) \/
     (styling_chosen = false /\ document_goldens fs gs /\
      in_order (exports document_entry) gs json_data)).
Proof.
  intros Hin.
  destruct (app_download _ _ _ _ _ Hin) as (gs & jd & Hd & Hmode).
  exists gs, jd. split; [exact Hd|].
  destruct Hmode as [(Hs & _ & Hgs & Hord)|(Hs & _ & _ & Hgs & Hord)].
  - split; [apply Hord|]. left. auto.
  - split; [apply Hord|]. right. auto.
Qed.

(** C7: the number of goldens the script asks the library for in styling
    mode lies between 1 and 50, as the slider that yields it keeps its
    value between its bounds. *)
Theorem num_goldens_within_bounds fs n :
  slider_bounded ->
  In (Call_generate_goldens_from_scratch n) (res_trace (app fs)) ->
  1 <= n <= 50.
Proof.
  intros Hslider Hin.
  destruct (app_trace_In _ _ Hin) as [Hk|(gpt & Hgpt & Hb & Hmode)];
    [simpl in Hk; intuition discriminate|].
  destruct Hmode as [(Hs & Hact)|(Hs & Hu & Hact)].
  - apply styling_action_scratch_call in Hact. subst n.
    unfold selected_num_goldens. apply Hslider. lia.
  - exfalso. revert Hact. eapply emits_only_absent.
    + apply emits_document_action.
    + simpl. intuition discriminate.
Qed.

(** C9: the library's generation from documents is only ever called when
    files are uploaded, and then with one path for each uploaded file. *)
Theorem documents_call_needs_uploads fs file_paths fs1 :
  In (Call_generate_goldens_from_docs file_paths fs1) (res_trace (app fs)) ->
  uploads <> [] /\ file_paths <> [] /\ length file_paths = length uploads.
Proof.
  intros Hin.
  destruct (app_trace_In _ _ Hin) as [Hk|(gpt & Hgpt & Hb & Hmode)];
    [simpl in Hk; intuition discriminate|].
  destruct Hmode as [(Hs & Hact)|(Hs & Hu & Hact)].
  - exfalso. revert Hact. eapply emits_only_absent.
    + apply emits_styling_action.
    + simpl. intuition discriminate.
  - apply document_action_call in Hact.
    destruct Hact as (t & s0 & Hmk & Hsave & Hfs1 & Hinit).
    apply save_uploaded_files_paths in Hsave.
    assert (Hlen : length file_paths = length uploads).
    { subst file_paths. apply length_map. }
    repeat split; trivial.
    intros ->. destruct uploads; [contradiction|discriminate].
Qed.

(** C3: when the library produces no golden in document mode, the script
    shows the warning about it, offers no download, shows no error, and
    runs to its end. *)
Theorem empty_result_is_a_warning fs :
  document_goldens fs [] ->
  In (St_warning empty_warning) (res_trace (app fs)) /\
  (forall label data file_name mime,
      ~ In (St_download_button label data file_name mime) (res_trace (app fs))) /\
  (forall body, ~ In (St_error body) (res_trace (app fs))) /\
  res_out (app fs) = Return tt.
Proof.
  intros (s0 & fp & fs1 & syn & Hcall & Hinit & Hgen & Hgs).
  destruct (app_trace_In _ _ Hcall) as [Hk|(gpt & Hgpt & Hb & Hmode)];
    [simpl in Hk; intuition discriminate|].
  destruct Hmode as [(Hs & Hact)|(Hs & Hu & Hact)].
  { exfalso. revert Hact. eapply emits_only_absent.
    - apply emits_styling_action.
    - simpl. intuition discriminate. }
  destruct (document_action_call _ _ _ _ Hact) as (t & s0' & Hmk & Hsave & Hfs1 & Hinit').
  assert (s0' = s0) by congruence. subst s0'.
  assert (Hwith : document_with uploads mkdtemp_name (add_dir t fs) =
            mk_result (Return tt) fs1
              ((res_trace (save_uploaded_files mkdtemp_name uploads (add_dir t fs)) ++
                [Call_Synthesizer None; Call_generate_goldens_from_docs fp fs1]) ++
               [St_subheader "Generated Examples:"; St_warning empty_warning])).
  { rewrite (document_with_run _ _ _ _ _ Hsave Hinit). cbv zeta.
    rewrite Hfs1, Hgen, <- Hgs. reflexivity. }
  split; [|split; [|split]]; cycle 3.
  { rewrite (app_out_document fs gpt) by assumption.
    rewrite (document_action_run _ _ _ Hmk). cbv zeta. now rewrite Hwith. }
  - apply (app_trace_document fs gpt); trivial.
    apply (document_with_in_action _ _ _ _ Hmk). rewrite Hwith. cbn [res_trace].
    apply in_app_iff. right. simpl. tauto.
  - intros label data file_name mime Hd.
    destruct (app_download _ _ _ _ _ Hd) as (gs & jd & _ & [Hsty|Hdoc]).
    + destruct Hsty as (Hs' & _). congruence.
    + destruct Hdoc as (_ & _ & Hne & Hgoldens & _).
      destruct Hgoldens as (s1 & fp' & fs1' & syn' & Hcall' & Hinit1 & Hgen' & Hgs').
      destruct (app_trace_In _ _ Hcall') as [Hk|(gpt' & _ & _ & Hmode')];
        [simpl in Hk; intuition discriminate|].
      destruct Hmode' as [(Hs' & _)|(_ & _ & Hact')]; [congruence|].
      destruct (document_action_call _ _ _ _ Hact')
        as (t' & s1' & Hmk' & Hsave' & Hfs1' & _).
      assert (t' = t) by congruence. subst t'.
      assert (fp' = fp) by congruence. subst fp'.
      assert (s1 = s0) by congruence. subst s1.
      rewrite Hfs1 in Hfs1'. subst fs1'.
      assert (syn' = syn) by congruence. subst syn'.
      congruence.
  - intros body He.
    destruct (app_trace_In _ _ He) as [Hk|(gpt' & _ & _ & Hmode')];
      [simpl in Hk; intuition discriminate|].
    destruct Hmode' as [(Hs' & _)|(_ & _ & Hact')]; [congruence|].
    rewrite (document_action_run _ _ _ Hmk) in Hact'. cbv zeta in Hact'.
    rewrite Hwith in Hact'. cbn [res_out res_fs res_trace] in Hact'.
    destruct Hact' as [Hx|[Hx|Hx]]; [discriminate|discriminate|].
    rewrite !in_app_iff in Hx. destruct Hx as [[[Hx|Hx]|Hx]|Hx].
    + revert Hx. eapply emits_only_absent.
      * apply emits_save_uploaded_files.
      * simpl. intuition discriminate.
    + simpl in Hx. intuition discriminate.
    + simpl in Hx. intuition discriminate.
    + revert Hx. eapply emits_only_absent.
      * apply emits_TemporaryDirectory_exit.
      * simpl. intuition discriminate.
Qed.

(** C10: the path of an upload is the join of the temporary directory's
    name and the upload's own name, so two uploads of one name get one
    path, which the library is given twice; both are written to the one
    file, and at the call that file holds the bytes of the upload written
    to it last. *)
Theorem same_name_same_file fs file_paths fs1 :
  In (Call_generate_goldens_from_docs file_paths fs1) (res_trace (app fs)) ->
  file_paths = map upload_path uploads /\
  (forall i j u v,
      nth_error uploads i = Some u -> nth_error uploads j = Some v ->
      name u = name v ->
      nth_error file_paths i = Some (upload_path u) /\
      nth_error file_paths j = Some (upload_path u)) /\
  (forall u, In u uploads ->
      exists t, upload_target fs1 u = Some t /\
                In (Sys_write t (getvalue u)) (res_trace (app fs))) /\
  (forall ups1 u ups2 v ups3 t,
      uploads = ups1 ++ u :: ups2 ++ v :: ups3 ->
      name u = name v ->
      upload_target fs1 v = Some t ->
      (forall w, In w ups3 -> upload_target fs1 w <> Some t) ->
      upload_target fs1 u = Some t /\ files fs1 !! t = Some (getvalue v)).
Proof.
  intros Hin.
  destruct (app_documents_call _ _ _ Hin)
    as (gpt & t0 & s0 & Hgpt & Hs & Hu & Hb & Hmk & Hsave & Hfs1 & Hinit).
  pose proof (save_uploaded_files_paths _ _ _ _ Hsave) as Hpaths.
  fold upload_path in Hpaths.
  assert (Hopen : forall s, open_wb fs1 s = open_wb (add_dir t0 fs) s).
  { intros s. subst fs1.
    destruct (save_keeps_dirs mkdtemp_name uploads [] (add_dir t0 fs)) as [Hc Hd].
    now apply open_wb_same_dirs. }
  assert (Htarget : forall u t,
            upload_target fs1 u = Some t <->
            open_wb (add_dir t0 fs) (upload_path u) = Return t).
  { intros u t. unfold upload_target. rewrite Hopen.
    destruct (open_wb (add_dir t0 fs) (upload_path u)); split; congruence. }
  split; [exact Hpaths|]. split; [|split].
  - intros i j u v Hi Hj Hname. subst file_paths. split.
    + now apply map_nth_error.
    + unfold upload_path at 2. rewrite Hname. fold (upload_path v).
      now apply map_nth_error.
  - intros u Hin_u.
    destruct (save_writes mkdtemp_name uploads [] _ _ Hsave u Hin_u) as (t & Ho & Hw).
    exists t. split; [now apply Htarget|].
    now apply (save_in_app fs gpt t0).
  - intros ups1 u ups2 v ups3 t Hups Hname Hv Hlast. split.
    + unfold upload_target, upload_path in *. now rewrite Hname.
    + subst fs1. unfold save_uploaded_files in *.
      replace (ups1 ++ u :: ups2 ++ v :: ups3)
        with ((ups1 ++ u :: ups2) ++ v :: ups3) in Hups
        by now rewrite <- app_assoc.
      rewrite Hups in Hsave |- *.
      eapply save_last_writer.
      * exact Hsave.
      * now apply Htarget.
      * intros w Hw Ho. apply (Hlast w Hw). now apply Htarget.
Qed.

(** C4, as the script has it: whatever is raised inside a generation
    action by an exception that is an instance of [Exception] is caught at
    the boundary of the action and shown as an error message, and the
    action returns; an exception that is not an instance of [Exception]
    is not caught, and the action ends by raising it. *)
Theorem caught_at_the_action_boundary (x : action_run) fs :
  match res_out (action_body x fs) with
  | Return _ =>
      res_out (action x fs) = Return tt /\
      res_trace (action x fs) = action_spinner x :: res_trace (action_body x fs)
  | Raise e =>
      if isinstance_Exception e
      then res_out (action x fs) = Return tt /\
           res_trace (action x fs) =
             action_spinner x :: res_trace (action_body x fs) ++ action_handler x e
      else res_out (action x fs) = Raise e
  end.
Proof.
  destruct x as [gpt a b c d n|ups]; simpl action; simpl action_body;
    simpl action_spinner; simpl action_handler.
  - unfold styling_action. rewrite guarded_run.
    destruct (res_out (styling_try gpt a b c d n fs)) as [[]|e]; [now split|].
    destruct (isinstance_Exception e); [now split|reflexivity].
  - unfold document_action. rewrite guarded_run.
    destruct (res_out (with_TemporaryDirectory (document_with ups) fs)) as [[]|e];
      [now split|].
    destruct (isinstance_Exception e); [now split|reflexivity].
Qed.

End Claims.

(** * Further properties of the script *)

Section Further.
Context `{Session} `{Runtime} `{Collaborator}.


(** X2: in document mode with no file uploaded the button is not even
    rendered; whatever the state of the button, the page is the header and
    the uploader between the head and the foot of the page, and nothing
    else happens. *)
Theorem no_upload_no_button fs gpt_model :
  GPTModel_init (getenv "OPENAI_API_KEY") = Return gpt_model ->
  styling_chosen = false -> uploads = [] ->
  app fs =
    mk_result (Return tt) fs
      (Call_GPTModel (getenv "OPENAI_API_KEY") ::
       page_head ++ document_upload ++ page_foot).
Proof.
  intros Hgpt Hs Hu.
  rewrite (app_run fs gpt_model Hgpt). cbv zeta.
  unfold chosen_mode. rewrite Hs, document_mode_run, Hu. reflexivity.
Qed.

(** X3: the only exception of class [Exception] that can end the script is
    one raised when the model client is made at the start, outside any
    [try]; then nothing of the page is rendered.  Any other exception that
    ends the script is not an instance of [Exception], and comes from an
    action that the button triggered. *)
Theorem only_the_model_client_fails_the_script fs e :
  res_out (app fs) = Raise e ->
  (GPTModel_init (getenv "OPENAI_API_KEY") = Raise e /\
   res_trace (app fs) = [Call_GPTModel (getenv "OPENAI_API_KEY")] /\
   res_fs (app fs) = fs) \/
  (isinstance_Exception e = false /\ generate_pressed = true).
Proof.
  intros Hout.
  destruct (GPTModel_init (getenv "OPENAI_API_KEY")) as [gpt|e'] eqn:Hgpt.
  - right. rewrite (app_run fs gpt Hgpt) in Hout. cbv zeta in Hout.
    cbn [res_out] in Hout.
    destruct (res_out (chosen_mode gpt fs)) as [[]|e'] eqn:Hmode; [discriminate|].
    injection Hout as ->.
    unfold chosen_mode in Hmode. destruct styling_chosen.
    + rewrite styling_mode_run in Hmode.
      destruct generate_pressed; [|discriminate]. split; [|reflexivity].
      cbv zeta in Hmode. cbn [res_out] in Hmode.
      rewrite styling_action_run in Hmode. cbv zeta in Hmode.
      destruct (res_out (styling_try _ _ _ _ _ _ fs)) as [[]|e'']; [discriminate|].
      destruct (isinstance_Exception e'') eqn:Hi; [discriminate|].
      cbn [res_out] in Hmode. congruence.
    + rewrite document_mode_run in Hmode.
      destruct uploads as [|u us]; [discriminate|].
      destruct generate_pressed; [|discriminate]. split; [|reflexivity].
      cbv zeta in Hmode. cbn [res_out] in Hmode.
      destruct (mkdir fs mkdtemp_name) as [t|e''] eqn:Hmk.
      * rewrite (document_action_run _ _ _ Hmk) in Hmode. cbv zeta in Hmode.
        destruct (res_out (document_with _ _ _)) as [[]|e3]; [discriminate|].
        destruct (isinstance_Exception e3) eqn:Hi; [discriminate|].
        cbn [res_out] in Hmode. congruence.
      * rewrite (document_action_run_no_dir _ _ _ Hmk) in Hmode.
        destruct (isinstance_Exception e'') eqn:Hi; [discriminate|].
        cbn [res_out] in Hmode. congruence.
  - left. rewrite (app_run_no_model fs e' Hgpt) in Hout |- *.
    cbn [res_out res_fs res_trace] in *. injection Hout as ->. auto.
Qed.




(** X7: a run calls a generation method of the library at most once:
    the script does not retry, whatever the library answers. *)
Theorem at_most_one_generation_call fs :
  (count is_generation_call (res_trace (app fs)) <= 1)%nat.
Proof.
  assert (Hhead : count is_generation_call page_head = 0%nat) by reflexivity.
  assert (Hfoot : count is_generation_call page_foot = 0%nat) by reflexivity.
  destruct (GPTModel_init (getenv "OPENAI_API_KEY")) as [gpt|e] eqn:Hgpt.
  - rewrite (app_run fs gpt Hgpt). cbv zeta. cbn [res_trace].
    change (Call_GPTModel (getenv "OPENAI_API_KEY") ::
            page_head ++ res_trace (chosen_mode gpt fs) ++
            match res_out (chosen_mode gpt fs) with
            | Return _ => page_foot
            | Raise _ => []
            end)
      with ([Call_GPTModel (getenv "OPENAI_API_KEY")] ++
            page_head ++ res_trace (chosen_mode gpt fs) ++
            match res_out (chosen_mode gpt fs) with
            | Return _ => page_foot
            | Raise _ => []
            end).
    rewrite !count_app, Hhead.
    assert (Htail : count is_generation_call
                      match res_out (chosen_mode gpt fs) with
                      | Return _ => page_foot
                      | Raise _ => []
                      end = 0%nat).
    { destruct (res_out (chosen_mode gpt fs)); [exact Hfoot|reflexivity]. }
    rewrite Htail.
    assert (Hmode : (count is_generation_call (res_trace (chosen_mode gpt fs)) <= 1)%nat).
    { unfold chosen_mode. destruct styling_chosen.
      - rewrite styling_mode_run. destruct generate_pressed; [|cbn; lia].
        cbv zeta. cbn [res_trace]. rewrite count_app.
        pose proof (one_call_styling_action gpt entered_input_format
                      entered_expected_output_format entered_task entered_scenario
                      selected_num_goldens fs) as Hact.
        assert (count is_generation_call styling_form = 0%nat) as -> by reflexivity.
        exact Hact.
      - rewrite document_mode_run. destruct uploads as [|u us] eqn:Hu; [cbn; lia|].
        destruct generate_pressed; [|cbn; lia].
        cbv zeta. cbn [res_trace].
        change (document_upload ++
                St_button "Generate Data" :: res_trace (document_action (u :: us) fs))
          with (document_upload ++ [St_button "Generate Data"] ++
                res_trace (document_action (u :: us) fs)).
        rewrite !count_app.
        pose proof (one_call_document_action (u :: us) fs) as Hact.
        assert (count is_generation_call document_upload = 0%nat) as -> by reflexivity.
        assert (count is_generation_call [St_button "Generate Data"] = 0%nat) as ->
          by reflexivity.
        exact Hact. }
    assert (count is_generation_call [Call_GPTModel (getenv "OPENAI_API_KEY")] = 0%nat)
      as -> by reflexivity.
    lia.
  - rewrite (app_run_no_model fs e Hgpt). cbn. lia.
Qed.

(** X8: whenever the library is called from documents, every uploaded file
    has been written before, with the very bytes it came with, to the file
    its path leads to; and nothing is written after the call. *)
Theorem uploads_written_before_the_call fs file_paths fs1 :
  In (Call_generate_goldens_from_docs file_paths fs1) (res_trace (app fs)) ->
  exists before after,
    res_trace (app fs)
      = before ++ Call_generate_goldens_from_docs file_paths fs1 :: after /\
    (forall u, In u uploads ->
       exists tgt, upload_target fs1 u = Some tgt /\
                   In (Sys_write tgt (getvalue u)) before) /\
    (forall tgt data, ~ In (Sys_write tgt data) after).
Proof.
  intros Hin.
  destruct (app_documents_call _ _ _ Hin)
    as (gpt & t & s0 & Hgpt & Hs & Hu & Hb & Hmk & Hsave & Hfs1 & Hinit).
  assert (Hact : In (Call_generate_goldens_from_docs file_paths fs1)
                    (res_trace (document_action uploads fs))).
  { rewrite <- Hfs1. now apply document_action_call_In with (s0 := s0). }
  destruct (uploads_are_saved_before_the_call _ _ _ _ Hact)
    as (before & after & Htrace & _ & Hbefore & Hafter).
  assert (Htr : document_triggered) by (repeat split; trivial).
  rewrite (app_run fs gpt Hgpt). cbv zeta.
  rewrite (chosen_mode_document gpt fs Htr). cbn [res_out res_trace].
  rewrite Htrace.
  exists (Call_GPTModel (getenv "OPENAI_API_KEY") ::
          page_head ++ document_upload ++ St_button "Generate Data" :: before),
         (after ++ match res_out (document_action uploads fs) with
                   | Return _ => page_foot
                   | Raise _ => []
                   end).
  split; [|split].
  - generalize (match res_out (document_action uploads fs) with
                | Return _ => page_foot
                | Raise _ => []
                end).
    generalize page_head, document_upload.
    intros hd up tl. rewrite <- !app_comm_cons, <- !app_assoc.
    rewrite <- !app_comm_cons, <- !app_assoc. reflexivity.
  - intros u Hu'. destruct (Hbefore u Hu') as (tgt & Htgt & Hw).
    exists tgt. split; [exact Htgt|].
    right. apply in_app_iff. right. apply in_app_iff. right. right. exact Hw.
  - intros tgt data Ha. apply in_app_iff in Ha. destruct Ha as [Ha|Ha].
    + exact (Hafter _ _ Ha).
    + destruct (res_out (document_action uploads fs)); simpl in Ha;
        intuition discriminate.
Qed.

(** X9: an uploaded file whose name is empty, [.], [..] or holds a NUL
    cannot be saved; the library is then never called, and in document
    mode no download is offered. *)
Theorem unwritable_upload_stops_the_action fs u :
  In u uploads -> unwritable_name (name u) = true ->
  (forall file_paths fs1,
      ~ In (Call_generate_goldens_from_docs file_paths fs1) (res_trace (app fs))) /\
  (styling_chosen = false ->
   forall label data file_name mime,
     ~ In (St_download_button label data file_name mime) (res_trace (app fs))).
Proof.
  intros Hu Hname.
  assert (Hcall : forall file_paths fs1,
            ~ In (Call_generate_goldens_from_docs file_paths fs1) (res_trace (app fs))).
  { intros file_paths fs1 Hin.
    destruct (app_documents_call _ _ _ Hin)
      as (gpt & t & s0 & _ & _ & _ & _ & Hmk & Hsave & _ & _).
    destruct (save_writes mkdtemp_name uploads [] _ _ Hsave u Hu) as (tgt & Ho & _).
    destruct (unwritable_open (add_dir t fs) mkdtemp_name (name u) Hname) as (e & He).
    congruence. }
  split; [exact Hcall|].
  intros Hs label data file_name mime Hin.
  destruct (app_download _ _ _ _ _ Hin) as (gs & jd & _ & [Hsty|Hdoc]).
  - destruct Hsty as (Hs' & _). congruence.
  - destruct Hdoc as (_ & _ & _ & (s0 & fp & fs1 & syn & Hc & _) & _).
    exact (Hcall _ _ Hc).
Qed.


(** X11: in styling mode, when one of the goldens the library produced
    has no [input] attribute, the attribute error is caught: its message
    is shown as the error of the action, the script runs to its end, and
    no download is offered, not even for the goldens that have one. *)
Theorem styling_golden_without_input fs gs :
  styling_triggered -> styling_goldens gs ->
  (exists g, In g gs /\ g_input g = None) ->
  res_out (app fs) = Return tt /\
  In (St_error (error_message (attribute_error "input"))) (res_trace (app fs)) /\
  (forall label data file_name mime,
     ~ In (St_download_button label data file_name mime) (res_trace (app fs))).
Proof.
  intros (Hs & Hb) (gpt & s0 & syn & Hgpt & Hinit & Hgen & ->) Hmiss.
  pose proof (styling_try_raises gpt entered_input_format
                entered_expected_output_format entered_task entered_scenario
                selected_num_goldens fs s0 syn Hinit Hgen Hmiss) as Hbody.
  assert (Haction :
            styling_action gpt entered_input_format
              entered_expected_output_format entered_task entered_scenario
              selected_num_goldens fs
            = mk_result (Return tt)
                (res_fs (styling_try gpt entered_input_format
                   entered_expected_output_format entered_task
                   entered_scenario selected_num_goldens fs))
                ((St_spinner "Generating synthetic data..." ::
                  res_trace (styling_try gpt entered_input_format
                    entered_expected_output_format entered_task
                    entered_scenario selected_num_goldens fs)) ++
                 styling_handler (attribute_error "input"))).
  { rewrite styling_action_run. cbv zeta. now rewrite Hbody. }
  split; [|split].
  - rewrite (app_run fs gpt Hgpt). cbv zeta. cbn [res_out].
    unfold chosen_mode. rewrite Hs, styling_mode_run. fold generate_pressed.
    rewrite Hb. cbv zeta. cbn [res_out]. now rewrite Haction.
  - apply (app_trace_styling fs gpt); trivial.
    rewrite Haction. cbn [res_trace]. apply in_app_iff. right. left. reflexivity.
  - intros label data file_name mime Hin.
    destruct (app_trace_In _ _ Hin) as [Hk|(gpt' & Hgpt' & _ & Hmode)];
      [simpl in Hk; intuition discriminate|].
    destruct Hmode as [(_ & Hact)|(Hs' & _)]; [|congruence].
    assert (gpt' = gpt) by congruence. subst gpt'.
    apply styling_action_download_in_try in Hact.
    apply styling_try_download_returns in Hact. congruence.
Qed.


(** X13: a Synthesizer is only made after a press of the button; in
    styling mode it gets exactly the configuration made of the four texts
    of the form, in document mode it gets none. *)
Theorem synthesizer_gets_what_was_entered fs styling_config :
  In (Call_Synthesizer styling_config) (res_trace (app fs)) ->
  generate_pressed = true /\
  ((styling_chosen = true /\ styling_config = Some entered_styling_config) \/
   (styling_chosen = false /\ uploads <> [] /\ styling_config = None)).
Proof.
  intros Hin.
  destruct (GPTModel_init (getenv "OPENAI_API_KEY")) as [gpt|e] eqn:Hgpt.
  2:{ rewrite (app_run_no_model fs e Hgpt) in Hin. simpl in Hin.
      intuition discriminate. }
  rewrite (app_run fs gpt Hgpt) in Hin. cbv zeta in Hin. cbn [res_trace] in Hin.
  destruct Hin as [Hin|Hin]; [discriminate|].
  apply in_app_iff in Hin. destruct Hin as [Hin|Hin];
    [simpl in Hin; intuition discriminate|].
  apply in_app_iff in Hin. destruct Hin as [Hin|Hin].
  2:{ destruct (res_out (chosen_mode gpt fs)); simpl in Hin;
        intuition discriminate. }
  unfold chosen_mode in Hin. destruct styling_chosen.
  - rewrite styling_mode_run in Hin. destruct generate_pressed.
    2:{ simpl in Hin. intuition discriminate. }
    cbv zeta in Hin. cbn [res_trace] in Hin.
    apply in_app_iff in Hin. destruct Hin as [Hin|Hin];
      [simpl in Hin; intuition discriminate|].
    apply styling_action_synthesizer in Hin. split; [reflexivity|]. now left.
  - rewrite document_mode_run in Hin. destruct uploads as [|u us] eqn:Hu.
    { simpl in Hin. intuition discriminate. }
    destruct generate_pressed.
    2:{ simpl in Hin. intuition discriminate. }
    cbv zeta in Hin. cbn [res_trace] in Hin.
    apply in_app_iff in Hin. destruct Hin as [Hin|Hin];
      [simpl in Hin; intuition discriminate|].
    destruct Hin as [Hin|Hin]; [discriminate|].
    apply document_action_synthesizer in Hin.
    split; [reflexivity|]. right. now repeat split.
Qed.

(** X14: when the temporary directory cannot be made, the error is caught
    and shown with the hint about the API key; nothing is written, no
    Synthesizer is made, the file system is as before and the page is
    rendered to its end. *)
Theorem no_temporary_directory_no_action fs gpt_model e :
  GPTModel_init (getenv "OPENAI_API_KEY") = Return gpt_model ->
  document_triggered ->
  mkdir fs mkdtemp_name = Raise e ->
  app fs =
    mk_result (Return tt) fs
      (Call_GPTModel (getenv "OPENAI_API_KEY") ::
       page_head ++
       (document_upload ++
        St_button "Generate Data" :: document_spinner :: document_handler e) ++
       page_foot).
Proof.
  intros Hgpt Htr Hmk.
  rewrite (app_run fs gpt_model Hgpt). cbv zeta.
  rewrite (chosen_mode_document gpt_model fs Htr).
  rewrite (document_action_run_no_dir _ _ _ Hmk).
  rewrite (mkdir_raises_Exception _ _ _ Hmk). reflexivity.
Qed.

(** X15: in document mode the keys of every exported object come in one
    fixed order: [input], [expected_output], [context],
    [additional_metadata], [source_file], the last three left out when
    the attribute is missing or empty. *)
Theorem document_export_key_order fs label data file_name mime :
  styling_chosen = false ->
  In (St_download_button label data file_name mime) (res_trace (app fs)) ->
  exists gs json_data,
    document_goldens fs gs /\
    json_dumps (PList json_data) = Return data /\
    in_order (exported_as ordered_keys) gs json_data.
Proof.
  intros Hs Hin.
  destruct (app_download _ _ _ _ _ Hin) as (gs & jd & Hd & [Hsty|Hdoc]).
  - destruct Hsty as (Hs' & _). congruence.
  - destruct Hdoc as (_ & _ & _ & Hgs & Hord).
    exists gs, jd. repeat split; trivial; try apply Hord.
    eapply in_order_impl; [|exact Hord].
    intros g e0. apply document_entry_key_order.
Qed.

(** X16: a line [Processing: <name>] is only shown for an uploaded file,
    and only once that file has been written: the run that shows the line
    has written the bytes of an upload of that name. *)
Theorem processing_means_written fs body :
  In (St_info body) (res_trace (app fs)) ->
  exists u tgt,
    In u uploads /\ body = "Processing: " +:+ name u /\
    In (Sys_write tgt (getvalue u)) (res_trace (app fs)).
Proof.
  intros Hin.
  destruct (app_trace_In _ _ Hin) as [Hk|(gpt & Hgpt & Hb & Hmode)];
    [simpl in Hk; intuition discriminate|].
  destruct Hmode as [(Hs & Hact)|(Hs & Hu & Hact)].
  { exfalso. revert Hact. eapply emits_only_absent.
    - apply emits_styling_action.
    - simpl. intuition discriminate. }
  apply document_action_trace_In in Hact.
  destruct Hact as [Hk|(t & Hmk & Hact)]; [simpl in Hk; intuition discriminate|].
  unfold document_with in Hact.
  apply bind_trace_In in Hact. destruct Hact as [Hact|(fp & _ & Hact)].
  - apply save_info in Hact. destruct Hact as (u & tgt & Hin_u & Hbody & Hw).
    exists u, tgt. split; [exact Hin_u|]. split; [exact Hbody|].
    now apply (save_in_app fs gpt t).
  - exfalso. revert Hact.
    apply emits_only_absent
      with (ks := [K_init; K_from_docs; K_display; K_warning; K_download]).
    + solve_emits.
    + simpl. intuition discriminate.
Qed.

(** X17: when a download is offered, the page shows one expander for each
    golden the library produced, labelled [Example 1], [Example 2], ... in
    the order of the goldens, and no other expander. *)
Theorem examples_are_numbered fs label data file_name mime :
  In (St_download_button label data file_name mime) (res_trace (app fs)) ->
  exists gs,
    ((styling_chosen = true /\ styling_goldens gs) \/
     (styling_chosen = false /\ document_goldens fs gs)) /\
    expander_labels (res_trace (app fs)) = example_labels (length gs).
Proof.
  intros Hin.
  assert (Hhead : expander_labels page_head = []) by reflexivity.
  assert (Hfoot : expander_labels page_foot = []) by reflexivity.
  destruct (app_trace_In _ _ Hin) as [Hk|(gpt & Hgpt & Hb & Hmode)];
    [simpl in Hk; intuition discriminate|].
  destruct Hmode as [(Hs & Hact)|(Hs & Hu & Hact)].
  - (* styling mode *)
    pose proof (styling_action_download_in_try _ _ _ _ _ _ _ _ _ _ _ Hact) as Hbody.
    pose proof (styling_try_download_returns _ _ _ _ _ _ _ _ _ _ _ Hbody) as Hret.
    destruct (styling_action_download _ _ _ _ _ _ _ _ _ _ _ Hact)
      as (s0 & syn & jd & Hinit & Hgen & _).
    exists (synthetic_goldens syn). split.
    { left. split; [exact Hs|]. exists gpt, s0, syn. auto. }
    rewrite (app_run fs gpt Hgpt). cbv zeta. cbn [res_trace].
    unfold chosen_mode. rewrite Hs, styling_mode_run. fold generate_pressed.
    rewrite Hb. cbv zeta. cbn [res_out res_trace].
    rewrite styling_action_run. cbv zeta. rewrite Hret. cbn [res_out res_trace].
    assert (Hform : expander_labels styling_form = []) by reflexivity.
    cbn [expander_labels]. rewrite !expander_labels_app, Hhead, Hfoot, Hform.
    cbn [expander_labels app].
    rewrite (styling_try_labels _ _ _ _ _ _ _ s0 syn Hinit Hgen Hret).
    apply app_nil_r.
  - (* document mode *)
    destruct (document_action_download _ _ _ _ _ _ Hact)
      as (s0 & fp & fs1 & syn & jd & Hcall & Hinit & Hgen & _).
    destruct (document_action_call _ _ _ _ Hcall)
      as (t & s0' & Hmk & Hsave & Hfs1 & _).
    set (r := document_with uploads mkdtemp_name (add_dir t fs)).
    assert (Hr : In (St_download_button label data file_name mime) (res_trace r)).
    { apply document_action_trace_In in Hact.
      destruct Hact as [Hk|(t' & Hmk' & Hact)];
        [simpl in Hk; intuition discriminate|].
      assert (t' = t) by congruence. now subst t'. }
    destruct (document_with_download_returns _ _ _ _ _ _ _ Hr) as [Hret _].
    fold r in Hret.
    assert (Hrun : r = mk_result
                         (res_out (document_results (synthetic_goldens syn) fs1)) fs1
                         ((res_trace (save_uploaded_files mkdtemp_name uploads
                                        (add_dir t fs)) ++
                           [Call_Synthesizer None;
                            Call_generate_goldens_from_docs fp fs1]) ++
                          res_trace (document_results (synthetic_goldens syn) fs1))).
    { unfold r. rewrite (document_with_run _ _ _ fp s0 Hsave Hinit). cbv zeta.
      rewrite Hfs1, Hgen. reflexivity. }
    assert (Hlab : expander_labels (res_trace r)
                   = example_labels (length (synthetic_goldens syn))).
    { rewrite Hrun in Hret |- *. cbn [res_out res_trace] in *.
      rewrite !expander_labels_app.
      rewrite (expander_labels_only [K_write; K_info]);
        [|apply emits_save_uploaded_files|simpl; intuition discriminate].
      cbn [expander_labels app].
      now apply document_results_labels. }
    exists (synthetic_goldens syn). split.
    { right. split; [exact Hs|]. exists s0, fp, fs1, syn. repeat split; trivial.
      now apply (app_trace_document fs gpt). }
    assert (Htr : document_triggered) by (repeat split; trivial).
    rewrite (app_run fs gpt Hgpt). cbv zeta. cbn [res_trace].
    rewrite (chosen_mode_document gpt fs Htr). cbn [res_out res_trace].
    rewrite (document_action_run _ _ _ Hmk). cbv zeta. fold r. rewrite Hret.
    cbn [res_out res_trace].
    assert (Hup : expander_labels document_upload = []) by reflexivity.
    cbn [expander_labels]. rewrite !expander_labels_app, Hhead, Hfoot, Hup.
    cbn [expander_labels app]. rewrite expander_labels_app, Hlab.
    rewrite (expander_labels_only [K_rmtree]);
      [|apply emits_TemporaryDirectory_exit|simpl; intuition discriminate].
    now rewrite !app_nil_r.
Qed.

(** X18: the optional parts of a displayed golden are only shown for a
    golden that has them: a [Context] block means that one of the goldens
    the library produced from the documents has a context that is not
    empty, and a value displayed as JSON is the additional metadata, not
    empty, of one of them.  Styling mode shows neither. *)
Theorem optional_parts_are_shown_when_present fs ev :
  In ev (res_trace (app fs)) ->
  (ev = St_markdown "**Context:**" ->
   exists gs g,
     document_goldens fs gs /\ In g gs /\ present (g_context g) = true) /\
  (forall v, ev = St_json v ->
   exists gs g,
     document_goldens fs gs /\ In g gs /\
     g_additional_metadata g = Some v /\ truthy v = true).
Proof.
  intros Hin. split.
  - intros Hev.
    destruct (app_optional_from_results fs ev (or_introl Hev) Hin)
      as (gs & fs1 & Hgs & Hres).
    destruct (document_results_optional _ _ _ Hres) as [Hc _].
    destruct (Hc Hev) as (g & Hg & Hp).
    now exists gs, g.
  - intros v Hev.
    destruct (app_optional_from_results fs ev
                (or_intror (ex_intro _ v Hev)) Hin)
      as (gs & fs1 & Hgs & Hres).
    destruct (document_results_optional _ _ _ Hres) as [_ Hm].
    destruct (Hm v Hev) as (g & Hg & Hv & Ht).
    now exists gs, g.
Qed.

End Further.

(** * The claims on concrete runs *)

(** An event is in a concrete trace when it is the event at some index. *)
Ltac at_index i := apply (nth_error_In _ i); vm_compute; reflexivity.
Ltac search_from i fuel :=
  lazymatch fuel with
  | O => fail "event not found"
  | S ?fuel' => first [at_index i | search_from (S i) fuel']
  end.
Ltac in_run := search_from 0%nat 60%nat.

(** ** Styling mode, five goldens *)

Section Styled.
Import Demo.Styled.

Lemma styled_download :
  In (St_download_button "Download as JSON" data "synthetic_data.json"
        "application/json")
     (res_trace (app Demo.disk)).
Proof. in_run. Qed.

Lemma styling_export_single_key_witness :
  styling_chosen = true /\
  In (St_download_button "Download as JSON" data "synthetic_data.json"
        "application/json")
     (res_trace (app Demo.disk)) /\
  exists gs json_data,
    styling_goldens gs /\
    json_dumps (PList json_data) = Return data /\
    in_order (exported_as styling_keys) gs json_data.
Proof.
  split; [reflexivity|]. split; [exact styled_download|].
  exact (styling_export_single_key Demo.disk _ _ _ _ eq_refl styled_download).
Defined.

Lemma styled_slider_bounded : slider_bounded.
Proof. intros label lo hi v Hv. exact Hv. Qed.

Lemma styled_call :
  In (Call_generate_goldens_from_scratch 5) (res_trace (app Demo.disk)).
Proof. in_run. Qed.

Lemma num_goldens_within_bounds_witness :
  slider_bounded /\
  In (Call_generate_goldens_from_scratch 5) (res_trace (app Demo.disk)) /\
  1 <= 5 <= 50.
Proof.
  split; [exact styled_slider_bounded|]. split; [exact styled_call|].
  exact (num_goldens_within_bounds Demo.disk 5 styled_slider_bounded styled_call).
Defined.

End Styled.

(** ** Document mode, two documents *)

Section TwoDocuments.
Import Demo.TwoDocuments.

Lemma two_download :
  In (St_download_button "Download as JSON" data "synthetic_data_from_docs.json"
        "application/json")
     (res_trace (app Demo.disk)).
Proof. in_run. Qed.

Lemma two_call :
  In (Call_generate_goldens_from_docs paths Demo.disk_with_a_b)
     (res_trace (app Demo.disk)).
Proof. in_run. Qed.

Lemma document_export_keys_witness :
  styling_chosen = false /\
  In (St_download_button "Download as JSON" data "synthetic_data_from_docs.json"
        "application/json")
     (res_trace (app Demo.disk)) /\
  exists gs json_data,
    document_goldens Demo.disk gs /\
    json_dumps (PList json_data) = Return data /\
    in_order (exported_as document_keys) gs json_data.
Proof.
  split; [reflexivity|]. split; [exact two_download|].
  exact (document_export_keys Demo.disk _ _ _ _ eq_refl two_download).
Defined.

Lemma export_in_generation_order_witness :
  In (St_download_button "Download as JSON" data "synthetic_data_from_docs.json"
        "application/json")
     (res_trace (app Demo.disk)) /\
  exists gs json_data,
    json_dumps (PList json_data) = Return data /\
    length json_data = length gs /\
    ((styling_chosen = true /\ styling_goldens gs /\
      in_order (exports styling_entry) gs json_data) \/
     (styling_chosen = false /\ document_goldens Demo.disk gs /\
      in_order (exports document_entry) gs json_data)).
Proof.
  split; [exact two_download|].
  exact (export_in_generation_order Demo.disk _ _ _ _ two_download).
Defined.

Lemma documents_call_needs_uploads_witness :
  In (Call_generate_goldens_from_docs paths Demo.disk_with_a_b)
     (res_trace (app Demo.disk)) /\
  uploads <> [] /\ paths <> [] /\ length paths = length uploads.
Proof.
  split; [exact two_call|].
  exact (documents_call_needs_uploads Demo.disk _ _ two_call).
Defined.

End TwoDocuments.

(** ** Document mode, nothing produced *)

Section NothingProduced.
Import Demo.NothingProduced.

Lemma nothing_goldens : document_goldens Demo.disk [].
Proof.
  exists [], ["/tmp/tmpk3x9/a.txt"], Demo.disk_with_a, [].
  split; [in_run|]. repeat split.
Qed.

Lemma empty_result_is_a_warning_witness :
  document_goldens Demo.disk [] /\
  In (St_warning empty_warning) (res_trace (app Demo.disk)) /\
  (forall label data file_name mime,
      ~ In (St_download_button label data file_name mime) (res_trace (app Demo.disk))) /\
  (forall body, ~ In (St_error body) (res_trace (app Demo.disk))) /\
  res_out (app Demo.disk) = Return tt.
Proof.
  split; [exact nothing_goldens|].
  exact (empty_result_is_a_warning Demo.disk nothing_goldens).
Defined.

End NothingProduced.

(** ** Document mode, one name uploaded twice *)

Section SameNameTwice.
Import Demo.SameNameTwice.

Lemma twice_call :
  In (Call_generate_goldens_from_docs paths disk_at_call)
     (res_trace (app Demo.disk)).
Proof. in_run. Qed.

Lemma same_name_same_file_witness :
  In (Call_generate_goldens_from_docs paths disk_at_call)
     (res_trace (app Demo.disk)) /\
  paths = map upload_path uploads /\
  nth_error paths 0 = nth_error paths 2 /\
  In (Sys_write (Demo.tmp_dir ++ ["a.txt"]) Demo.hello) (res_trace (app Demo.disk)) /\
  In (Sys_write (Demo.tmp_dir ++ ["a.txt"]) Demo.world) (res_trace (app Demo.disk)) /\
  files disk_at_call !! (Demo.tmp_dir ++ ["a.txt"]) = Some Demo.world.
Proof.
  split; [exact twice_call|].
  destruct (same_name_same_file Demo.disk _ _ twice_call)
    as (Hpaths & Hsame & Hwritten & Hlast).
  split; [exact Hpaths|]. split; [|split; [|split]].
  - destruct (Hsame 0%nat 2%nat Demo.a_txt Demo.a_txt_again eq_refl eq_refl eq_refl)
      as [H0 H2].
    now rewrite H0, H2.
  - destruct (Hwritten Demo.a_txt) as (t & Ht & Hw); [now left|].
    vm_compute in Ht. injection Ht as <-. exact Hw.
  - destruct (Hwritten Demo.a_txt_again) as (t & Ht & Hw); [right; right; now left|].
    vm_compute in Ht. injection Ht as <-. exact Hw.
  - apply (Hlast [] Demo.a_txt [Demo.b_txt] Demo.a_txt_again []
             (Demo.tmp_dir ++ ["a.txt"]) eq_refl eq_refl).
    + vm_compute. reflexivity.
    + intros w [].
Defined.

End SameNameTwice.

(** ** Document mode, a golden without an expected output *)

Section OneUnanswered.
Import Demo.OneUnanswered.

(** C1, as stated, fails: the export of a golden whose expected output is
    [None] has the key [expected_output] all the same. *)
Lemma document_export_key_of_empty_field :
  document_goldens Demo.disk [Demo.unanswered "Why?"] /\
  exports document_entry (Demo.unanswered "Why?") (PDict entry) /\
  In (St_download_button "Download as JSON" (Demo.export_of [PDict entry])
        "synthetic_data_from_docs.json" "application/json")
     (res_trace (app Demo.disk)) /\
  In "expected_output" (dict_keys entry) /\
  present (field "expected_output" (Demo.unanswered "Why?")) = false /\
  ~ keys_only_when_present (Demo.unanswered "Why?") entry.
Proof.
  split; [|split; [|split; [|split; [|split]]]].
  - exists [], ["/tmp/tmpk3x9/a.txt"], Demo.disk_with_a, [Demo.unanswered "Why?"].
    split; [in_run|]. repeat split.
  - intros fs. reflexivity.
  - in_run.
  - simpl. tauto.
  - reflexivity.
  - intros Hkeys. specialize (Hkeys "expected_output"). simpl in Hkeys.
    assert (false = true) by (apply Hkeys; tauto). discriminate.
Qed.

End OneUnanswered.

(** ** Styling mode, the library interrupted *)

Section InterruptedStyling.
Import Demo.InterruptedStyling.

(** C4, as stated, fails: a [KeyboardInterrupt] raised by the library is
    not caught; the action, and with it the script, ends by raising it,
    and no error message is shown. *)
Lemma interrupt_ends_the_action :
  let x := Styling_run tt entered_input_format entered_expected_output_format
             entered_task entered_scenario selected_num_goldens in
  res_out (action_body x Demo.disk) = Raise (mk_exn KeyboardInterrupt EmptyString) /\
  res_out (action x Demo.disk) = Raise (mk_exn KeyboardInterrupt EmptyString) /\
  res_out (app Demo.disk) = Raise (mk_exn KeyboardInterrupt EmptyString) /\
  (forall body, ~ In (St_error body) (res_trace (app Demo.disk))).
Proof.
  intros x.
  split; [vm_compute; reflexivity|].
  split; [vm_compute; reflexivity|].
  split; [vm_compute; reflexivity|].
  intros body Hin. vm_compute in Hin.
  repeat (destruct Hin as [Hin|Hin]; [discriminate Hin|]). exact Hin.
Qed.

End InterruptedStyling.

(** ** Styling mode, the library refused *)

Section UnauthorizedStyling.
Import Demo.UnauthorizedStyling.

Example refusal_is_shown :
  res_out (app Demo.disk) = Return tt /\
  In (St_error "Error generating synthetic data: Incorrect API key provided")
     (res_trace (app Demo.disk)).
Proof. split; [vm_compute; reflexivity|in_run]. Qed.

End UnauthorizedStyling.

(** ** Document mode, an upload named [../leak.txt] *)

Section Escaping.
Import Demo.Escaping.

(** C5 fails on this run: the file made for the upload lies beside the
    temporary directory, not in it; the directory is removed when the
    action is over, and the file is still there. *)
Lemma escaping_upload_outlives_the_action :
  upload_path Demo.leak_txt = "/tmp/tmpk3x9/../leak.txt" /\
  res_out (app Demo.disk) = Return tt /\
  In (Sys_mkdtemp Demo.tmp_dir) (res_trace (app Demo.disk)) /\
  In (Sys_write ["tmp"; "leak.txt"] Demo.world) (res_trace (app Demo.disk)) /\
  In (Sys_rmtree Demo.tmp_dir) (res_trace (app Demo.disk)) /\
  files Demo.disk !! ["tmp"; "leak.txt"] = None /\
  files (res_fs (app Demo.disk)) !! ["tmp"; "leak.txt"] = Some Demo.world.
Proof.
  split; [reflexivity|].
  split; [vm_compute; reflexivity|].
  split; [in_run|]. split; [in_run|]. split; [in_run|].
  split; vm_compute; reflexivity.
Qed.

End Escaping.

(** ** Document mode, an upload named [/home/notes.txt] *)

Section Absolute.
Import Demo.Absolute.

(** C8 fails on this run: the join with an absolute name is that name;
    the bytes are written, unchanged, to [/home/notes.txt], which is not
    in the temporary directory, and that path is what the library is
    given. *)
Lemma absolute_upload_is_written_outside :
  upload_path Demo.notes_txt = "/home/notes.txt" /\
  In (Sys_mkdtemp Demo.tmp_dir) (res_trace (app Demo.disk)) /\
  In (Sys_write ["home"; "notes.txt"] Demo.hello) (res_trace (app Demo.disk)) /\
  ~ inside Demo.tmp_dir ["home"; "notes.txt"] /\
  In (Call_generate_goldens_from_docs ["/home/notes.txt"] disk_at_call)
     (res_trace (app Demo.disk)) /\
  files (res_fs (app Demo.disk)) !! ["home"; "notes.txt"] = Some Demo.hello.
Proof.
  split; [reflexivity|].
  split; [in_run|]. split; [in_run|].
  split; [intros [k Hk]; discriminate Hk|].
  split; [in_run|].
  vm_compute. reflexivity.
Qed.

End Absolute.

(** * The further properties on concrete runs *)

(** ** The button not pressed *)

Section Idle.
Import Scene.Idle.


End Idle.

(** ** Nothing uploaded *)

Section NoUpload.
Import Scene.NoUpload.

Lemma no_upload_no_button_witness :
  GPTModel_init (getenv "OPENAI_API_KEY") = Return tt /\
  styling_chosen = false /\ uploads = [] /\
  app Demo.disk =
    mk_result (Return tt) Demo.disk
      (Call_GPTModel (getenv "OPENAI_API_KEY") ::
       page_head ++ document_upload ++ page_foot).
Proof.
  split; [reflexivity|]. split; [reflexivity|]. split; [reflexivity|].
  exact (no_upload_no_button Demo.disk tt eq_refl eq_refl eq_refl).
Defined.

End NoUpload.

(** ** No API key *)

Section NoKey.
Import Scene.NoKey.

Lemma only_the_model_client_fails_the_script_witness :
  res_out (app Demo.disk) = Raise Scene.missing_key /\
  ((GPTModel_init (getenv "OPENAI_API_KEY") = Raise Scene.missing_key /\
    res_trace (app Demo.disk) = [Call_GPTModel (getenv "OPENAI_API_KEY")] /\
    res_fs (app Demo.disk) = Demo.disk) \/
   (isinstance_Exception Scene.missing_key = false /\ generate_pressed = true)).
Proof.
  assert (Hout : res_out (app Demo.disk) = Raise Scene.missing_key)
    by (vm_compute; reflexivity).
  split; [exact Hout|].
  exact (only_the_model_client_fails_the_script Demo.disk _ Hout).
Defined.

End NoKey.

(** ** Two documents *)

Section TwoPlainDocuments.
Import Demo.TwoDocuments.



Lemma two_documents_call :
  In (Call_generate_goldens_from_docs paths Demo.disk_with_a_b)
     (res_trace (app Demo.disk)).
Proof. in_run. Qed.

Lemma two_documents_download :
  In (St_download_button "Download as JSON" data "synthetic_data_from_docs.json"
        "application/json")
     (res_trace (app Demo.disk)).
Proof. in_run. Qed.






Lemma uploads_written_before_the_call_witness :
  In (Call_generate_goldens_from_docs paths Demo.disk_with_a_b)
     (res_trace (app Demo.disk)) /\
  exists before after,
    res_trace (app Demo.disk)
      = before ++ Call_generate_goldens_from_docs paths Demo.disk_with_a_b :: after /\
    (forall u, In u uploads ->
       exists tgt, upload_target Demo.disk_with_a_b u = Some tgt /\
                   In (Sys_write tgt (getvalue u)) before) /\
    (forall tgt data, ~ In (Sys_write tgt data) after).
Proof.
  split; [exact two_documents_call|].
  exact (uploads_written_before_the_call Demo.disk _ _ two_documents_call).
Defined.

Lemma document_export_key_order_witness :
  styling_chosen = false /\
  In (St_download_button "Download as JSON" data "synthetic_data_from_docs.json"
        "application/json")
     (res_trace (app Demo.disk)) /\
  exists gs json_data,
    document_goldens Demo.disk gs /\
    json_dumps (PList json_data) = Return data /\
    in_order (exported_as ordered_keys) gs json_data.
Proof.
  split; [reflexivity|]. split; [exact two_documents_download|].
  exact (document_export_key_order Demo.disk _ _ _ _ eq_refl two_documents_download).
Defined.

Lemma two_documents_processing :
  In (St_info "Processing: a.txt") (res_trace (app Demo.disk)).
Proof. in_run. Qed.

Lemma two_documents_context :
  In (St_markdown "**Context:**") (res_trace (app Demo.disk)).
Proof. in_run. Qed.

Lemma processing_means_written_witness :
  In (St_info "Processing: a.txt") (res_trace (app Demo.disk)) /\
  exists u tgt,
    In u uploads /\ "Processing: a.txt" = "Processing: " +:+ name u /\
    In (Sys_write tgt (getvalue u)) (res_trace (app Demo.disk)).
Proof.
  split; [exact two_documents_processing|].
  exact (processing_means_written Demo.disk _ two_documents_processing).
Defined.

Lemma examples_are_numbered_witness :
  In (St_download_button "Download as JSON" data "synthetic_data_from_docs.json"
        "application/json")
     (res_trace (app Demo.disk)) /\
  exists gs,
    ((styling_chosen = true /\ styling_goldens gs) \/
     (styling_chosen = false /\ document_goldens Demo.disk gs)) /\
    expander_labels (res_trace (app Demo.disk)) = example_labels (length gs).
Proof.
  split; [exact two_documents_download|].
  exact (examples_are_numbered Demo.disk _ _ _ _ two_documents_download).
Defined.

Lemma optional_parts_are_shown_when_present_witness :
  In (St_markdown "**Context:**") (res_trace (app Demo.disk)) /\
  exists gs g,
    document_goldens Demo.disk gs /\ In g gs /\ present (g_context g) = true.
Proof.
  split; [exact two_documents_context|].
  exact (proj1 (optional_parts_are_shown_when_present Demo.disk _
                  two_documents_context) eq_refl).
Defined.

End TwoPlainDocuments.

(** ** An upload named [..] *)

Section DotDot.
Import Scene.DotDot.

Lemma unwritable_upload_stops_the_action_witness :
  In Scene.dotdot uploads /\ unwritable_name (name Scene.dotdot) = true /\
  (forall file_paths fs1,
      ~ In (Call_generate_goldens_from_docs file_paths fs1)
           (res_trace (app Demo.disk))) /\
  (styling_chosen = false ->
   forall label data file_name mime,
     ~ In (St_download_button label data file_name mime) (res_trace (app Demo.disk))).
Proof.
  assert (Hu : In Scene.dotdot uploads) by (left; reflexivity).
  split; [exact Hu|]. split; [reflexivity|].
  exact (unwritable_upload_stops_the_action Demo.disk _ Hu eq_refl).
Defined.

End DotDot.

(** ** Styling mode, five goldens *)

Section StyledAgain.
Import Demo.Styled.


Lemma styled_run_synthesizer :
  In (Call_Synthesizer (Some entered_styling_config)) (res_trace (app Demo.disk)).
Proof. in_run. Qed.


Lemma synthesizer_gets_what_was_entered_witness :
  In (Call_Synthesizer (Some entered_styling_config)) (res_trace (app Demo.disk)) /\
  generate_pressed = true /\
  ((styling_chosen = true /\
    Some entered_styling_config = Some entered_styling_config) \/
   (styling_chosen = false /\ uploads <> [] /\ Some entered_styling_config = None)).
Proof.
  split; [exact styled_run_synthesizer|].
  exact (synthesizer_gets_what_was_entered Demo.disk _ styled_run_synthesizer).
Defined.

End StyledAgain.

(** ** Styling mode, a golden without an input *)

Section StylingNoInput.
Import Scene.StylingNoInput.

Lemma no_input_goldens :
  styling_goldens [Demo.question "I have a headache."; Scene.blank].
Proof. exists tt, [], [Demo.question "I have a headache."; Scene.blank]. repeat split. Qed.

Lemma no_input_missing :
  exists g, In g [Demo.question "I have a headache."; Scene.blank] /\ g_input g = None.
Proof. exists Scene.blank. split; [right; left; reflexivity|reflexivity]. Qed.

Lemma styling_golden_without_input_witness :
  styling_triggered /\
  styling_goldens [Demo.question "I have a headache."; Scene.blank] /\
  (exists g, In g [Demo.question "I have a headache."; Scene.blank] /\
             g_input g = None) /\
  res_out (app Demo.disk) = Return tt /\
  In (St_error (error_message (attribute_error "input"))) (res_trace (app Demo.disk)) /\
  (forall label data file_name mime,
     ~ In (St_download_button label data file_name mime) (res_trace (app Demo.disk))).
Proof.
  assert (Htr : styling_triggered) by (split; reflexivity).
  split; [exact Htr|]. split; [exact no_input_goldens|].
  split; [exact no_input_missing|].
  exact (styling_golden_without_input Demo.disk _ Htr no_input_goldens
           no_input_missing).
Defined.

End StylingNoInput.

(** ** Document mode, a golden without an expected output *)

Section DocumentNoAnswer.
Import Scene.DocumentNoAnswer.




End DocumentNoAnswer.

(** ** No place for the temporary directory *)

Section NoTmp.
Import Scene.NoTmp.

Lemma no_temporary_directory_no_action_witness :
  GPTModel_init (getenv "OPENAI_API_KEY") = Return tt /\
  document_triggered /\
  mkdir Demo.disk mkdtemp_name = Raise (no_such_file "/var/tmp/tmpk3x9") /\
  app Demo.disk =
    mk_result (Return tt) Demo.disk
      (Call_GPTModel (getenv "OPENAI_API_KEY") ::
       page_head ++
       (document_upload ++
        St_button "Generate Data" :: document_spinner ::
        document_handler (no_such_file "/var/tmp/tmpk3x9")) ++
       page_foot).
Proof.
  assert (Htr : document_triggered)
    by (split; [reflexivity|split; [discriminate|reflexivity]]).
  assert (Hmk : mkdir Demo.disk mkdtemp_name = Raise (no_such_file "/var/tmp/tmpk3x9"))
    by (vm_compute; reflexivity).
  split; [reflexivity|]. split; [exact Htr|]. split; [exact Hmk|].
  exact (no_temporary_directory_no_action Demo.disk tt _ eq_refl Htr Hmk).
Defined.

End NoTmp.
